(** * AIDocuVerification: the decision pipeline, embedded and verified

    A shallow embedding of the backend's decision core:

    - [app/schemas/document.py]   (document types, recommendations, records),
    - [app/services/validator.py] (syntactic validation rules),
    - [app/services/fraud.py]     (fraud-signal aggregation),
    - [app/services/pipeline.py]  (recommendation policy and orchestration).

    The pipeline consumes the JSON object returned by the vision-language
    model, so the embedding works on untyped JSON values and keeps Python's
    dynamic failures visible: every operation that can raise returns a
    [result], and an uncaught exception of the source is a [Raise] of the
    model. *)

From Stdlib Require Import ZArith NArith List String Ascii Bool Lia.
From Stdlib Require Import Floats DecimalString.
Import ListNotations.

Set Warnings "-inexact-float,-register-all".
Set Implicit Arguments.

(** ** Python values *)

Module Py.

(** A [str] is a sequence of Unicode code points. *)
Definition pystr := list N.

(** ASCII literals of the source. *)
Definition lit (s : string) : pystr :=
  map N_of_ascii (list_ascii_of_string s).

Fixpoint str_eqb (a b : pystr) : bool :=
  match a, b with
  | [], [] => true
  | x :: a', y :: b' => (x =? y)%N && str_eqb a' b'
  | _, _ => false
  end.

(** [a <= b] on strings: lexicographic on code points. *)
Fixpoint str_leb (a b : pystr) : bool :=
  match a, b with
  | [], _ => true
  | _ :: _, [] => false
  | x :: a', y :: b' =>
      if (x <? y)%N then true
      else if (y <? x)%N then false
      else str_leb a' b'
  end.

(** [needle in haystack] on strings. *)
Fixpoint prefixb (p s : pystr) : bool :=
  match p, s with
  | [], _ => true
  | _ :: _, [] => false
  | x :: p', y :: s' => (x =? y)%N && prefixb p' s'
  end.

Fixpoint contains (s needle : pystr) : bool :=
  prefixb needle s ||
  match s with
  | [] => false
  | _ :: s' => contains s' needle
  end.

(** What [json.loads] produces.  A [dict] is its [items()] list: Python
    dicts keep insertion order. *)
Inductive json : Type :=
| JNull
| JBool (b : bool)
| JInt (z : Z)
| JFloat (f : float)
| JStr (s : pystr)
| JList (l : list json)
| JDict (d : list (pystr * json)).

(** The exceptions the modelled code can raise. *)
Inductive exn : Type :=
| AttributeError
| TypeError
| ValueError
| OverflowError.

Inductive result (A : Type) : Type :=
| Ok (a : A)
| Raise (e : exn).
Arguments Ok {A} a.
Arguments Raise {A} e.

Definition bind {A B : Type} (c : result A) (k : A -> result B) : result B :=
  match c with
  | Ok a => k a
  | Raise e => Raise e
  end.

(** Truth value of an object ([bool(v)], [not v], [if v:]). *)
Definition truthy (v : json) : bool :=
  match v with
  | JNull => false
  | JBool b => b
  | JInt z => negb (z =? 0)%Z
  | JFloat f => negb (f =? 0)%float
  | JStr s => match s with [] => false | _ => true end
  | JList l => match l with [] => false | _ => true end
  | JDict d => match d with [] => false | _ => true end
  end.

Definition isinstance_dict (v : json) : bool :=
  match v with JDict _ => true | _ => false end.

Definition isinstance_str (v : json) : bool :=
  match v with JStr _ => true | _ => false end.

Fixpoint lookup (k : pystr) (d : list (pystr * json)) : option json :=
  match d with
  | [] => None
  | (k', v) :: d' => if str_eqb k k' then Some v else lookup k d'
  end.

(** [v.get(k, default)]: only a dict has the method. *)
Definition get (v : json) (k : pystr) (default : json) : result json :=
  match v with
  | JDict d =>
      Ok (match lookup k d with Some x => x | None => default end)
  | _ => Raise AttributeError
  end.

(** [v.items()]. *)
Definition items (v : json) : result (list (pystr * json)) :=
  match v with
  | JDict d => Ok d
  | _ => Raise AttributeError
  end.

(** [for x in v]: lists yield their elements, strings their characters,
    dicts their keys; nothing else is iterable. *)
Definition iter (v : json) : result (list json) :=
  match v with
  | JList l => Ok l
  | JStr s => Ok (map (fun c => JStr [c]) s)
  | JDict d => Ok (map (fun kv => JStr (fst kv)) d)
  | _ => Raise TypeError
  end.

(** [len(v)]. *)
Definition len (v : json) : result nat :=
  match v with
  | JStr s => Ok (List.length s)
  | JList l => Ok (List.length l)
  | JDict d => Ok (List.length d)
  | _ => Raise TypeError
  end.

(** *** Numbers

    JSON numbers arrive as [int] or [float]; [bool] is a subclass of
    [int].  Python compares an [int] with a [float] exactly. *)

Definition int_of_bool (b : bool) : Z := if b then 1%Z else 0%Z.

(** [z ? f] for an integer and a float, exact; [None] when [f] is NaN. *)
Definition int_float_compare (z : Z) (f : float) : option comparison :=
  match Prim2SF f with
  | S754_nan => None
  | S754_zero _ => Some (z ?= 0)%Z
  | S754_infinity s => Some (if s then Gt else Lt)
  | S754_finite s m e =>
      let v := if s then Z.neg m else Z.pos m in
      Some (if (0 <=? e)%Z
            then (z ?= v * 2 ^ e)%Z
            else (z * 2 ^ (- e) ?= v)%Z)
  end.

Definition int_ltb_float (z : Z) (f : float) : bool :=
  match int_float_compare z f with
  | Some Lt => true
  | _ => false
  end.

Definition int_geb_float (z : Z) (f : float) : bool :=
  match int_float_compare z f with
  | Some Eq | Some Gt => true
  | _ => false
  end.

(** [v < c] and [v >= c] against a float constant [c]. *)
Definition lt_float (v : json) (c : float) : result bool :=
  match v with
  | JFloat f => Ok (f <? c)%float
  | JInt z => Ok (int_ltb_float z c)
  | JBool b => Ok (int_ltb_float (int_of_bool b) c)
  | _ => Raise TypeError
  end.

Definition ge_float (v : json) (c : float) : result bool :=
  match v with
  | JFloat f => Ok (c <=? f)%float
  | JInt z => Ok (int_geb_float z c)
  | JBool b => Ok (int_geb_float (int_of_bool b) c)
  | _ => Raise TypeError
  end.

(** [float(z)] for an [int]: round to nearest, ties to even;
    [OverflowError] beyond the binary64 range. *)
Definition float_of_int (z : Z) : result float :=
  let f := SF2Prim (binary_normalize prec emax z 0 false) in
  if is_infinity f then Raise OverflowError else Ok f.

(** *** Dates *)

Record datetime : Type := mk_datetime {
  year : Z; month : Z; day : Z;
  hour : Z; minute : Z; second : Z; microsecond : Z
}.

Fixpoint lex_compare (a b : list Z) : comparison :=
  match a, b with
  | x :: a', y :: b' =>
      match (x ?= y)%Z with
      | Eq => lex_compare a' b'
      | c => c
      end
  | _, _ => Eq
  end.

Definition datetime_fields (d : datetime) : list Z :=
  [year d; month d; day d; hour d; minute d; second d; microsecond d].

(** [a > b] on naive datetimes. *)
Definition datetime_gtb (a b : datetime) : bool :=
  match lex_compare (datetime_fields a) (datetime_fields b) with
  | Gt => true
  | _ => false
  end.

End Py.

Import Py.

Declare Scope py_scope.
Delimit Scope py_scope with py.
Notation "x <- c ;; k" := (bind c (fun x => k))
  (at level 61, c at next level, right associativity) : py_scope.
Open Scope py_scope.

(** ** The interpreter's libraries

    What the code calls but the repository does not define.  ASCII behaviour
    is fixed below; the Unicode character database beyond ASCII, number
    formatting and parsing, and [datetime.strptime] are tables and functions
    of the runtime. *)

Class Runtime : Type := {
  (** [str.isspace] / regex [\s] on a code point above 127 *)
  unicode_isspace : N -> bool;
  (** regex [\d] (decimal digit) on a code point above 127 *)
  unicode_isdecimal : N -> bool;
  (** lower-case mapping of the code point at an index of a string, when
      that code point is above 127 (it may depend on the context and may
      yield several code points) *)
  unicode_lower : pystr -> nat -> list N;
  (** upper-case mapping of a code point above 127 *)
  unicode_upper : N -> list N;
  (** [format(x, ".2f")] on a float *)
  format_2f : float -> pystr;
  (** [str(v)] on a value that is not a string *)
  str_of : json -> pystr;
  (** [float(s)] on a string; [None] is [ValueError] *)
  float_of_str : pystr -> option float;
  (** [datetime.strptime(s, fmt)]; [None] is [ValueError] *)
  strptime : pystr -> pystr -> option datetime
}.

(** ** Strings, numbers and regular expressions over a runtime *)

Section Builtins.

Context {rt : Runtime}.

Definition isspace (c : N) : bool :=
  if (c <? 128)%N
  then ((9 <=? c) && (c <=? 13) || (28 <=? c) && (c <=? 32))%N
  else unicode_isspace c.

Definition isdecimal (c : N) : bool :=
  if (c <? 128)%N
  then ((48 <=? c) && (c <=? 57))%N
  else unicode_isdecimal c.

Definition in_range (lo hi c : N) : bool := ((lo <=? c) && (c <=? hi))%N.

Definition ascii_lower (c : N) : N :=
  if in_range 65 90 c then (c + 32)%N else c.

Definition ascii_upper (c : N) : N :=
  if in_range 97 122 c then (c - 32)%N else c.

Fixpoint lower_from (whole : pystr) (i : nat) (s : pystr) : pystr :=
  match s with
  | [] => []
  | c :: s' =>
      (if (c <? 128)%N then [ascii_lower c] else unicode_lower whole i)
        ++ lower_from whole (S i) s'
  end.

(** [s.lower()] *)
Definition lower (s : pystr) : pystr := lower_from s 0 s.

(** [s.upper()] *)
Definition upper (s : pystr) : pystr :=
  flat_map (fun c => if (c <? 128)%N then [ascii_upper c] else unicode_upper c) s.

Fixpoint lstrip (s : pystr) : pystr :=
  match s with
  | c :: s' => if isspace c then lstrip s' else s
  | [] => []
  end.

(** [s.strip()] *)
Definition strip (s : pystr) : pystr := rev (lstrip (rev (lstrip s))).

(** Method calls on a value that may not be a string. *)
Definition lower_of (v : json) : result pystr :=
  match v with JStr s => Ok (lower s) | _ => Raise AttributeError end.

Definition upper_of (v : json) : result pystr :=
  match v with JStr s => Ok (upper s) | _ => Raise AttributeError end.

Definition strip_of (v : json) : result pystr :=
  match v with JStr s => Ok (strip s) | _ => Raise AttributeError end.

(** [str(v)] and the plain interpolation of [v] in an f-string. *)
Definition py_str (v : json) : pystr :=
  match v with JStr s => s | _ => str_of v end.

(** [float(v)] *)
Definition py_float (v : json) : result float :=
  match v with
  | JFloat f => Ok f
  | JInt z => float_of_int z
  | JBool b => float_of_int (int_of_bool b)
  | JStr s =>
      match float_of_str s with
      | Some f => Ok f
      | None => Raise ValueError
      end
  | _ => Raise TypeError
  end.

(** The interpolation [{v:.2f}]: an [int] is converted to [float] first. *)
Definition fmt_2f (v : json) : result pystr :=
  match v with
  | JFloat f => Ok (format_2f f)
  | JInt z => f <- float_of_int z ;; Ok (format_2f f)
  | JBool b => f <- float_of_int (int_of_bool b) ;; Ok (format_2f f)
  | JStr _ => Raise ValueError
  | _ => Raise TypeError
  end.

(** [datetime.strptime(v, fmt)]: a non-string argument is a [TypeError]. *)
Definition py_strptime (v : json) (fmt : pystr) : result datetime :=
  match v with
  | JStr s =>
      match strptime s fmt with
      | Some d => Ok d
      | None => Raise ValueError
      end
  | _ => Raise TypeError
  end.

(** *** The regular expressions of the validator

    Each anchored pattern of the source is a sequence of character classes
    with fixed repetition counts between [^] and [$]. *)

Definition cclass : Type := N -> bool.

(** Consume exactly [n] characters of the class. *)
Fixpoint match_rep (cl : cclass) (n : nat) (s : pystr) : option pystr :=
  match n with
  | O => Some s
  | S n' =>
      match s with
      | c :: s' => if cl c then match_rep cl n' s' else None
      | [] => None
      end
  end.

Fixpoint match_seq (p : list (cclass * nat)) (s : pystr) : option pystr :=
  match p with
  | [] => Some s
  | (cl, n) :: p' =>
      match match_rep cl n s with
      | Some rest => match_seq p' rest
      | None => None
      end
  end.

(** [$] without [re.MULTILINE]: the end of the string, or just before a
    newline that ends the string. *)
Definition at_dollar (s : pystr) : bool :=
  match s with
  | [] => true
  | [c] => (c =? 10)%N
  | _ => false
  end.

(** [re.match(r'^...$', v)] is not [None], on a string [v]. *)
Definition re_match (p : list (cclass * nat)) (v : pystr) : bool :=
  match match_seq p v with
  | Some rest => at_dollar rest
  | None => false
  end.

(** [re.sub(r'\s+', '', v)]: every run of whitespace is deleted. *)
Definition re_sub_spaces (v : json) : result pystr :=
  match v with
  | JStr s => Ok (filter (fun c => negb (isspace c)) s)
  | _ => Raise TypeError
  end.

(** [re.search(r'[...]', v)] is not [None], for a one-class pattern. *)
Definition re_search_class (cl : cclass) (v : json) : result bool :=
  match v with
  | JStr s => Ok (existsb cl s)
  | _ => Raise TypeError
  end.

End Builtins.

Arguments lit s : simpl never.

(** ** Schemas ([app/schemas/document.py]) *)

Inductive DocumentType : Type :=
| AADHAAR
| PAN
| VOTER_ID
| DRIVING_LICENSE
| PASSPORT
| BIRTH_CERTIFICATE
| UNKNOWN.

Definition DocumentType_value (d : DocumentType) : pystr :=
  match d with
  | AADHAAR => lit "aadhaar"
  | PAN => lit "pan"
  | VOTER_ID => lit "voter_id"
  | DRIVING_LICENSE => lit "driving_license"
  | PASSPORT => lit "passport"
  | BIRTH_CERTIFICATE => lit "birth_certificate"
  | UNKNOWN => lit "unknown"
  end.

Definition DocumentType_members : list DocumentType :=
  [AADHAAR; PAN; VOTER_ID; DRIVING_LICENSE; PASSPORT; BIRTH_CERTIFICATE; UNKNOWN].

(** [DocumentType(s)]: the member whose value is [s], else [ValueError]. *)
Definition DocumentType_of (s : pystr) : result DocumentType :=
  match find (fun d => str_eqb s (DocumentType_value d)) DocumentType_members with
  | Some d => Ok d
  | None => Raise ValueError
  end.

Inductive Recommendation : Type :=
| APPROVE
| REVIEW
| REJECT.

Record ExtractedField : Type := mk_ExtractedField {
  value : pystr;
  confidence : float
}.

Record FraudSignal : Type := mk_FraudSignal {
  type_ : pystr;
  description : pystr;
  severity : pystr
}.

Record VerificationResult : Type := mk_VerificationResult {
  request_id : pystr;
  document_type : DocumentType;
  confidence_score : float;
  fields : list (pystr * ExtractedField);
  validation_errors : list pystr;
  fraud_signals : list FraudSignal;
  recommendation : Recommendation;
  explanation : pystr
}.

(** ** Validation rules ([app/services/validator.py]) *)

Section Validator.

Context {rt : Runtime}.

(** [fields.get(name, {}).get("value", "")] *)
Definition field_value (fields : json) (name : pystr) : result json :=
  entry <- get fields name (JDict []) ;;
  get entry (lit "value") (JStr []).

Definition validate_aadhaar (fields : json) : result (list pystr) :=
  let errors := [] in
  id_number <- field_value fields (lit "id_number") ;;
  clean_id <- re_sub_spaces id_number ;;
  let errors :=
    if negb (re_match [(isdecimal, 12%nat)] clean_id)
    then errors ++ [lit "Aadhaar number must be exactly 12 digits"]
    else errors in
  Ok errors.

Definition validate_pan (fields : json) : result (list pystr) :=
  let errors := [] in
  id_number <- field_value fields (lit "id_number") ;;
  upper_id <- upper_of id_number ;;
  let clean_id := strip upper_id in
  let errors :=
    if negb (re_match [(in_range 65 90, 5%nat); (in_range 48 57, 4%nat);
                       (in_range 65 90, 1%nat)] clean_id)
    then errors ++ [lit "PAN number must be in format ABCDE1234F"]
    else errors in
  Ok errors.

Definition validate_voter_id (fields : json) : result (list pystr) :=
  let errors := [] in
  id_number <- field_value fields (lit "id_number") ;;
  upper_id <- upper_of id_number ;;
  let clean_id := strip upper_id in
  let errors :=
    if negb (re_match [(in_range 65 90, 3%nat); (isdecimal, 7%nat)] clean_id)
    then errors ++ [lit "Voter ID format appears invalid"]
    else errors in
  Ok errors.

Definition date_formats : list pystr :=
  [lit "%d-%m-%Y"; lit "%d/%m/%Y"; lit "%Y-%m-%d"; lit "%d %b %Y"; lit "%d %B %Y"].

(** The parsing loop: the first format that parses ends it ([break]); a
    [ValueError] moves on to the next format; anything else propagates. *)
Fixpoint parse_date (dob : json) (formats : list pystr) : result (option datetime) :=
  match formats with
  | [] => Ok None
  | fmt :: rest =>
      match py_strptime dob fmt with
      | Ok d => Ok (Some d)
      | Raise ValueError => parse_date dob rest
      | Raise e => Raise e
      end
  end.

(** [now] is the value of [datetime.now()]. *)
Definition validate_dob (now : datetime) (fields : json) : result (list pystr) :=
  let errors := [] in
  dob <- field_value fields (lit "dob") ;;
  if negb (truthy dob) then Ok []
  else
    parsed_date <- parse_date dob date_formats ;;
    let errors :=
      match parsed_date with
      | None => errors ++ [lit "Could not parse date of birth: " ++ py_str dob]
      | Some d =>
          if datetime_gtb d now
          then errors ++ [lit "Date of birth cannot be in the future"]
          else if (year d <? 1900)%Z
          then errors ++ [lit "Date of birth year seems too old"]
          else errors
      end in
    Ok errors.

(** The class [[0-9@#$%^&*()_+=\[\]{}|\\<>]]. *)
Definition suspicious_char (c : N) : bool :=
  in_range 48 57 c || existsb (N.eqb c) (lit "@#$%^&*()_+=[]{}|\<>").

Definition validate_name (fields : json) : result (list pystr) :=
  let errors := [] in
  name <- field_value fields (lit "name") ;;
  missing <- (if negb (truthy name) then Ok true
              else stripped <- strip_of name ;;
                   Ok (List.length stripped <? 2)%nat) ;;
  let errors :=
    if missing : bool
    then errors ++ [lit "Name field is missing or too short"]
    else errors in
  found <- re_search_class suspicious_char name ;;
  let errors :=
    if found : bool
    then errors ++ [lit "Name contains suspicious characters"]
    else errors in
  Ok errors.

Definition validate_fields (now : datetime) (document_type : DocumentType)
    (fields : json) : result (list pystr) :=
  let errors := [] in
  name_errors <- validate_name fields ;;
  let errors := errors ++ name_errors in
  dob_errors <- validate_dob now fields ;;
  let errors := errors ++ dob_errors in
  match document_type with
  | AADHAAR =>
      id_errors <- validate_aadhaar fields ;;
      Ok (errors ++ id_errors)
  | PAN =>
      id_errors <- validate_pan fields ;;
      Ok (errors ++ id_errors)
  | VOTER_ID =>
      id_errors <- validate_voter_id fields ;;
      Ok (errors ++ id_errors)
  | _ => Ok errors
  end.

End Validator.

(** ** Fraud signals ([app/services/fraud.py]) *)

Section Fraud.

Context {rt : Runtime}.

(** The field loop of [check_low_confidence]: only dict-shaped entries are
    looked at. *)
Fixpoint low_field_loop (entries : list (pystr * json))
    (signals : list FraudSignal) : result (list FraudSignal) :=
  match entries with
  | [] => Ok signals
  | (field_name, field_data) :: rest =>
      if isinstance_dict field_data then
        confidence <- get field_data (lit "confidence") (JInt 0) ;;
        low <- lt_float confidence 0.3 ;;
        if low : bool then
          shown <- fmt_2f confidence ;;
          low_field_loop rest
            (signals ++
             [mk_FraudSignal (lit "LOW_FIELD_CONFIDENCE")
                (lit "Field '" ++ field_name ++
                 lit "' has very low confidence (" ++ shown ++ lit ")")
                (lit "LOW")])
        else low_field_loop rest signals
      else low_field_loop rest signals
  end.

Definition check_low_confidence (extraction_result : json)
    : result (list FraudSignal) :=
  let signals := [] in
  overall_confidence <- get extraction_result (lit "confidence") (JInt 0) ;;
  low <- lt_float overall_confidence 0.5 ;;
  signals <-
    (if low : bool then
       shown <- fmt_2f overall_confidence ;;
       Ok (signals ++
           [mk_FraudSignal (lit "LOW_CONFIDENCE")
              (lit "Overall extraction confidence is very low (" ++ shown ++ lit ")")
              (lit "MEDIUM")])
     else Ok signals) ;;
  fields <- get extraction_result (lit "fields") (JDict []) ;;
  entries <- items fields ;;
  low_field_loop entries signals.

(** [any(p(c) for c in l)]: stops at the first true element. *)
Fixpoint py_any (p : json -> result bool) (l : list json) : result bool :=
  match l with
  | [] => Ok false
  | c :: l' =>
      b <- p c ;;
      if b : bool then Ok true else py_any p l'
  end.

(** [U+0900 <= c <= U+097F], as strings *)
Definition is_devanagari (c : json) : result bool :=
  match c with
  | JStr s => Ok (str_leb [2304%N] s && str_leb s [2431%N])
  | _ => Raise TypeError
  end.

(** ['a' <= c.lower() <= 'z'] *)
Definition is_latin (c : json) : result bool :=
  l <- lower_of c ;;
  Ok (str_leb (lit "a") l && str_leb l (lit "z")).

Definition check_field_consistency (extraction_result : json)
    : result (list FraudSignal) :=
  let signals := [] in
  fields <- get extraction_result (lit "fields") (JDict []) ;;
  entry <- get fields (lit "name") (JDict []) ;;
  name <- get entry (lit "value") (JStr []) ;;
  chars <- iter name ;;
  has_devanagari <- py_any is_devanagari chars ;;
  has_latin <- py_any is_latin chars ;;
  mixed <- (if has_devanagari && has_latin
            then n <- len name ;; Ok (20 <? n)%nat
            else Ok false) ;;
  if mixed : bool then
    Ok (signals ++
        [mk_FraudSignal (lit "MIXED_SCRIPTS")
           (lit "Name field contains mixed scripts - verify authenticity")
           (lit "LOW")])
  else Ok signals.

Definition issue_severity (issue : pystr) : pystr :=
  let severity := lit "MEDIUM" in
  if contains (lower issue) (lit "tamper") || contains (lower issue) (lit "edit")
  then lit "HIGH"
  else if contains (lower issue) (lit "blur") || contains (lower issue) (lit "quality")
  then lit "LOW"
  else severity.

Fixpoint issues_loop (issues : list json) (signals : list FraudSignal)
    : list FraudSignal :=
  match issues with
  | [] => signals
  | issue :: rest =>
      match issue with
      | JStr s =>
          issues_loop rest
            (signals ++
             [mk_FraudSignal (lit "VLM_DETECTED_ISSUE") s (issue_severity s)])
      | _ => issues_loop rest signals
      end
  end.

Definition check_issues_from_vlm (extraction_result : json)
    : result (list FraudSignal) :=
  let signals := [] in
  issues <- get extraction_result (lit "issues") (JList []) ;;
  l <- iter issues ;;
  Ok (issues_loop l signals).

(** [for x in l: signals.append(f(x))] *)
Definition append_each {A : Type} (f : A -> FraudSignal) (l : list A)
    (signals : list FraudSignal) : list FraudSignal :=
  fold_left (fun acc x => acc ++ [f x]) l signals.

Definition check_llm_fraud_analysis (extraction_result : json)
    : result (list FraudSignal) :=
  let signals := [] in
  fraud_data <- get extraction_result (lit "fraud_analysis") (JDict []) ;;
  if negb (truthy fraud_data) then Ok signals
  else
    raw_score <- get fraud_data (lit "validity_score") (JFloat 1.0) ;;
    validity_score <- py_float raw_score ;;
    signals <-
      (if (validity_score <? 0.6)%float then
         reasoning <- get fraud_data (lit "reasoning")
                        (JStr (lit "Low validity score detected")) ;;
         Ok (signals ++
             [mk_FraudSignal (lit "LOW_VALIDITY_SCORE")
                (lit "AI Validity Check Failed (" ++ format_2f validity_score ++
                 lit "): " ++ py_str reasoning)
                (if (validity_score <? 0.4)%float then lit "HIGH" else lit "MEDIUM")])
       else Ok signals) ;;
    is_genuine <- get fraud_data (lit "is_genuine_appearance") (JBool true) ;;
    let signals :=
      if negb (truthy is_genuine)
      then signals ++
           [mk_FraudSignal (lit "VISUAL_ANOMALY")
              (lit "Document does not appear genuine (visual check failed)")
              (lit "HIGH")]
      else signals in
    suspicious_elements <- get fraud_data (lit "suspicious_elements") (JList []) ;;
    elements <- iter suspicious_elements ;;
    let signals :=
      append_each
        (fun element =>
           mk_FraudSignal (lit "SUSPICIOUS_ELEMENT")
             (lit "Suspicious: " ++ py_str element) (lit "MEDIUM"))
        elements signals in
    alterations <- get fraud_data (lit "alterations_detected") (JList []) ;;
    altered <- iter alterations ;;
    let signals :=
      append_each
        (fun alteration =>
           mk_FraudSignal (lit "ALTERATION_DETECTED")
             (lit "Tampering detected: " ++ py_str alteration) (lit "HIGH"))
        altered signals in
    Ok signals.

Definition detect_fraud_signals (extraction_result : json)
    : result (list FraudSignal) :=
  let signals := [] in
  found <- check_low_confidence extraction_result ;;
  let signals := signals ++ found in
  found <- check_field_consistency extraction_result ;;
  let signals := signals ++ found in
  found <- check_issues_from_vlm extraction_result ;;
  let signals := signals ++ found in
  found <- check_llm_fraud_analysis extraction_result ;;
  let signals := signals ++ found in
  Ok signals.

End Fraud.

(** ** Recommendation policy and orchestration ([app/services/pipeline.py]) *)

Section Pipeline.

Context {rt : Runtime}.

(** [str(n)] for a length. *)
Definition decimal (n : nat) : pystr :=
  lit (NilZero.string_of_uint (Nat.to_uint n)).

(** Truth value of a list. *)
Definition nonempty {A : Type} (l : list A) : bool :=
  match l with
  | [] => false
  | _ :: _ => true
  end.

Definition determine_recommendation (validation_errors : list pystr)
    (fraud_signals : list FraudSignal) (overall_confidence : json)
    (is_readable : json) : result (Recommendation * pystr) :=
  if negb (truthy is_readable) then
    Ok (REVIEW, lit "Document is not readable or too low quality")
  else
    let high_severity_frauds :=
      filter (fun s => str_eqb (severity s) (lit "HIGH")) fraud_signals in
    match high_severity_frauds with
    | first :: _ =>
        Ok (REVIEW, lit "Potential fraud detected: " ++ description first)
    | [] =>
        if (3 <=? List.length validation_errors)%nat then
          Ok (REVIEW,
              lit "Multiple validation issues found (" ++
              decimal (List.length validation_errors) ++ lit " errors)")
        else
          low <- lt_float overall_confidence 0.6 ;;
          if low : bool then
            shown <- fmt_2f overall_confidence ;;
            Ok (REVIEW, lit "Low extraction confidence (" ++ shown ++ lit ")")
          else if nonempty validation_errors || nonempty fraud_signals then
            high <- ge_float overall_confidence 0.8 ;;
            if high : bool
            then Ok (APPROVE, lit "Minor issues detected but confidence is high")
            else Ok (REVIEW, lit "Some issues require manual verification")
          else
            high <- ge_float overall_confidence 0.85 ;;
            if high : bool
            then Ok (APPROVE, lit "All checks passed with high confidence")
            else Ok (APPROVE, lit "Verification complete with acceptable confidence")
    end.

(** Lines 83-90 of [run_verification_pipeline]: the explicit hint is
    converted outside any [try]; the extracted type string is converted
    inside one. *)
Definition resolve_document_type (document_type_hint : option pystr)
    (extraction_result : json) : result DocumentType :=
  match document_type_hint with
  | Some ((_ :: _) as hint) => DocumentType_of (lower hint)
  | _ =>
      raw <- get extraction_result (lit "document_type") (JStr (lit "unknown")) ;;
      doc_type_str <- lower_of raw ;;
      match DocumentType_of doc_type_str with
      | Ok d => Ok d
      | Raise ValueError => Ok UNKNOWN
      | Raise e => Raise e
      end
  end.

(** [fields[k] = v] on a dict. *)
Fixpoint dict_set {V : Type} (d : list (pystr * V)) (k : pystr) (v : V)
    : list (pystr * V) :=
  match d with
  | [] => [(k, v)]
  | (k', v') :: d' =>
      if str_eqb k k' then (k', v) :: d' else (k', v') :: dict_set d' k v
  end.

(** The normalisation loop (lines 97-105). *)
Fixpoint normalize_loop (entries : list (pystr * json))
    (fields : list (pystr * ExtractedField))
    : result (list (pystr * ExtractedField)) :=
  match entries with
  | [] => Ok fields
  | (field_name, field_data) :: rest =>
      field <-
        (if isinstance_dict field_data then
           raw_value <- get field_data (lit "value") (JStr []) ;;
           raw_confidence <- get field_data (lit "confidence") (JFloat 0.5) ;;
           c <- py_float raw_confidence ;;
           Ok (mk_ExtractedField (py_str raw_value) c)
         else Ok (mk_ExtractedField (py_str field_data) 0.5)) ;;
      normalize_loop rest (dict_set fields field_name field)
  end.

Definition normalize_fields (raw_fields : json)
    : result (list (pystr * ExtractedField)) :=
  entries <- items raw_fields ;;
  normalize_loop entries [].

(** Line 92: the overall confidence handed to the policy. *)
Definition pipeline_confidence (extraction_result : json) : result json :=
  get extraction_result (lit "confidence") (JFloat 0.5).

(** [VerificationResult(confidence_score=...)]: the schema's [float] field
    stores the number as a float.  The value has been compared with float
    constants by then, so it is an [int], a [bool] or a [float]. *)
Definition as_confidence_score (v : json) : result float := py_float v.

(** [run_verification_pipeline] from the point where [extract_fields] has
    returned [extraction_result]; [now] is the clock read by the date
    check. *)
Definition run_verification_pipeline (now : datetime) (request_id : pystr)
    (document_type_hint : option pystr) (extraction_result : json)
    : result VerificationResult :=
  doc_type <- resolve_document_type document_type_hint extraction_result ;;
  overall_confidence <- pipeline_confidence extraction_result ;;
  is_readable <- get extraction_result (lit "is_readable") (JBool true) ;;
  raw_fields <- get extraction_result (lit "fields") (JDict []) ;;
  fields <- normalize_fields raw_fields ;;
  validation_errors <- validate_fields now doc_type raw_fields ;;
  fraud_signals <- detect_fraud_signals extraction_result ;;
  decision <- determine_recommendation validation_errors fraud_signals
                overall_confidence is_readable ;;
  score <- as_confidence_score overall_confidence ;;
  Ok (mk_VerificationResult request_id doc_type score fields
        validation_errors fraud_signals (fst decision) (snd decision)).

End Pipeline.

(** ** Reading the model's answer ([app/services/extractor.py]) *)

Section Extractor.

Context {rt : Runtime}.

(** The first occurrence of [sep] in [s]: the text before it and the text
    after it. *)
Fixpoint first_occurrence (sep s : pystr) {struct s} : option (pystr * pystr) :=
  if prefixb sep s then Some ([], skipn (List.length sep) s)
  else match s with
       | [] => None
       | c :: s' =>
           match first_occurrence sep s' with
           | Some (before, after) => Some (c :: before, after)
           | None => None
           end
       end.

(** [s.split(sep)] for a non-empty [sep]: the pieces between the occurrences
    of [sep], found from the left without overlap.  Every cut removes at
    least one character, so the length of [s] bounds the number of cuts. *)
Fixpoint split_from (cuts : nat) (sep s : pystr) : list pystr :=
  match first_occurrence sep s, cuts with
  | Some (before, after), S cuts' => before :: split_from cuts' sep after
  | _, _ => [s]
  end.

Definition py_split (sep s : pystr) : list pystr :=
  split_from (List.length s) sep s.

(** The text [extract_fields_openrouter] hands to [json.loads]: the body of
    the first fenced block, a block tagged [json] first, else the whole
    answer.  [None] is an [IndexError]. *)
Definition json_str (text_response : pystr) : option pystr :=
  if contains text_response (lit "```json") then
    match nth_error (py_split (lit "```json") text_response) 1 with
    | Some tail =>
        match nth_error (py_split (lit "```") tail) 0 with
        | Some block => Some (strip block)
        | None => None
        end
    | None => None
    end
  else if contains text_response (lit "```") then
    match nth_error (py_split (lit "```") text_response) 1 with
    | Some tail =>
        match nth_error (py_split (lit "```") tail) 0 with
        | Some block => Some (strip block)
        | None => None
        end
    | None => None
    end
  else Some (strip text_response).

End Extractor.

(** ** The MCP tool [validate_id_number] ([app/mcp_server.py]) *)

Section McpServer.

Context {rt : Runtime}.

(** The payloads [handle_validate_id_number] serialises: an unsupported
    type ([valid] false, one error naming the type), the outcome of the
    validation, and an exception caught by the handler ([valid] false and
    the text of the exception). *)
Inductive IdReply : Type :=
| Unsupported (id_type : pystr)
| Validated (valid : bool) (id_type : pystr) (id_number : json)
    (errors : list pystr)
| Failed (e : exn).

Definition type_mapping : list (pystr * DocumentType) :=
  [(lit "aadhaar", AADHAAR); (lit "pan", PAN); (lit "voter_id", VOTER_ID)].

Fixpoint mapping_get (k : pystr) (m : list (pystr * DocumentType))
    : option DocumentType :=
  match m with
  | [] => None
  | (k', v) :: m' => if str_eqb k k' then Some v else mapping_get k m'
  end.

Definition handle_validate_id_number (now : datetime) (arguments : json)
    : IdReply :=
  match
    (id_type_arg <- get arguments (lit "id_type") (JStr []) ;;
     id_type <- lower_of id_type_arg ;;
     id_number <- get arguments (lit "id_number") (JStr []) ;;
     match mapping_get id_type type_mapping with
     | None => Ok (Unsupported id_type)
     | Some doc_type =>
         let fields :=
           JDict [(lit "id_number",
                   JDict [(lit "value", id_number);
                          (lit "confidence", JFloat 1.0)])] in
         errors <- validate_fields now doc_type fields ;;
         Ok (Validated (List.length errors =? 0)%nat id_type id_number errors)
     end)
  with
  | Ok reply => reply
  | Raise e => Failed e
  end.

(** The [valid] key of the payload. *)
Definition reply_valid (reply : IdReply) : bool :=
  match reply with
  | Validated valid _ _ _ => valid
  | Unsupported _ | Failed _ => false
  end.

End McpServer.

(** ** Officer decisions ([app/api/v1/endpoints/verify.py], [app/schemas/document.py]) *)

Definition Recommendation_value (r : Recommendation) : pystr :=
  match r with
  | APPROVE => lit "APPROVE"
  | REVIEW => lit "REVIEW"
  | REJECT => lit "REJECT"
  end.

Inductive Decision : Type :=
| Decision_APPROVE
| Decision_REJECT
| Decision_REVIEW.

Definition Decision_value (d : Decision) : pystr :=
  match d with
  | Decision_APPROVE => lit "APPROVE"
  | Decision_REJECT => lit "REJECT"
  | Decision_REVIEW => lit "REVIEW"
  end.

Module DecisionRequest.

Record t : Type := mk {
  request_id : pystr;
  final_decision : Decision;
  override_reason : option pystr;
  corrected_data : option json
}.

End DecisionRequest.

(** [v != s] for a string [s]: only an equal string is equal to it. *)
Definition ne_str (v : json) (s : pystr) : bool :=
  match v with
  | JStr t => negb (str_eqb t s)
  | _ => true
  end.

Definition optional_str (s : option pystr) : json :=
  match s with
  | Some t => JStr t
  | None => JNull
  end.

(** What [submit_decision] does with the row [data] the store returned for
    the request: a 404, the entry inserted in [audit_logs] with the message
    of the response, or an exception the handler does not catch. *)
Inductive DecisionOutcome : Type :=
| HTTP_404
| Inserted (audit_entry : json) (message : pystr)
| Unhandled (e : exn).

Definition submit_decision (data : json) (decision : DecisionRequest.t)
    (officer_id : json) : DecisionOutcome :=
  if negb (truthy data) then HTTP_404
  else
    match
      (raw_response <- get data (lit "raw_response") (JDict []) ;;
       original_recommendation <-
         get raw_response (lit "recommendation") (JStr (lit "REVIEW")) ;;
       let final := Decision_value (DecisionRequest.final_decision decision) in
       let was_overridden := ne_str original_recommendation final in
       Ok (JDict
             [(lit "request_id", JStr (DecisionRequest.request_id decision));
              (lit "officer_id", officer_id);
              (lit "officer_decision", JStr final);
              (lit "was_overridden", JBool was_overridden);
              (lit "override_reason",
               if was_overridden
               then optional_str (DecisionRequest.override_reason decision)
               else JNull)]))
    with
    | Ok audit_entry =>
        Inserted audit_entry
          (lit "Decision '"
             ++ Decision_value (DecisionRequest.final_decision decision)
             ++ lit "' recorded successfully")
    | Raise e => Unhandled e
    end.

(** ** A reference runtime

    A concrete runtime on which the model runs: the C locale, and a
    character database that knows Basic Latin, the Unicode white space and
    the Devanagari digits (every other code point is caseless and neither a
    space nor a digit).  The theorems below hold for every runtime; this one
    evaluates the examples. *)

Module Reference.

Definition ref_isspace (c : N) : bool :=
  existsb (N.eqb c) [133; 160; 5760; 8232; 8233; 8239; 8287; 12288]%N
  || ((8192 <=? c) && (c <=? 8202))%N.

Definition ref_isdecimal (c : N) : bool := ((2406 <=? c) && (c <=? 2415))%N.

Definition ref_lower (whole : pystr) (i : nat) : list N :=
  match nth_error whole i with
  | Some c => [c]
  | None => []
  end.

Definition ref_upper (c : N) : list N := [c].

Definition digits_of (n : N) : pystr :=
  lit (NilZero.string_of_uint (N.to_uint n)).

(** *** [format(x, ".2f")]: the exact binary value, rounded half-even to
    hundredths. *)

Definition round_half_even (num den : Z) : Z :=
  let q := (num / den)%Z in
  match (2 * (num mod den) ?= den)%Z with
  | Lt => q
  | Gt => (q + 1)%Z
  | Eq => if Z.even q then q else (q + 1)%Z
  end.

Definition fixed2 (negative : bool) (hundredths : Z) : pystr :=
  let frac := Z.to_N (hundredths mod 100) in
  (if negative then lit "-" else []) ++
  digits_of (Z.to_N (hundredths / 100)) ++ lit "." ++
  (if (frac <? 10)%N then lit "0" else []) ++ digits_of frac.

Definition ref_format_2f (f : float) : pystr :=
  match Prim2SF f with
  | S754_nan => lit "nan"
  | S754_infinity s => if s then lit "-inf" else lit "inf"
  | S754_zero s => fixed2 s 0
  | S754_finite s m e =>
      fixed2 s (if (0 <=? e)%Z
                then (Z.pos m * 2 ^ e * 100)%Z
                else round_half_even (Z.pos m * 100) (2 ^ (- e)))
  end.

(** *** [str(v)] for the scalars; floats and containers are not rendered
    by this runtime. *)

Definition ref_str_of (v : json) : pystr :=
  match v with
  | JNull => lit "None"
  | JBool b => if b then lit "True" else lit "False"
  | JInt z => (if (z <? 0)%Z then lit "-" else []) ++ digits_of (Z.abs_N z)
  | JStr s => s
  | JFloat _ => lit "<float>"
  | JList _ => lit "<list>"
  | JDict _ => lit "<dict>"
  end.

(** *** [float(s)] on decimal literals: sign, digits, fraction, exponent,
    and the names inf, infinity and nan; correctly rounded. *)

Definition ascii_space (c : N) : bool :=
  ((9 <=? c) && (c <=? 13) || (28 <=? c) && (c <=? 32))%N.

Definition ascii_digit (c : N) : option Z :=
  if ((48 <=? c) && (c <=? 57))%N then Some (Z.of_N c - 48)%Z else None.

(** The longest digit prefix, as (value, number of digits, rest). *)
Fixpoint take_digits (s : pystr) (acc : Z) (n : nat) : Z * nat * pystr :=
  match s with
  | c :: s' =>
      match ascii_digit c with
      | Some d => take_digits s' (acc * 10 + d)%Z (S n)
      | None => (acc, n, s)
      end
  | [] => (acc, n, s)
  end.

Definition take_sign (s : pystr) : bool * pystr :=
  match s with
  | 45%N :: s' => (true, s')
  | 43%N :: s' => (false, s')
  | _ => (false, s)
  end.

(** [mant * 10 ^ p], rounded to nearest, ties to even. *)
Definition decimal_to_float (negative : bool) (mant p : Z) : float :=
  SF2Prim
    (if (mant =? 0)%Z then S754_zero negative
     else if (0 <=? p)%Z then
       binary_normalize prec emax ((if negative then - mant else mant) * 10 ^ p)%Z 0 false
     else
       let '(q, e, l) := SFdiv_core_binary prec emax mant 0 (10 ^ (- p)) 0 in
       binary_round_aux prec emax negative q e l).

Definition parse_exponent (s : pystr) : option Z :=
  match s with
  | [] => Some 0%Z
  | c :: s' =>
      if ((c =? 101) || (c =? 69))%N then
        let '(negative, s'') := take_sign s' in
        match take_digits s'' 0 0 with
        | (x, S _, []) => Some (if negative then - x else x)%Z
        | _ => None
        end
      else None
  end.

Definition ref_float_of_str (s : pystr) : option float :=
  let trim := fix trim (s : pystr) : pystr :=
    match s with
    | c :: s' => if ascii_space c || ref_isspace c then trim s' else s
    | [] => []
    end in
  let body := rev (trim (rev (trim s))) in
  let '(negative, body) := take_sign body in
  let name := map (fun c => if ((65 <=? c) && (c <=? 90))%N then (c + 32)%N else c) body in
  if str_eqb name (lit "inf") || str_eqb name (lit "infinity")
  then Some (if negative then neg_infinity else infinity)
  else if str_eqb name (lit "nan") then Some nan
  else
    let '(whole, n1, rest) := take_digits body 0 0 in
    let '(mant, n2, rest) :=
      match rest with
      | 46%N :: rest' => take_digits rest' whole 0
      | _ => (whole, 0%nat, rest)
      end in
    if Nat.eqb (n1 + n2) 0 then None
    else
      match parse_exponent rest with
      | Some x => Some (decimal_to_float negative mant (x - Z.of_nat n2))
      | None => None
      end.

(** *** [datetime.strptime] in the C locale

    The format is compiled to a sequence of items, matched against the
    text with the alternatives of each item tried in the order of the
    library's regular expression; the first complete match is taken, and
    text left over after it is an error. *)

Inductive item : Type :=
| IDay            (* %d: 3[0-1] | [1-2]\d | 0[1-9] | [1-9] | space [1-9] *)
| IMonth          (* %m: 1[0-2] | 0[1-9] | [1-9] *)
| IYear           (* %Y: four digits *)
| IAbbr           (* %b *)
| IFull           (* %B *)
| ISpaces         (* white space in the format: one or more spaces *)
| ILit (c : N).

Fixpoint compile (fmt : pystr) : option (list item) :=
  match fmt with
  | [] => Some []
  | 37%N :: d :: rest =>
      match compile rest with
      | None => None
      | Some items =>
          if (d =? 100)%N then Some (IDay :: items)
          else if (d =? 109)%N then Some (IMonth :: items)
          else if (d =? 89)%N then Some (IYear :: items)
          else if (d =? 98)%N then Some (IAbbr :: items)
          else if (d =? 66)%N then Some (IFull :: items)
          else None
      end
  | c :: rest =>
      match compile rest with
      | None => None
      | Some items =>
          if ascii_space c || ref_isspace c then
            match items with
            | ISpaces :: _ => Some items
            | _ => Some (ISpaces :: items)
            end
          else Some (ILit c :: items)
      end
  end.

Record ymd : Type := mk_ymd { y_ : Z; m_ : Z; d_ : Z }.

(** A decimal digit of the regular expression's class [\d]. *)
Definition digit (c : N) : option Z :=
  match ascii_digit c with
  | Some d => Some d
  | None => if ref_isdecimal c then Some (Z.of_N c - 2406)%Z else None
  end.

Definition between (lo hi : Z) (c : N) : option Z :=
  match ascii_digit c with
  | Some d => if ((lo <=? d) && (d <=? hi))%Z then Some d else None
  | None => None
  end.

Definition fold_case (c : N) : N :=
  if ((65 <=? c) && (c <=? 90))%N then (c + 32)%N else c.

Fixpoint name_prefix (name s : pystr) : option pystr :=
  match name, s with
  | [], _ => Some s
  | a :: name', c :: s' =>
      if (fold_case c =? a)%N then name_prefix name' s' else None
  | _ :: _, [] => None
  end.

Fixpoint month_alts (names : list string) (number : Z) (s : pystr)
    : list (Z * pystr) :=
  match names with
  | [] => []
  | name :: names' =>
      match name_prefix (lit name) s with
      | Some rest => [(number, rest)]
      | None => []
      end ++ month_alts names' (number + 1) s
  end.

(** The non-empty prefixes of the leading white space, longest first. *)
Fixpoint space_alts (s : pystr) : list pystr :=
  match s with
  | c :: s' =>
      if ascii_space c || ref_isspace c then space_alts s' ++ [s'] else []
  | [] => []
  end.

Definition day_alts (s : pystr) : list (Z * pystr) :=
  match s with
  | c1 :: s1 =>
      let two (first : option Z) :=
        match first, s1 with
        | Some a, c2 :: s2 => Some (a, c2, s2)
        | _, _ => None
        end in
      match two (between 3 3 c1) with
      | Some (a, c2, s2) =>
          match between 0 1 c2 with Some b => [(a * 10 + b, s2)%Z] | None => [] end
      | None => []
      end ++
      match two (between 1 2 c1) with
      | Some (a, c2, s2) =>
          match digit c2 with Some b => [(a * 10 + b, s2)%Z] | None => [] end
      | None => []
      end ++
      match two (between 0 0 c1) with
      | Some (_, c2, s2) =>
          match between 1 9 c2 with Some b => [(b, s2)] | None => [] end
      | None => []
      end ++
      match between 1 9 c1 with Some a => [(a, s1)] | None => [] end ++
      match (c1 =? 32)%N, s1 with
      | true, c2 :: s2 =>
          match between 1 9 c2 with Some b => [(b, s2)] | None => [] end
      | _, _ => []
      end
  | [] => []
  end.

Definition month_number_alts (s : pystr) : list (Z * pystr) :=
  match s with
  | c1 :: s1 =>
      match between 1 1 c1, s1 with
      | Some _, c2 :: s2 =>
          match between 0 2 c2 with Some b => [(10 + b, s2)%Z] | None => [] end
      | _, _ => []
      end ++
      match between 0 0 c1, s1 with
      | Some _, c2 :: s2 =>
          match between 1 9 c2 with Some b => [(b, s2)] | None => [] end
      | _, _ => []
      end ++
      match between 1 9 c1 with Some a => [(a, s1)] | None => [] end
  | [] => []
  end.

Definition year_alts (s : pystr) : list (Z * pystr) :=
  match s with
  | c1 :: c2 :: c3 :: c4 :: rest =>
      match digit c1, digit c2, digit c3, digit c4 with
      | Some a, Some b, Some c, Some d =>
          [(a * 1000 + b * 100 + c * 10 + d, rest)%Z]
      | _, _, _, _ => []
      end
  | _ => []
  end.

Definition abbreviated : list string :=
  ["jan"; "feb"; "mar"; "apr"; "may"; "jun";
   "jul"; "aug"; "sep"; "oct"; "nov"; "dec"]%string.

Definition full_names : list string :=
  ["january"; "february"; "march"; "april"; "may"; "june"; "july";
   "august"; "september"; "october"; "november"; "december"]%string.

Definition alts (it : item) (s : pystr) (acc : ymd) : list (ymd * pystr) :=
  let set_d := map (fun '(v, rest) => (mk_ymd (y_ acc) (m_ acc) v, rest)) in
  let set_m := map (fun '(v, rest) => (mk_ymd (y_ acc) v (d_ acc), rest)) in
  let set_y := map (fun '(v, rest) => (mk_ymd v (m_ acc) (d_ acc), rest)) in
  match it with
  | IDay => set_d (day_alts s)
  | IMonth => set_m (month_number_alts s)
  | IYear => set_y (year_alts s)
  | IAbbr => set_m (month_alts abbreviated 1 s)
  | IFull => set_m (month_alts full_names 1 s)
  | ISpaces => map (fun rest => (acc, rest)) (space_alts s)
  | ILit c =>
      match s with
      | c' :: rest => if (fold_case c' =? fold_case c)%N then [(acc, rest)] else []
      | [] => []
      end
  end.

Fixpoint run (items : list item) (s : pystr) (acc : ymd) : option (ymd * pystr) :=
  match items with
  | [] => Some (acc, s)
  | it :: items' =>
      fold_right
        (fun alt otherwise =>
           match run items' (snd alt) (fst alt) with
           | Some r => Some r
           | None => otherwise
           end)
        None (alts it s acc)
  end.

Definition is_leap (y : Z) : bool :=
  ((y mod 4 =? 0) && (negb (y mod 100 =? 0) || (y mod 400 =? 0)))%Z.

Definition days_in_month (y m : Z) : Z :=
  if (m =? 2)%Z then (if is_leap y then 29 else 28)%Z
  else if ((m =? 4) || (m =? 6) || (m =? 9) || (m =? 11))%Z then 30%Z
  else 31%Z.

Definition ref_strptime (s fmt : pystr) : option datetime :=
  match compile fmt with
  | None => None
  | Some items =>
      match run items s (mk_ymd 1900 1 1) with
      | Some (date, []) =>
          if ((1 <=? y_ date) && (1 <=? m_ date) && (m_ date <=? 12) &&
              (1 <=? d_ date) && (d_ date <=? days_in_month (y_ date) (m_ date)))%Z
          then Some (mk_datetime (y_ date) (m_ date) (d_ date) 0 0 0 0)
          else None
      | _ => None
      end
  end.

#[export] Instance runtime : Runtime := {
  unicode_isspace := ref_isspace;
  unicode_isdecimal := ref_isdecimal;
  unicode_lower := ref_lower;
  unicode_upper := ref_upper;
  format_2f := ref_format_2f;
  str_of := ref_str_of;
  float_of_str := ref_float_of_str;
  strptime := ref_strptime
}.

End Reference.

(** ** Vocabulary of the properties

    The notions the specification's sentences use, stated on their own so
    that each property compares the code with them. *)

Section Vocabulary.

Context {rt : Runtime}.

(** The text with every white-space character removed. *)
Definition without_whitespace (s : pystr) : pystr :=
  filter (fun c => negb (isspace c)) s.

(** Exactly twelve characters, each a decimal digit. *)
Definition twelve_digits (s : pystr) : bool :=
  Nat.eqb (List.length s) 12 && forallb isdecimal s.

Definition aadhaar_error : pystr :=
  lit "Aadhaar number must be exactly 12 digits".

(** A fields mapping that holds just an [id_number] record. *)
Definition id_number_only (id_number : string) : json :=
  JDict [(lit "id_number", JDict [(lit "value", JStr (lit id_number))])].

(** The result of the first format, in order, that parses the text. *)
Definition first_parse (s : pystr) (formats : list pystr) : option datetime :=
  match find (fun fmt => match strptime s fmt with Some _ => true | None => false end)
          formats with
  | Some fmt => strptime s fmt
  | None => None
  end.

(** The outcome of the date-of-birth rule on a non-empty text: one parse
    attempt, then at most one of three errors, in this order. *)
Definition dob_outcome (now : datetime) (s : pystr) : list pystr :=
  match first_parse s
          [lit "%d-%m-%Y"; lit "%d/%m/%Y"; lit "%Y-%m-%d"; lit "%d %b %Y"; lit "%d %B %Y"]
  with
  | None => [lit "Could not parse date of birth: " ++ s]
  | Some d =>
      if datetime_gtb d now then [lit "Date of birth cannot be in the future"]
      else if (year d <? 1900)%Z then [lit "Date of birth year seems too old"]
      else []
  end.

(** A confidence that is a whole number: a [bool], or an [int] that is not
    negative. *)
Definition whole_confidence (v : json) : bool :=
  match v with
  | JBool _ => true
  | JInt z => (0 <=? z)%Z
  | _ => false
  end.

(** What a caller tells signals apart by: type and severity. *)
Definition kinds (signals : list FraudSignal) : list (pystr * pystr) :=
  map (fun s => (type_ s, severity s)) signals.

(** An extraction result with [issues = ["blurry scan"]] and
    [fraud_analysis = {validity_score: 0.3, is_genuine_appearance: false}],
    after the keys of [before]. *)
Definition blurry_scan (before : list (pystr * json)) : json :=
  JDict (before ++
         [(lit "issues", JList [JStr (lit "blurry scan")]);
          (lit "fraud_analysis",
           JDict [(lit "validity_score", JFloat 0.3);
                  (lit "is_genuine_appearance", JBool false)])]).

(** The entries of the raw [fields] mapping, in its order. *)
Definition raw_entries (extraction_result : json) : result (list (pystr * json)) :=
  fields <- get extraction_result (lit "fields") (JDict []) ;;
  items fields.

(** The confidence of a dict-shaped entry, 0 when the key is missing. *)
Definition entry_confidence (field_data : json) : json :=
  match field_data with
  | JDict d =>
      match lookup (lit "confidence") d with
      | Some c => c
      | None => JInt 0
      end
  | _ => JInt 0
  end.

(** [v < c] holds (and can be evaluated). *)
Definition below (v : json) (c : float) : bool :=
  match lt_float v c with
  | Ok b => b
  | Raise _ => false
  end.

(** The entries the per-field check reports: dict-shaped, confidence below
    0.3. *)
Definition low_entry (e : pystr * json) : bool :=
  isinstance_dict (snd e) && below (entry_confidence (snd e)) 0.3.

Definition rendered (v : json) : pystr :=
  match fmt_2f v with
  | Ok text => text
  | Raise _ => []
  end.

Definition low_field_signal (e : pystr * json) : FraudSignal :=
  mk_FraudSignal (lit "LOW_FIELD_CONFIDENCE")
    (lit "Field '" ++ fst e ++ lit "' has very low confidence (" ++
     rendered (entry_confidence (snd e)) ++ lit ")")
    (lit "LOW").

(** A confidence that is a float, or missing. *)
Definition float_or_missing (confidence : option json) : bool :=
  match confidence with
  | None | Some (JFloat _) => true
  | Some _ => false
  end.

(** Every dict-shaped entry carries a float confidence or none. *)
Definition typed_entry (e : pystr * json) : bool :=
  match snd e with
  | JDict d => float_or_missing (lookup (lit "confidence") d)
  | _ => true
  end.

(** The date the date-of-birth rule compares with the clock, when it gets
    that far. *)
Definition parsed_dob (fields : json) : option datetime :=
  match field_value fields (lit "dob") with
  | Ok dob =>
      if truthy dob then
        match parse_date dob date_formats with
        | Ok (Some d) => Some d
        | _ => None
        end
      else None
  | Raise _ => None
  end.

(** A well-formed record of a field. *)
Definition record (text : string) (c : float) : json :=
  JDict [(lit "value", JStr (lit text)); (lit "confidence", JFloat c)].

(** A fields mapping that holds just a [dob] record. *)
Definition dob_only (dob : string) : json :=
  JDict [(lit "dob", JDict [(lit "value", JStr (lit dob))])].

(** A clock reading for the examples: 3 November 2026, noon. *)
Definition example_now : datetime := mk_datetime 2026 11 3 12 0 0 0.

(** *** Vocabulary of the further properties *)

(** No signal of the list has severity HIGH. *)
Definition no_high (fraud_signals : list FraudSignal) : bool :=
  forallb (fun s => negb (str_eqb (severity s) (lit "HIGH"))) fraud_signals.

(** The conditions under which the policy approves, on a float confidence. *)
Definition approves (validation_errors : list pystr)
    (fraud_signals : list FraudSignal) (c : float) (is_readable : json) : bool :=
  truthy is_readable
  && no_high fraud_signals
  && (List.length validation_errors <? 3)%nat
  && negb (c <? 0.6)%float
  && (negb (nonempty validation_errors || nonempty fraud_signals)
      || (0.8 <=? c)%float).

(** Ten characters: five capital letters, four ASCII digits, a capital
    letter. *)
Definition pan_shape (t : pystr) : bool :=
  Nat.eqb (List.length t) 10
  && forallb (in_range 65 90) (firstn 5 t)
  && forallb (in_range 48 57) (firstn 4 (skipn 5 t))
  && forallb (in_range 65 90) (skipn 9 t).

(** Ten characters: three capital letters, seven decimal digits. *)
Definition voter_shape (t : pystr) : bool :=
  Nat.eqb (List.length t) 10
  && forallb (in_range 65 90) (firstn 3 t)
  && forallb isdecimal (skipn 3 t).

(** The errors of the name rule on a text. *)
Definition name_errors (s : pystr) : list pystr :=
  (if (List.length (strip s) <? 2)%nat
   then [lit "Name field is missing or too short"] else [])
  ++ (if existsb suspicious_char s
      then [lit "Name contains suspicious characters"] else []).

(** The document types that have a rule for the identifier. *)
Definition has_id_rule (d : DocumentType) : bool :=
  match d with
  | AADHAAR | PAN | VOTER_ID => true
  | _ => false
  end.

(** The string entries of a list of issues, in order. *)
Definition issue_texts (issues : list json) : list pystr :=
  flat_map (fun v => match v with JStr s => [s] | _ => [] end) issues.

Definition issue_signal (issue : pystr) : FraudSignal :=
  mk_FraudSignal (lit "VLM_DETECTED_ISSUE") issue (issue_severity issue).

(** The [value] of the raw [name] entry, as the script check reads it. *)
Definition raw_name (extraction_result : json) : result json :=
  fields <- get extraction_result (lit "fields") (JDict []) ;;
  field_value fields (lit "name").

(** A Latin letter, as the script check tests a character. *)
Definition latin_letter (c : N) : bool :=
  str_leb (lit "a") (lower [c]) && str_leb (lower [c]) (lit "z").

(** Devanagari and Latin together in a name of more than 20 characters. *)
Definition mixed_scripts (name : pystr) : bool :=
  existsb (in_range 2304 2431) name && existsb latin_letter name
  && (20 <? List.length name)%nat.

(** The signals of the forensic check, given the score and the two lists
    it has read from the [fraud_analysis] record. *)
Definition forensic_signals (fraud_data : list (pystr * json)) (score : float)
    (suspicious alterations : list json) : list FraudSignal :=
  (if (score <? 0.6)%float then
     [mk_FraudSignal (lit "LOW_VALIDITY_SCORE")
        (lit "AI Validity Check Failed (" ++ format_2f score ++ lit "): " ++
         py_str (match lookup (lit "reasoning") fraud_data with
                 | Some r => r
                 | None => JStr (lit "Low validity score detected")
                 end))
        (if (score <? 0.4)%float then lit "HIGH" else lit "MEDIUM")]
   else [])
  ++ (if negb (truthy (match lookup (lit "is_genuine_appearance") fraud_data with
                       | Some g => g
                       | None => JBool true
                       end))
      then [mk_FraudSignal (lit "VISUAL_ANOMALY")
              (lit "Document does not appear genuine (visual check failed)")
              (lit "HIGH")]
      else [])
  ++ map (fun element =>
            mk_FraudSignal (lit "SUSPICIOUS_ELEMENT")
              (lit "Suspicious: " ++ py_str element) (lit "MEDIUM")) suspicious
  ++ map (fun alteration =>
            mk_FraudSignal (lit "ALTERATION_DETECTED")
              (lit "Tampering detected: " ++ py_str alteration) (lit "HIGH"))
       alterations.

(** What the forensic check reads from the record: the score and the two
    lists. *)
Definition forensic_inputs (fraud_data : list (pystr * json))
    : result (float * list json * list json) :=
  score <- py_float (match lookup (lit "validity_score") fraud_data with
                     | Some v => v
                     | None => JFloat 1.0
                     end) ;;
  suspicious <- iter (match lookup (lit "suspicious_elements") fraud_data with
                      | Some v => v
                      | None => JList []
                      end) ;;
  alterations <- iter (match lookup (lit "alterations_detected") fraud_data with
                       | Some v => v
                       | None => JList []
                       end) ;;
  Ok (score, suspicious, alterations).

(** A forensic record that by itself calls for review: a validity score
    below 0.4, an appearance that is not genuine, or a detected alteration. *)
Definition red_flag (score : float) (fraud_data : list (pystr * json))
    (alterations : list json) : bool :=
  (score <? 0.4)%float
  || negb (truthy (match lookup (lit "is_genuine_appearance") fraud_data with
                   | Some g => g
                   | None => JBool true
                   end))
  || nonempty alterations.

(** What normalisation makes of one raw entry: the same key; for a bare
    scalar its text with confidence 0.5; for a record the text of its value
    (empty when missing) and its confidence as a float (0.5 when missing). *)
Definition normalizes (entry : pystr * json) (field : pystr * ExtractedField) : Prop :=
  fst field = fst entry
  /\ match snd entry with
     | JDict d =>
         value (snd field)
         = py_str (match lookup (lit "value") d with Some v => v | None => JStr [] end)
         /\ py_float (match lookup (lit "confidence") d with
                      | Some c => c
                      | None => JFloat 0.5
                      end)
            = Ok (confidence (snd field))
     | scalar => snd field = mk_ExtractedField (py_str scalar) 0.5
     end.

(** Shapes of optional entries. *)
Definition string_or_missing (v : option json) : bool :=
  match v with
  | None | Some (JStr _) => true
  | Some _ => false
  end.

Definition list_or_missing (v : option json) : bool :=
  match v with
  | None | Some (JList _) => true
  | Some _ => false
  end.

(** A field record as the extraction prompt describes it: a dict whose
    [value], when present, is a string and whose [confidence], when
    present, is a float. *)
Definition record_entry (e : pystr * json) : bool :=
  match snd e with
  | JDict d =>
      string_or_missing (lookup (lit "value") d)
      && float_or_missing (lookup (lit "confidence") d)
  | _ => false
  end.

(** An extraction result of the shape the prompt asks the model for; every
    key may be missing. *)
Definition documented_shape (d : list (pystr * json)) : bool :=
  string_or_missing (lookup (lit "document_type") d)
  && float_or_missing (lookup (lit "confidence") d)
  && match lookup (lit "fields") d with
     | None => true
     | Some (JDict entries) => forallb record_entry entries
     | Some _ => false
     end
  && list_or_missing (lookup (lit "issues") d)
  && match lookup (lit "fraud_analysis") d with
     | None => true
     | Some (JDict fraud_data) =>
         float_or_missing (lookup (lit "validity_score") fraud_data)
         && list_or_missing (lookup (lit "suspicious_elements") fraud_data)
         && list_or_missing (lookup (lit "alterations_detected") fraud_data)
     | Some _ => false
     end.

(** A hint that is absent, empty, or lower-cases to a known type. *)
Definition usable_hint (document_type_hint : option pystr) : bool :=
  match document_type_hint with
  | Some ((_ :: _) as hint) =>
      match DocumentType_of (lower hint) with
      | Ok _ => true
      | Raise _ => false
      end
  | _ => true
  end.

(** The first piece of [s.split(sep)]: [s] up to the first occurrence of
    [sep], the whole of [s] when there is none. *)
Definition first_piece (sep s : pystr) : pystr :=
  match first_occurrence sep s with
  | Some (before, _) => before
  | None => s
  end.

(** [sep.join(pieces)] *)
Fixpoint join (sep : pystr) (pieces : list pystr) : pystr :=
  match pieces with
  | [] => []
  | [piece] => piece
  | piece :: rest => piece ++ sep ++ join sep rest
  end.

Definition backtick (c : N) : bool := (c =? 96)%N.

(** The fields [handle_validate_id_number] builds around an identifier. *)
Definition id_fields (id_number : json) : json :=
  JDict [(lit "id_number",
          JDict [(lit "value", id_number); (lit "confidence", JFloat 1.0)])].

(** The identifier rule of a document type. *)
Definition id_rule (document_type : DocumentType) (fields : json)
    : result (list pystr) :=
  match document_type with
  | AADHAAR => validate_aadhaar fields
  | PAN => validate_pan fields
  | VOTER_ID => validate_voter_id fields
  | _ => Ok []
  end.

(** A key of the entry written to the audit log. *)
Definition logged (key : string) (outcome : DecisionOutcome) : option json :=
  match outcome with
  | Inserted (JDict audit_entry) _ => lookup (lit key) audit_entry
  | _ => None
  end.

End Vocabulary.

(** * Properties *)

(** ** Basic facts about the embedding *)

Lemma lit_cons (c : ascii) (s : string) :
  lit (String c s) = N_of_ascii c :: lit s.
Proof. reflexivity. Qed.

Lemma lit_app_nonempty (c : ascii) (s : string) (t : pystr) :
  lit (String c s) ++ t <> [].
Proof. rewrite lit_cons. discriminate. Qed.

Lemma lit_nonempty (c : ascii) (s : string) : lit (String c s) <> [].
Proof. rewrite lit_cons. discriminate. Qed.

Lemma bind_Ok {A B : Type} (c : result A) (k : A -> result B) (b : B) :
  bind c k = Ok b -> exists a, c = Ok a /\ k a = Ok b.
Proof.
  destruct c as [a | e]; simpl; intros H.
  - exists a. split; [reflexivity | exact H].
  - discriminate H.
Qed.

Lemma str_eqb_eq (a b : pystr) : str_eqb a b = true <-> a = b.
Proof.
  revert b. induction a as [| x a IH]; intros [| y b]; simpl;
    try (split; [discriminate | discriminate]); try tauto.
  rewrite andb_true_iff, N.eqb_eq, IH. split.
  - intros [-> ->]. reflexivity.
  - intros H. injection H as -> ->. split; reflexivity.
Qed.

Lemma str_eqb_refl (a : pystr) : str_eqb a a = true.
Proof. apply str_eqb_eq. reflexivity. Qed.

Lemma float_of_int_zero : float_of_int 0 = Ok 0%float.
Proof. reflexivity. Qed.

(** An [int] is below 0.6 exactly when it is at most 0: the comparison is
    between the integer and the exact value of the float. *)
Lemma int_ltb_float_06 (z : Z) : int_ltb_float z 0.6 = (z <=? 0)%Z.
Proof.
  unfold int_ltb_float, int_float_compare.
  set (sf := Prim2SF 0.6). vm_compute in sf. subst sf.
  cbv beta iota zeta.
  change (0 <=? -53)%Z with false. cbv iota.
  change (2 ^ (- -53))%Z with 9007199254740992%Z.
  destruct (Z.compare_spec (z * 9007199254740992) 5404319552844595);
    destruct (Z.leb_spec z 0); try reflexivity; lia.
Qed.

(** A text that starts with a literal is not empty. *)
Ltac text_nonempty :=
  first [ apply lit_nonempty | apply lit_app_nonempty | discriminate ].

(** ** The recommendation policy *)

Section PolicyProperties.

Context {rt : Runtime}.

(** A float confidence can always be compared and rendered. *)
Lemma lt_float_JFloat (f c : float) : lt_float (JFloat f) c = Ok (f <? c)%float.
Proof. reflexivity. Qed.

Lemma ge_float_JFloat (f c : float) : ge_float (JFloat f) c = Ok (c <=? f)%float.
Proof. reflexivity. Qed.

Lemma fmt_2f_JFloat (f : float) : fmt_2f (JFloat f) = Ok (format_2f f).
Proof. reflexivity. Qed.

(** Whatever the policy returns is APPROVE or REVIEW with a non-empty
    explanation, for any confidence value at all. *)
Lemma policy_result_shape (validation_errors : list pystr)
    (fraud_signals : list FraudSignal) (overall_confidence is_readable : json)
    (r : Recommendation) (text : pystr) :
  determine_recommendation validation_errors fraud_signals
    overall_confidence is_readable = Ok (r, text) ->
  (r = APPROVE \/ r = REVIEW) /\ text <> [].
Proof.
  unfold determine_recommendation.
  destruct (negb (truthy is_readable)).
  { intros H. injection H as <- <-. split; [now right | text_nonempty]. }
  destruct (filter _ fraud_signals) as [| first rest].
  2:{ intros H. injection H as <- <-. split; [now right | text_nonempty]. }
  destruct (3 <=? List.length validation_errors)%nat.
  { intros H. injection H as <- <-. split; [now right | text_nonempty]. }
  intros H. apply bind_Ok in H as (low & _ & H).
  destruct low.
  { apply bind_Ok in H as (shown & _ & H). injection H as <- <-.
    split; [now right | text_nonempty]. }
  destruct (nonempty validation_errors || nonempty fraud_signals);
    apply bind_Ok in H as (high & _ & H); destruct high;
    injection H as <- <-;
    (split; [(now left) || (now right) | text_nonempty]).
Qed.

(** On a whole-number confidence the policy returns: nothing is rendered
    unless the number is 0. *)
Lemma policy_returns_on_int (validation_errors : list pystr)
    (fraud_signals : list FraudSignal) (z : Z) (is_readable : json) :
  (0 <= z)%Z ->
  exists out,
    determine_recommendation validation_errors fraud_signals (JInt z) is_readable
    = Ok out.
Proof.
  intros Hz. unfold determine_recommendation.
  destruct (negb (truthy is_readable)); [eauto |].
  destruct (filter _ fraud_signals); [| eauto].
  destruct (3 <=? List.length validation_errors)%nat; [eauto |].
  cbn [lt_float bind]. rewrite int_ltb_float_06.
  destruct (Z.leb_spec z 0) as [Hle | Hgt].
  - assert (z = 0%Z) as -> by lia.
    cbn [fmt_2f]. rewrite float_of_int_zero. cbn [bind]. eauto.
  - destruct (nonempty validation_errors || nonempty fraud_signals);
      cbn [ge_float bind];
      match goal with |- context [int_geb_float z ?c] => destruct (int_geb_float z c) end;
      eauto.
Qed.

End PolicyProperties.

(** C4.  For every list of validation errors, every list of fraud signals,
    every float confidence and every readability flag, the recommendation
    policy returns a result, the recommendation is APPROVE or REVIEW and
    never REJECT, and the explanation is a non-empty string.  The policy
    returns as well on a confidence that is a [bool] or a non-negative
    [int]; and whatever the type of the confidence value, a result the
    policy returns is never REJECT and never carries an empty explanation. *)
Theorem policy_never_rejects {rt : Runtime}
    (validation_errors : list pystr) (fraud_signals : list FraudSignal)
    (overall_confidence : float) (is_readable : json) :
  (exists r text,
     determine_recommendation validation_errors fraud_signals
       (JFloat overall_confidence) is_readable = Ok (r, text)
     /\ (r = APPROVE \/ r = REVIEW) /\ r <> REJECT /\ text <> [])
  /\ (forall confidence : json,
        whole_confidence confidence = true ->
        exists r text,
          determine_recommendation validation_errors fraud_signals
            confidence is_readable = Ok (r, text))
  /\ (forall (confidence : json) r text,
        determine_recommendation validation_errors fraud_signals
          confidence is_readable = Ok (r, text) ->
        r <> REJECT /\ text <> []).
Proof.
  split; [| split].
  - assert (exists out,
              determine_recommendation validation_errors fraud_signals
                (JFloat overall_confidence) is_readable = Ok out) as [[r text] H].
    { unfold determine_recommendation.
      destruct (negb (truthy is_readable)); [eauto |].
      destruct (filter _ fraud_signals); [| eauto].
      destruct (3 <=? List.length validation_errors)%nat; [eauto |].
      rewrite lt_float_JFloat. cbn [bind].
      destruct (overall_confidence <? 0.6)%float.
      { rewrite fmt_2f_JFloat. cbn [bind]. eauto. }
      destruct (nonempty validation_errors || nonempty fraud_signals);
        rewrite ge_float_JFloat; cbn [bind];
        match goal with |- context [(?c <=? _)%float] => destruct (c <=? overall_confidence)%float end;
        eauto. }
    exists r, text. split; [exact H |].
    destruct (policy_result_shape _ _ _ _ H) as [Hr Ht].
    repeat split; try assumption.
    destruct Hr as [-> | ->]; discriminate.
  - intros confidence Hwhole.
    assert (exists z, (0 <= z)%Z /\
              determine_recommendation validation_errors fraud_signals
                confidence is_readable
              = determine_recommendation validation_errors fraud_signals
                  (JInt z) is_readable) as (z & Hz & ->).
    { destruct confidence as [| b | z | | | |]; try discriminate Hwhole.
      - exists (int_of_bool b). split; [destruct b; cbn; lia | reflexivity].
      - exists z. split; [now apply Z.leb_le | reflexivity]. }
    destruct (policy_returns_on_int validation_errors fraud_signals
                is_readable Hz) as [[r text] H].
    eauto.
  - intros confidence r text H.
    destruct (policy_result_shape _ _ _ _ H) as [Hr Ht].
    split; [destruct Hr as [-> | ->]; discriminate | exact Ht].
Qed.

(** The clean case of the specification: no errors, no signals, confidence
    0.9, readable. *)
Lemma policy_never_rejects_witness :
  determine_recommendation (rt := Reference.runtime) [] [] (JFloat 0.9) (JBool true)
  = Ok (APPROVE, lit "All checks passed with high confidence")
  /\ APPROVE <> REJECT
  /\ lit "All checks passed with high confidence" <> [].
Proof.
  split; [reflexivity |].
  exact (proj2 (proj2 (@policy_never_rejects Reference.runtime [] [] 0.9%float
                         (JBool true)))
           (JFloat 0.9) APPROVE (lit "All checks passed with high confidence")
           eq_refl).
Defined.

(** Three validation errors are sent to review, and the explanation counts
    them. *)
Example three_errors_review :
  determine_recommendation (rt := Reference.runtime)
    [lit "e1"; lit "e2"; lit "e3"] [] (JFloat 1.0) (JBool true)
  = Ok (REVIEW, lit "Multiple validation issues found (3 errors)").
Proof. vm_compute. reflexivity. Qed.

(** C7.  Whatever the validation errors, the fraud signals and the overall
    confidence are, a readability flag that is false makes the policy return
    REVIEW with the explanation that the document is not readable or too low
    quality. *)
Theorem unreadable_is_review {rt : Runtime}
    (validation_errors : list pystr) (fraud_signals : list FraudSignal)
    (overall_confidence is_readable : json) :
  truthy is_readable = false ->
  determine_recommendation validation_errors fraud_signals
    overall_confidence is_readable
  = Ok (REVIEW, lit "Document is not readable or too low quality").
Proof.
  intros H. unfold determine_recommendation. rewrite H. reflexivity.
Qed.

(** The case the specification singles out: no errors, no signals,
    confidence 1.0, and the flag [False]. *)
Lemma unreadable_is_review_witness :
  truthy (JBool false) = false /\
  determine_recommendation (rt := Reference.runtime) [] [] (JFloat 1.0) (JBool false)
  = Ok (REVIEW, lit "Document is not readable or too low quality").
Proof.
  split; [reflexivity |].
  apply (unreadable_is_review (rt := Reference.runtime) [] [] (JFloat 1.0) (JBool false)).
  reflexivity.
Defined.

(** ** Validation rules *)

Section ValidatorProperties.

Context {rt : Runtime}.

Lemma match_rep_spec (cl : cclass) (n : nat) (s : pystr) :
  match_rep cl n s =
  if (n <=? List.length s)%nat && forallb cl (firstn n s)
  then Some (skipn n s) else None.
Proof.
  revert s. induction n as [| n IH]; intros s.
  - reflexivity.
  - destruct s as [| c s]; [reflexivity |].
    cbn [match_rep List.length firstn skipn forallb].
    destruct (cl c); [| now rewrite andb_false_r].
    rewrite IH. reflexivity.
Qed.

Lemma without_whitespace_no_space (s : pystr) (c : N) :
  In c (without_whitespace s) -> isspace c = false.
Proof.
  unfold without_whitespace. rewrite filter_In, negb_true_iff. tauto.
Qed.

(** On a text without white space, the anchored pattern [^\d{12}$] matches
    exactly the texts of twelve digits: the newline that [$] tolerates
    cannot occur. *)
Lemma re_match_twelve (t : pystr) :
  (forall c, In c t -> isspace c = false) ->
  re_match [(isdecimal, 12%nat)] t = twelve_digits t.
Proof.
  intros Hns. unfold re_match, twelve_digits, match_seq.
  rewrite match_rep_spec.
  destruct (Nat.leb_spec 12 (List.length t)) as [Hle | Hlt].
  2:{ cbn [andb]. destruct (Nat.eqb_spec (List.length t) 12); [lia | reflexivity]. }
  cbn [andb].
  destruct (Nat.eqb_spec (List.length t) 12) as [Heq | Hne].
  - rewrite firstn_all2 by lia. rewrite skipn_all2 by lia.
    cbn [andb]. destruct (forallb isdecimal t); reflexivity.
  - cbn [andb].
    destruct (forallb isdecimal (firstn 12 t)); [| reflexivity].
    assert (Hlen : (List.length (skipn 12 t) > 0)%nat) by (rewrite length_skipn; lia).
    destruct (skipn 12 t) as [| c rest] eqn:Hskip; [cbn in Hlen; lia |].
    destruct rest as [| c' rest]; [| reflexivity].
    cbn [at_dollar]. destruct (N.eqb_spec c 10) as [-> | _]; [| reflexivity].
    assert (Hin : In 10%N t).
    { rewrite <- (firstn_skipn 12 t), Hskip. apply in_or_app. right. now left. }
    apply Hns in Hin. discriminate Hin.
Qed.

End ValidatorProperties.

(** C9.  For an Aadhaar document whose [id_number] value is a string,
    validation removes all white space and reports the one error "Aadhaar
    number must be exactly 12 digits" exactly when what remains is not twelve
    decimal digits.  "1234 5678 9012" yields no error; "12345" yields
    exactly one error, and its message mentions "12 digits". *)
Theorem aadhaar_twelve_digits {rt : Runtime} :
  (forall (fields : json) (s : pystr),
     field_value fields (lit "id_number") = Ok (JStr s) ->
     validate_aadhaar fields =
     Ok (if twelve_digits (without_whitespace s) then [] else [aadhaar_error]))
  /\ validate_aadhaar (id_number_only "1234 5678 9012") = Ok []
  /\ validate_aadhaar (id_number_only "12345") = Ok [aadhaar_error]
  /\ contains aadhaar_error (lit "12 digits") = true.
Proof.
  split; [| repeat split; reflexivity].
  intros fields s H. unfold validate_aadhaar. rewrite H.
  cbn [bind re_sub_spaces].
  change (filter (fun c => negb (isspace c)) s) with (without_whitespace s).
  rewrite re_match_twelve by apply without_whitespace_no_space.
  destruct (twelve_digits (without_whitespace s)); reflexivity.
Qed.

(** The general rule at a spaced twelve-digit identifier, on the reference
    runtime. *)
Lemma aadhaar_twelve_digits_witness :
  field_value (id_number_only "4321 8765 2109") (lit "id_number")
  = Ok (JStr (lit "4321 8765 2109"))
  /\ validate_aadhaar (rt := Reference.runtime) (id_number_only "4321 8765 2109") = Ok [].
Proof.
  split; [reflexivity |].
  apply (proj1 (aadhaar_twelve_digits (rt := Reference.runtime))
           (id_number_only "4321 8765 2109") (lit "4321 8765 2109")).
  reflexivity.
Defined.

Section DobProperties.

Context {rt : Runtime}.

Lemma py_strptime_JStr (s fmt : pystr) :
  py_strptime (JStr s) fmt =
  match strptime s fmt with Some d => Ok d | None => Raise ValueError end.
Proof. reflexivity. Qed.

(** The loop over the formats returns what the first parsing format
    returns. *)
Lemma parse_date_first (s : pystr) (formats : list pystr) :
  parse_date (JStr s) formats = Ok (first_parse s formats).
Proof.
  unfold first_parse. induction formats as [| fmt rest IH].
  - reflexivity.
  - cbn [parse_date find]. rewrite py_strptime_JStr.
    destruct (strptime s fmt) as [d |] eqn:Hfmt.
    + rewrite Hfmt. reflexivity.
    + exact IH.
Qed.

(** A value that is not a string stops the loop with [TypeError]. *)
Lemma parse_date_not_str (v : json) (fmt : pystr) (rest : list pystr) :
  isinstance_str v = false -> parse_date v (fmt :: rest) = Raise TypeError.
Proof. destruct v; intros H; try reflexivity; discriminate H. Qed.

Lemma lex_compare_refl (l : list Z) : lex_compare l l = Eq.
Proof.
  induction l as [| x l IH]; [reflexivity |].
  cbn [lex_compare]. rewrite Z.compare_refl. exact IH.
Qed.

(** [>] on dates is strict. *)
Lemma datetime_gtb_irrefl (d : datetime) : datetime_gtb d d = false.
Proof. unfold datetime_gtb. rewrite lex_compare_refl. reflexivity. Qed.

Lemma dob_outcome_at_most_one (now : datetime) (s : pystr) :
  (List.length (dob_outcome now s) <= 1)%nat.
Proof.
  unfold dob_outcome.
  destruct (first_parse s _) as [d |]; [| cbn; lia].
  destruct (datetime_gtb d now); [cbn; lia |].
  destruct (year d <? 1900)%Z; cbn; lia.
Qed.

End DobProperties.

(** C8.  Whatever the fields mapping, once its [dob] value is read: an
    empty value gives no error; a non-empty text is parsed against the
    formats DD-MM-YYYY, DD/MM/YYYY, YYYY-MM-DD, DD Mon YYYY, DD Month YYYY in
    this order, the first that parses deciding, and the result is at most
    one error, the first that applies of: unparseable, parsed date strictly
    after now, parsed year before 1900. *)
Theorem dob_rule {rt : Runtime} (now : datetime) (fields dob : json) :
  field_value fields (lit "dob") = Ok dob ->
  (truthy dob = false -> validate_dob now fields = Ok [])
  /\ (forall s, dob = JStr s -> s <> [] ->
        validate_dob now fields = Ok (dob_outcome now s)
        /\ (List.length (dob_outcome now s) <= 1)%nat)
  /\ (forall d, datetime_gtb d d = false).
Proof.
  intros Hdob. unfold validate_dob. rewrite Hdob. cbn [bind].
  split; [| split].
  - intros ->. reflexivity.
  - intros s -> Hs. split; [| apply dob_outcome_at_most_one].
    destruct s as [| c s]; [contradiction |].
    cbn [truthy negb]. unfold date_formats. rewrite parse_date_first.
    cbn [bind py_str]. unfold dob_outcome.
    destruct (first_parse (c :: s) _) as [d |]; [| reflexivity].
    destruct (datetime_gtb d now); [reflexivity |].
    destruct (year d <? 1900)%Z; reflexivity.
  - apply datetime_gtb_irrefl.
Qed.

Lemma dob_rule_witness :
  field_value (dob_only "15 August 1947") (lit "dob") = Ok (JStr (lit "15 August 1947"))
  /\ validate_dob (rt := Reference.runtime) example_now (dob_only "15 August 1947") = Ok [].
Proof.
  split; [reflexivity |].
  refine (proj1 (proj1 (proj2
            (@dob_rule Reference.runtime example_now
               (dob_only "15 August 1947") (JStr (lit "15 August 1947")) eq_refl))
            (lit "15 August 1947") eq_refl _)).
  text_nonempty.
Defined.

(** The three errors of the rule, and a date in the third format, on the
    reference runtime. *)
Example dob_unparseable :
  validate_dob (rt := Reference.runtime) example_now (dob_only "31-02-2020")
  = Ok [lit "Could not parse date of birth: 31-02-2020"].
Proof. vm_compute. reflexivity. Qed.

Example dob_in_the_future :
  validate_dob (rt := Reference.runtime) example_now (dob_only "2027/01/01")
  = Ok [lit "Could not parse date of birth: 2027/01/01"]
  /\ validate_dob (rt := Reference.runtime) example_now (dob_only "01/01/2027")
     = Ok [lit "Date of birth cannot be in the future"].
Proof. split; vm_compute; reflexivity. Qed.

Example dob_too_old :
  validate_dob (rt := Reference.runtime) example_now (dob_only "1899-12-31")
  = Ok [lit "Date of birth year seems too old"].
Proof. vm_compute. reflexivity. Qed.

Example dob_missing_or_empty :
  validate_dob (rt := Reference.runtime) example_now (JDict []) = Ok []
  /\ validate_dob (rt := Reference.runtime) example_now (dob_only "") = Ok [].
Proof. split; reflexivity. Qed.

(** ** Fraud signals *)

Section FraudProperties.

Context {rt : Runtime}.

Lemma get_entry_confidence (d : list (pystr * json)) :
  get (JDict d) (lit "confidence") (JInt 0) = Ok (entry_confidence (JDict d)).
Proof. reflexivity. Qed.

(** What the field loop returns, when it returns: the signals it was given,
    then one signal per reported entry, in the order of the entries. *)
Lemma low_field_loop_spec (entries : list (pystr * json)) :
  forall signals out,
    low_field_loop entries signals = Ok out ->
    out = signals ++ map low_field_signal (filter low_entry entries).
Proof.
  induction entries as [| [field_name field_data] rest IH]; intros signals out H.
  - cbn in H. injection H as <-. cbn. now rewrite app_nil_r.
  - cbn [low_field_loop] in H. cbn [filter]. unfold low_entry at 1. cbn [snd fst].
    destruct field_data as [| | | | | | d]; cbn [isinstance_dict andb] in *;
      try (apply IH; exact H).
    rewrite get_entry_confidence in H. cbn [bind] in H.
    apply bind_Ok in H as (low & Hlow & H).
    unfold below. rewrite Hlow.
    destruct low.
    + apply bind_Ok in H as (shown & Hshown & H).
      apply IH in H. subst out. cbn [map]. rewrite <- app_assoc. cbn [app].
      replace (low_field_signal (field_name, JDict d)) with
        (mk_FraudSignal (lit "LOW_FIELD_CONFIDENCE")
           (lit "Field '" ++ field_name ++
            lit "' has very low confidence (" ++ shown ++ lit ")") (lit "LOW"));
        [reflexivity |].
      unfold low_field_signal, rendered. cbn [fst snd]. now rewrite Hshown.
    + apply IH. exact H.
Qed.

(** On typed entries the field loop returns. *)
Lemma low_field_loop_total (entries : list (pystr * json)) :
  forallb typed_entry entries = true ->
  forall signals,
    low_field_loop entries signals =
    Ok (signals ++ map low_field_signal (filter low_entry entries)).
Proof.
  intros Htyped signals.
  assert (exists out, low_field_loop entries signals = Ok out) as [out H].
  { revert signals. induction entries as [| [field_name field_data] rest IH];
      intros signals; [now exists signals |].
    cbn [forallb] in Htyped. apply andb_true_iff in Htyped as [He Hrest].
    cbn [low_field_loop].
    destruct field_data as [| | | | | | d]; cbn [isinstance_dict]; try (now apply IH).
    unfold typed_entry in He. cbn [snd] in He.
    cbn [get]. destruct (lookup (lit "confidence") d) as [[| | | f | | |] |];
      try discriminate He; cbn [bind lt_float fmt_2f].
    - destruct (f <? 0.3)%float; cbn [bind]; now apply IH.
    - rewrite float_of_int_zero.
      destruct (int_ltb_float 0 0.3); cbn [bind]; now apply IH. }
  rewrite H. f_equal. now apply low_field_loop_spec.
Qed.

(** The aggregate is the four checks in their order, an exception of a
    check ending the run. *)
Lemma detect_fraud_signals_concat (extraction_result : json) :
  detect_fraud_signals extraction_result =
  (a <- check_low_confidence extraction_result ;;
   b <- check_field_consistency extraction_result ;;
   c <- check_issues_from_vlm extraction_result ;;
   d <- check_llm_fraud_analysis extraction_result ;;
   Ok (a ++ b ++ c ++ d)).
Proof.
  unfold detect_fraud_signals.
  destruct (check_low_confidence extraction_result) as [a |]; [| reflexivity].
  destruct (check_field_consistency extraction_result) as [b |]; [| reflexivity].
  destruct (check_issues_from_vlm extraction_result) as [c |]; [| reflexivity].
  destruct (check_llm_fraud_analysis extraction_result) as [d |]; [| reflexivity].
  cbn [bind app]. now rewrite <- !app_assoc.
Qed.

End FraudProperties.

(** C10.  The per-field confidence check of the aggregator reports, in the
    order of the raw [fields] mapping, exactly the entries that are
    dict-shaped and whose confidence (0 when the key is missing) is below
    0.3, each as a LOW [LOW_FIELD_CONFIDENCE] signal naming the field; the
    only other signal of the check is the overall one.  The check returns
    whenever the confidences are floats or missing.  An entry that is not a
    dict is never reported, although normalisation gives it confidence
    0.5. *)
Theorem field_confidence_signals {rt : Runtime}
    (extraction_result : json) (entries : list (pystr * json)) :
  raw_entries extraction_result = Ok entries ->
  (forall out,
     check_low_confidence extraction_result = Ok out ->
     exists overall,
       (overall = [] \/
        exists text,
          overall = [mk_FraudSignal (lit "LOW_CONFIDENCE") text (lit "MEDIUM")])
       /\ out = overall ++ map low_field_signal (filter low_entry entries))
  /\ (forall d,
        extraction_result = JDict d ->
        float_or_missing (lookup (lit "confidence") d) = true ->
        forallb typed_entry entries = true ->
        exists out, check_low_confidence extraction_result = Ok out)
  /\ (forall e,
        isinstance_dict (snd e) = false ->
        low_entry e = false
        /\ normalize_fields (JDict [e])
           = Ok [(fst e, mk_ExtractedField (py_str (snd e)) 0.5)]).
Proof.
  intros Hentries. unfold raw_entries in Hentries.
  apply bind_Ok in Hentries as (fields & Hfields & Hitems).
  split; [| split].
  - intros out H. unfold check_low_confidence in H.
    apply bind_Ok in H as (overall_confidence & _ & H).
    apply bind_Ok in H as (low & _ & H).
    apply bind_Ok in H as (signals & Hsignals & H).
    rewrite Hfields in H. cbn [bind] in H. rewrite Hitems in H. cbn [bind] in H.
    apply low_field_loop_spec in H. exists signals. split; [| exact H].
    destruct low.
    + apply bind_Ok in Hsignals as (shown & _ & Hs). injection Hs as <-.
      right. eexists. reflexivity.
    + injection Hsignals as <-. now left.
  - intros d -> Hc Htyped. unfold check_low_confidence.
    rewrite Hfields. cbn [get].
    destruct (lookup (lit "confidence") d) as [[| | | f | | |] |];
      try discriminate Hc; cbn [bind lt_float fmt_2f].
    + destruct (f <? 0.5)%float; cbn [bind]; rewrite Hitems; cbn [bind];
        rewrite low_field_loop_total by exact Htyped; eauto.
    + rewrite float_of_int_zero.
      destruct (int_ltb_float 0 0.5); cbn [bind]; rewrite Hitems; cbn [bind];
        rewrite low_field_loop_total by exact Htyped; eauto.
  - intros [field_name field_data] Hscalar. cbn [snd fst] in *. split.
    + unfold low_entry. cbn [snd]. now rewrite Hscalar.
    + unfold normalize_fields. cbn [items bind normalize_loop].
      rewrite Hscalar. reflexivity.
Qed.

(** A mapping with a low record, a bare scalar, a record without confidence
    and a confident record, on the reference runtime. *)
Lemma field_confidence_signals_witness :
  let entries :=
    [(lit "name", JDict [(lit "value", JStr (lit "A")); (lit "confidence", JFloat 0.2)]);
     (lit "dob", JStr (lit "1990"));
     (lit "id_number", JDict [(lit "value", JStr (lit "x"))]);
     (lit "address", JDict [(lit "value", JStr (lit "y")); (lit "confidence", JFloat 0.9)])] in
  let extraction_result :=
    [(lit "confidence", JFloat 0.9); (lit "fields", JDict entries)] in
  raw_entries (JDict extraction_result) = Ok entries
  /\ float_or_missing (lookup (lit "confidence") extraction_result) = true
  /\ forallb typed_entry entries = true
  /\ exists out,
       check_low_confidence (rt := Reference.runtime) (JDict extraction_result) = Ok out.
Proof.
  intros entries extraction_result.
  repeat (split; [reflexivity |]).
  exact (proj1 (proj2 (@field_confidence_signals Reference.runtime
                         (JDict extraction_result) entries eq_refl))
           extraction_result eq_refl eq_refl eq_refl).
Defined.

Example field_confidence_run :
  check_low_confidence (rt := Reference.runtime)
    (JDict [(lit "confidence", JFloat 0.9);
            (lit "fields",
             JDict [(lit "name", JDict [(lit "value", JStr (lit "A"));
                                        (lit "confidence", JFloat 0.2)]);
                    (lit "dob", JStr (lit "1990"));
                    (lit "id_number", JDict [(lit "value", JStr (lit "x"))]);
                    (lit "address", JDict [(lit "value", JStr (lit "y"));
                                           (lit "confidence", JFloat 0.9)])])])
  = Ok [mk_FraudSignal (lit "LOW_FIELD_CONFIDENCE")
          (lit "Field 'name' has very low confidence (0.20)") (lit "LOW");
        mk_FraudSignal (lit "LOW_FIELD_CONFIDENCE")
          (lit "Field 'id_number' has very low confidence (0.00)") (lit "LOW")].
Proof. vm_compute. reflexivity. Qed.

(** C6 (amended).  For every extraction result the aggregate is the
    concatenation, in this order, of the confidence check, the
    script-consistency check, the model-reported-issues check and the
    forensic-analysis check.  For [issues = ["blurry scan"]] and
    [fraud_analysis = {validity_score: 0.3, is_genuine_appearance: false}]
    together with an overall confidence that is not below 0.5, the output
    is [VLM_DETECTED_ISSUE(LOW), LOW_VALIDITY_SCORE(HIGH),
    VISUAL_ANOMALY(HIGH)]; without a confidence key the same three follow a
    [LOW_CONFIDENCE(MEDIUM)] signal. *)
Theorem aggregate_order {rt : Runtime} :
  (forall extraction_result,
     detect_fraud_signals extraction_result =
     (a <- check_low_confidence extraction_result ;;
      b <- check_field_consistency extraction_result ;;
      c <- check_issues_from_vlm extraction_result ;;
      d <- check_llm_fraud_analysis extraction_result ;;
      Ok (a ++ b ++ c ++ d)))
  /\ (forall confidence : float,
        (confidence <? 0.5)%float = false ->
        exists out,
          detect_fraud_signals (blurry_scan [(lit "confidence", JFloat confidence)])
          = Ok out
          /\ kinds out =
             [(lit "VLM_DETECTED_ISSUE", lit "LOW");
              (lit "LOW_VALIDITY_SCORE", lit "HIGH");
              (lit "VISUAL_ANOMALY", lit "HIGH")])
  /\ (exists out,
        detect_fraud_signals (blurry_scan []) = Ok out
        /\ kinds out =
           [(lit "LOW_CONFIDENCE", lit "MEDIUM");
            (lit "VLM_DETECTED_ISSUE", lit "LOW");
            (lit "LOW_VALIDITY_SCORE", lit "HIGH");
            (lit "VISUAL_ANOMALY", lit "HIGH")]).
Proof.
  split; [exact detect_fraud_signals_concat | split].
  - intros confidence Hc.
    assert (Hlow : check_low_confidence
                     (blurry_scan [(lit "confidence", JFloat confidence)]) = Ok []).
    { unfold check_low_confidence, blurry_scan. cbn [app get].
      change (lookup (lit "confidence") _) with (Some (JFloat confidence)).
      cbn [bind lt_float]. rewrite Hc. reflexivity. }
    rewrite detect_fraud_signals_concat, Hlow.
    eexists. split; reflexivity.
  - eexists. split; reflexivity.
Qed.

Lemma aggregate_order_witness :
  (0.9 <? 0.5)%float = false
  /\ exists out,
       detect_fraud_signals (rt := Reference.runtime)
         (blurry_scan [(lit "confidence", JFloat 0.9)]) = Ok out
       /\ kinds out =
          [(lit "VLM_DETECTED_ISSUE", lit "LOW");
           (lit "LOW_VALIDITY_SCORE", lit "HIGH");
           (lit "VISUAL_ANOMALY", lit "HIGH")].
Proof.
  split; [reflexivity |].
  exact (proj1 (proj2 (@aggregate_order Reference.runtime)) 0.9%float eq_refl).
Defined.

(** C6, as stated, fails on the input it names: with nothing but [issues]
    and [fraud_analysis] in the extraction result, the missing confidence
    reads as 0 and a fourth signal comes first. *)
Lemma aggregate_blurry_scan_has_four_signals :
  blurry_scan [] =
  JDict [(lit "issues", JList [JStr (lit "blurry scan")]);
         (lit "fraud_analysis",
          JDict [(lit "validity_score", JFloat 0.3);
                 (lit "is_genuine_appearance", JBool false)])]
  /\ detect_fraud_signals (rt := Reference.runtime) (blurry_scan [])
     = Ok [mk_FraudSignal (lit "LOW_CONFIDENCE")
             (lit "Overall extraction confidence is very low (0.00)") (lit "MEDIUM");
           mk_FraudSignal (lit "VLM_DETECTED_ISSUE") (lit "blurry scan") (lit "LOW");
           mk_FraudSignal (lit "LOW_VALIDITY_SCORE")
             (lit "AI Validity Check Failed (0.30): Low validity score detected")
             (lit "HIGH");
           mk_FraudSignal (lit "VISUAL_ANOMALY")
             (lit "Document does not appear genuine (visual check failed)")
             (lit "HIGH")]
  /\ ~ (exists out,
          detect_fraud_signals (rt := Reference.runtime) (blurry_scan []) = Ok out
          /\ kinds out =
             [(lit "VLM_DETECTED_ISSUE", lit "LOW");
              (lit "LOW_VALIDITY_SCORE", lit "HIGH");
              (lit "VISUAL_ANOMALY", lit "HIGH")]).
Proof.
  split; [reflexivity |].
  split; [vm_compute; reflexivity |].
  intros (out & Hout & Hkinds).
  vm_compute in Hout. injection Hout as <-.
  vm_compute in Hkinds. discriminate Hkinds.
Qed.

(** ** Missing overall confidence *)

Section ConfidenceProperties.

Context {rt : Runtime}.

Lemma lookup_skip (k k' : pystr) (v : json) (d : list (pystr * json)) :
  str_eqb k k' = false -> lookup k ((k', v) :: d) = lookup k d.
Proof. intros H. cbn [lookup]. now rewrite H. Qed.

Lemma lookup_here (k : pystr) (v : json) (d : list (pystr * json)) :
  lookup k ((k, v) :: d) = Some v.
Proof. cbn [lookup]. now rewrite str_eqb_refl. Qed.

(** Without the key, the fraud check behaves as on the same result with
    [confidence = 0]. *)
Lemma check_low_confidence_missing (d : list (pystr * json)) :
  lookup (lit "confidence") d = None ->
  check_low_confidence (JDict d)
  = check_low_confidence (JDict ((lit "confidence", JInt 0) :: d)).
Proof.
  intros H. unfold check_low_confidence. cbn [get].
  rewrite H, lookup_here, lookup_skip by reflexivity. reflexivity.
Qed.

Lemma check_low_confidence_zero (d : list (pystr * json))
    (out : list FraudSignal) :
  check_low_confidence (JDict ((lit "confidence", JInt 0) :: d)) = Ok out ->
  exists rest,
    out = mk_FraudSignal (lit "LOW_CONFIDENCE")
            (lit "Overall extraction confidence is very low (" ++
             format_2f 0 ++ lit ")") (lit "MEDIUM") :: rest.
Proof.
  unfold check_low_confidence. cbn [get]. rewrite lookup_here.
  cbn [bind lt_float].
  change (int_ltb_float 0 0.5) with true. cbn [fmt_2f].
  rewrite float_of_int_zero. cbn [bind app].
  intros H. apply bind_Ok in H as (entries & _ & H).
  apply low_field_loop_spec in H. subst out. cbn [app]. eauto.
Qed.

End ConfidenceProperties.

(** C3 (amended).  When the [confidence] key is absent from the extraction
    result, the fraud aggregator's low-confidence check reads it as 0: it
    behaves as on the same result with [confidence = 0], and what it returns
    starts with the [LOW_CONFIDENCE] signal rendered from 0.  The pipeline
    reads it as 0.5: that is the confidence score of the verification result
    and the overall confidence the recommendation policy decides on. *)
Theorem missing_confidence_defaults {rt : Runtime} (now : datetime)
    (request_id : pystr) (document_type_hint : option pystr)
    (d : list (pystr * json)) :
  lookup (lit "confidence") d = None ->
  check_low_confidence (JDict d)
  = check_low_confidence (JDict ((lit "confidence", JInt 0) :: d))
  /\ (forall out,
        check_low_confidence (JDict d) = Ok out ->
        exists rest,
          out = mk_FraudSignal (lit "LOW_CONFIDENCE")
                  (lit "Overall extraction confidence is very low (" ++
                   format_2f 0 ++ lit ")") (lit "MEDIUM") :: rest)
  /\ pipeline_confidence (JDict d) = Ok (JFloat 0.5)
  /\ (forall result,
        run_verification_pipeline now request_id document_type_hint (JDict d)
        = Ok result ->
        confidence_score result = 0.5%float
        /\ exists is_readable,
             determine_recommendation (validation_errors result)
               (fraud_signals result) (JFloat 0.5) is_readable
             = Ok (recommendation result, explanation result)).
Proof.
  intros Hmissing.
  assert (Hread : pipeline_confidence (JDict d) = Ok (JFloat 0.5)).
  { unfold pipeline_confidence. cbn [get]. now rewrite Hmissing. }
  split; [now apply check_low_confidence_missing |].
  split.
  { intros out H. rewrite check_low_confidence_missing in H by exact Hmissing.
    now apply check_low_confidence_zero in H. }
  split; [exact Hread |].
  intros result H. unfold run_verification_pipeline in H.
  apply bind_Ok in H as (doc_type & _ & H).
  rewrite Hread in H. cbn [bind] in H.
  apply bind_Ok in H as (is_readable & _ & H).
  apply bind_Ok in H as (raw_fields & _ & H).
  apply bind_Ok in H as (fields & _ & H).
  apply bind_Ok in H as (errors & _ & H).
  apply bind_Ok in H as (signals & _ & H).
  apply bind_Ok in H as ([r text] & Hdecision & H).
  apply bind_Ok in H as (score & Hscore & H).
  injection H as <-. cbn [confidence_score validation_errors fraud_signals
                          recommendation explanation fst snd].
  split.
  - unfold as_confidence_score in Hscore. cbn [py_float] in Hscore.
    now injection Hscore as <-.
  - exists is_readable. exact Hdecision.
Qed.

Lemma missing_confidence_defaults_witness :
  lookup (lit "confidence") [] = None
  /\ pipeline_confidence (JDict []) = Ok (JFloat 0.5).
Proof.
  split; [reflexivity |].
  exact (proj1 (proj2 (proj2
           (@missing_confidence_defaults Reference.runtime example_now (lit "r1")
              None [] eq_refl)))).
Defined.

(** C3, as stated, fails on the empty extraction result: the fraud check
    reports a confidence of 0.00 while the pipeline scores 0.5 and the policy
    explains its verdict with a confidence of 0.50; had the policy seen 0,
    its explanation would read 0.00. *)
Lemma pipeline_reads_half_not_zero :
  run_verification_pipeline (rt := Reference.runtime) example_now (lit "r1") None
    (JDict [])
  = Ok (mk_VerificationResult (lit "r1") UNKNOWN 0.5 []
          [lit "Name field is missing or too short"]
          [mk_FraudSignal (lit "LOW_CONFIDENCE")
             (lit "Overall extraction confidence is very low (0.00)")
             (lit "MEDIUM")]
          REVIEW (lit "Low extraction confidence (0.50)"))
  /\ determine_recommendation (rt := Reference.runtime)
       [lit "Name field is missing or too short"]
       [mk_FraudSignal (lit "LOW_CONFIDENCE")
          (lit "Overall extraction confidence is very low (0.00)")
          (lit "MEDIUM")]
       (JInt 0) (JBool true)
     = Ok (REVIEW, lit "Low extraction confidence (0.00)")
  /\ pipeline_confidence (JDict []) <> Ok (JInt 0).
Proof.
  split; [vm_compute; reflexivity |].
  split; [vm_compute; reflexivity |].
  vm_compute. discriminate.
Qed.

(** ** The clock *)

Section ClockProperties.

Context {rt : Runtime}.

(** The date-of-birth rule looks at the clock only to compare it with the
    parsed date. *)
Lemma validate_dob_clock (now1 now2 : datetime) (fields : json) :
  (forall d, parsed_dob fields = Some d ->
             datetime_gtb d now1 = datetime_gtb d now2) ->
  validate_dob now1 fields = validate_dob now2 fields.
Proof.
  unfold parsed_dob, validate_dob. intros H.
  destruct (field_value fields (lit "dob")) as [dob |]; [| reflexivity].
  cbn [bind]. destruct (truthy dob); [| reflexivity]. cbn [negb].
  destruct (parse_date dob date_formats) as [[d |] |]; try reflexivity.
  cbn [bind]. now rewrite (H d eq_refl).
Qed.

End ClockProperties.

(** C5 (amended).  The policy ([determine_recommendation]) and the
    aggregate ([detect_fraud_signals]) read nothing but their arguments, and
    validation ([validate_fields]) reads its arguments and the clock: two
    validations of the same input agree whenever the two clock readings
    stand on the same side of the parsed date of birth (always, when there
    is none), and two pipeline runs on the same extraction result agree
    whenever their validations do. *)
Theorem validation_reads_the_clock {rt : Runtime} (now1 now2 : datetime) :
  (forall document_type fields,
     (forall d, parsed_dob fields = Some d ->
                datetime_gtb d now1 = datetime_gtb d now2) ->
     validate_fields now1 document_type fields
     = validate_fields now2 document_type fields)
  /\ (forall request_id document_type_hint extraction_result,
        (forall document_type raw_fields,
           resolve_document_type document_type_hint extraction_result
           = Ok document_type ->
           get extraction_result (lit "fields") (JDict []) = Ok raw_fields ->
           validate_fields now1 document_type raw_fields
           = validate_fields now2 document_type raw_fields) ->
        run_verification_pipeline now1 request_id document_type_hint extraction_result
        = run_verification_pipeline now2 request_id document_type_hint extraction_result).
Proof.
  split.
  - intros document_type fields H. unfold validate_fields.
    now rewrite (validate_dob_clock now1 now2 fields H).
  - intros request_id hint er H. unfold run_verification_pipeline.
    destruct (resolve_document_type hint er) as [doc_type |]; [| reflexivity].
    cbn [bind].
    destruct (pipeline_confidence er) as [overall |]; [| reflexivity]. cbn [bind].
    destruct (get er (lit "is_readable") (JBool true)) as [readable |];
      [| reflexivity]. cbn [bind].
    destruct (get er (lit "fields") (JDict [])) as [raw |]; [| reflexivity].
    cbn [bind].
    destruct (normalize_fields raw) as [fields |]; [| reflexivity]. cbn [bind].
    now rewrite (H doc_type raw eq_refl eq_refl).
Qed.

(** Two readings in 2026, before a date of birth in 2027. *)
Lemma validation_reads_the_clock_witness :
  let fields :=
    JDict [(lit "name", record "Asha Rao" 0.9); (lit "dob", record "01-01-2027" 0.9)] in
  let later := mk_datetime 2026 12 31 23 59 59 0 in
  (forall d, parsed_dob (rt := Reference.runtime) fields = Some d ->
             datetime_gtb d example_now = datetime_gtb d later)
  /\ validate_fields (rt := Reference.runtime) example_now UNKNOWN fields
     = validate_fields (rt := Reference.runtime) later UNKNOWN fields.
Proof.
  intros fields later.
  assert (H : forall d, parsed_dob (rt := Reference.runtime) fields = Some d ->
                        datetime_gtb d example_now = datetime_gtb d later).
  { intros d Hd. vm_compute in Hd. injection Hd as <-. reflexivity. }
  split; [exact H |].
  exact (proj1 (@validation_reads_the_clock Reference.runtime example_now later)
           UNKNOWN fields H).
Defined.

(** C5, as stated, fails for validation: the same fields, validated at two
    clock readings on either side of the date of birth, give different
    outputs. *)
Lemma validation_differs_across_time :
  let fields :=
    JDict [(lit "name", record "Asha Rao" 0.9); (lit "dob", record "01-01-2027" 0.9)] in
  validate_fields (rt := Reference.runtime) (mk_datetime 2026 11 3 12 0 0 0) UNKNOWN fields
  = Ok [lit "Date of birth cannot be in the future"]
  /\ validate_fields (rt := Reference.runtime) (mk_datetime 2027 1 1 0 0 0 1) UNKNOWN fields
     = Ok [].
Proof. split; vm_compute; reflexivity. Qed.

(** ** Malformed input *)

(** C1 fails on the code: an explicit hint outside the closed set raises
    [ValueError], in the resolution and so in the pipeline, whatever the
    extraction result is; the same string arriving in the extraction result
    resolves to [unknown].  A [document_type] that is not a string raises
    as well. *)
Theorem unknown_hint_raises {rt : Runtime} (now : datetime) (request_id : pystr)
    (extraction_result : json) :
  resolve_document_type (Some (lit "invoice")) extraction_result = Raise ValueError
  /\ run_verification_pipeline now request_id (Some (lit "invoice")) extraction_result
     = Raise ValueError
  /\ resolve_document_type None
       (JDict [(lit "document_type", JStr (lit "invoice"))]) = Ok UNKNOWN
  /\ resolve_document_type None (JDict [(lit "document_type", JNull)])
     = Raise AttributeError.
Proof.
  repeat split; reflexivity.
Qed.

(** C2 fails on the code: a field that arrives as a bare scalar is
    normalised (confidence 0.5) but aborts validation, and with it the
    pipeline, with [AttributeError]; a [value] of [null] aborts validation
    with [TypeError]. *)
Theorem scalar_field_aborts_pipeline {rt : Runtime} (now : datetime)
    (request_id : pystr) :
  let raw_fields := JDict [(lit "name", JStr (lit "John Doe"))] in
  normalize_fields raw_fields
  = Ok [(lit "name", mk_ExtractedField (lit "John Doe") 0.5)]
  /\ validate_name raw_fields = Raise AttributeError
  /\ run_verification_pipeline now request_id None (JDict [(lit "fields", raw_fields)])
     = Raise AttributeError
  /\ validate_name (JDict [(lit "name", JDict [(lit "value", JNull)])])
     = Raise TypeError.
Proof. repeat split; reflexivity. Qed.

(** A confidence that is not a number aborts normalisation itself. *)
Example textual_confidence_aborts_normalisation :
  normalize_fields (rt := Reference.runtime)
    (JDict [(lit "name",
             JDict [(lit "value", JStr (lit "John Doe"));
                    (lit "confidence", JStr (lit "high"))])])
  = Raise ValueError
  /\ normalize_fields (rt := Reference.runtime)
       (JDict [(lit "name",
                JDict [(lit "value", JStr (lit "John Doe"));
                       (lit "confidence", JNull)])])
     = Raise TypeError.
Proof. split; vm_compute; reflexivity. Qed.

(** ** Further runs of the model *)

(** An [int] confidence too large for a float is compared exactly, but
    cannot be rendered. *)
Example huge_negative_confidence_overflows :
  determine_recommendation (rt := Reference.runtime) [] []
    (JInt (- 10 ^ 400)) (JBool true)
  = Raise OverflowError.
Proof. vm_compute. reflexivity. Qed.

(** The PAN rule ignores case and surrounding white space. *)
Example pan_examples :
  validate_pan (rt := Reference.runtime)
    (JDict [(lit "id_number", record " abcde1234f " 0.9)]) = Ok []
  /\ validate_pan (rt := Reference.runtime)
       (JDict [(lit "id_number", record "ABCDE123F" 0.9)])
     = Ok [lit "PAN number must be in format ABCDE1234F"].
Proof. split; vm_compute; reflexivity. Qed.

(** A complete run on a well-formed Aadhaar extraction. *)
Example clean_aadhaar_run :
  run_verification_pipeline (rt := Reference.runtime) example_now (lit "r1") None
    (JDict [(lit "document_type", JStr (lit "Aadhaar"));
            (lit "confidence", JFloat 0.92);
            (lit "fields",
             JDict [(lit "name", record "Asha Rao" 0.9);
                    (lit "dob", record "15-08-1990" 0.9);
                    (lit "id_number", record "1234 5678 9012" 0.95)]);
            (lit "issues", JList []);
            (lit "is_readable", JBool true)])
  = Ok (mk_VerificationResult (lit "r1") AADHAAR 0.92
          [(lit "name", mk_ExtractedField (lit "Asha Rao") 0.9);
           (lit "dob", mk_ExtractedField (lit "15-08-1990") 0.9);
           (lit "id_number", mk_ExtractedField (lit "1234 5678 9012") 0.95)]
          [] [] APPROVE (lit "All checks passed with high confidence")).
Proof. vm_compute. reflexivity. Qed.

(** A hint in any letter case selects the document type. *)
Example hint_selects_type :
  resolve_document_type (rt := Reference.runtime) (Some (lit "PAN")) (JDict [])
  = Ok PAN.
Proof. vm_compute. reflexivity. Qed.

(** * Further properties of the code *)

(** ** The recommendation policy, rule by rule *)

Section PolicyRules.

Context {rt : Runtime}.

Lemma filter_high_nil (fraud_signals : list FraudSignal) :
  filter (fun s => str_eqb (severity s) (lit "HIGH")) fraud_signals = []
  <-> no_high fraud_signals = true.
Proof.
  unfold no_high. induction fraud_signals as [| s rest IH]; [cbn; tauto |].
  cbn [filter forallb].
  destruct (str_eqb (severity s) (lit "HIGH")); cbn [negb andb].
  - split; discriminate.
  - exact IH.
Qed.

Lemma filter_high_first (before after : list FraudSignal) (s : FraudSignal) :
  no_high before = true ->
  severity s = lit "HIGH" ->
  filter (fun s => str_eqb (severity s) (lit "HIGH")) (before ++ s :: after)
  = s :: filter (fun s => str_eqb (severity s) (lit "HIGH")) after.
Proof.
  intros Hbefore Hs. rewrite filter_app.
  rewrite (proj2 (filter_high_nil before) Hbefore).
  cbn [app filter]. rewrite Hs, str_eqb_refl. reflexivity.
Qed.

End PolicyRules.

(** X1.  On a readable document the first signal of severity HIGH, in the
    order of the list, decides: the policy returns REVIEW and quotes the
    description of that signal, whatever the validation errors and whatever
    the confidence value is, be it missing, textual or not a number. *)
Theorem first_high_signal_decides {rt : Runtime}
    (validation_errors : list pystr) (before after : list FraudSignal)
    (s : FraudSignal) (overall_confidence is_readable : json) :
  truthy is_readable = true ->
  no_high before = true ->
  severity s = lit "HIGH" ->
  determine_recommendation validation_errors (before ++ s :: after)
    overall_confidence is_readable
  = Ok (REVIEW, lit "Potential fraud detected: " ++ description s).
Proof.
  intros Hreadable Hbefore Hs. unfold determine_recommendation.
  rewrite Hreadable. cbn [negb].
  rewrite (filter_high_first before after s Hbefore Hs). reflexivity.
Qed.

Lemma first_high_signal_decides_witness :
  let low := mk_FraudSignal (lit "VLM_DETECTED_ISSUE") (lit "blurry scan") (lit "LOW") in
  let high := mk_FraudSignal (lit "ALTERATION_DETECTED")
                (lit "Tampering detected: pixelated text") (lit "HIGH") in
  truthy (JBool true) = true
  /\ no_high [low] = true
  /\ severity high = lit "HIGH"
  /\ determine_recommendation (rt := Reference.runtime) [] ([low] ++ high :: [])
       JNull (JBool true)
     = Ok (REVIEW, lit "Potential fraud detected: " ++ description high).
Proof.
  intros low high.
  repeat (split; [reflexivity |]).
  exact (@first_high_signal_decides Reference.runtime [] [low] [] high JNull
           (JBool true) eq_refl eq_refl eq_refl).
Defined.

(** X2.  On a float confidence the policy approves exactly when the
    document is readable, no signal is HIGH, there are fewer than three
    validation errors, the confidence is not below 0.6 and, if there is any
    error or signal at all, the confidence is at least 0.8; in every other
    case it returns REVIEW.  A confidence that is not a number (NaN) is
    below nothing, so a NaN confidence without errors and signals is
    approved. *)
Theorem approval_condition {rt : Runtime}
    (validation_errors : list pystr) (fraud_signals : list FraudSignal)
    (c : float) (is_readable : json) :
  (exists text,
     determine_recommendation validation_errors fraud_signals (JFloat c) is_readable
     = Ok (if approves validation_errors fraud_signals c is_readable
           then APPROVE else REVIEW, text))
  /\ approves [] [] nan (JBool true) = true.
Proof.
  split; [| reflexivity].
  unfold determine_recommendation, approves.
  destruct (truthy is_readable); cbn [negb andb]; [| eauto].
  destruct (filter _ fraud_signals) as [| first rest] eqn:Hhigh.
  - rewrite (proj1 (filter_high_nil fraud_signals) Hhigh). cbn [andb].
    replace (List.length validation_errors <? 3)%nat
      with (negb (3 <=? List.length validation_errors)%nat)
      by (destruct (Nat.leb_spec 3 (List.length validation_errors));
          destruct (Nat.ltb_spec (List.length validation_errors) 3);
          try reflexivity; lia).
    destruct (3 <=? List.length validation_errors)%nat; cbn [negb andb]; [eauto |].
    rewrite lt_float_JFloat. cbn [bind].
    destruct (c <? 0.6)%float; cbn [negb andb].
    { rewrite fmt_2f_JFloat. cbn [bind]. eauto. }
    destruct (nonempty validation_errors || nonempty fraud_signals);
      cbn [negb orb]; rewrite ge_float_JFloat; cbn [bind];
      match goal with |- context [(?k <=? c)%float] => destruct (k <=? c)%float end;
      eauto.
  - assert (Hno : no_high fraud_signals = false).
    { destruct (no_high fraud_signals) eqn:E; [| reflexivity].
      apply filter_high_nil in E. rewrite E in Hhigh. discriminate Hhigh. }
    rewrite Hno. cbn [andb]. eauto.
Qed.

(** ** The identifier and name rules *)

Ltac class_cases :=
  repeat match goal with
         | |- context [in_range ?a ?b ?c] =>
             destruct (in_range a b c); cbn [andb]; try reflexivity
         | |- context [isdecimal ?c] =>
             destruct (isdecimal c); cbn [andb]; try reflexivity
         end.

Ltac shape_step :=
  cbn [match_rep List.length Nat.eqb firstn skipn forallb andb];
  class_cases; try reflexivity.

(** One more character of the text, or its end. *)
Ltac by_length t k :=
  destruct t as [| ? t]; [ shape_step | k ].

(** The text has ten characters or more: with an eleventh that ends the
    text, [$] would accept a newline, which the text does not end with. *)
Ltac ten_or_more t Hend :=
  destruct t as [| c11 t]; [shape_step |];
  destruct t as [| c12 t]; [| shape_step];
  shape_step; unfold at_dollar;
  match goal with
  | |- context [(?c =? 10)%N] =>
      destruct (N.eqb_spec c 10) as [-> | _]; [| reflexivity]
  end;
  exfalso;
  lazymatch type of (Hend []) with
  | ?l <> _ => apply (Hend (removelast l)); reflexivity
  end.

Section IdentifierProperties.

Context {rt : Runtime}.

Lemma pan_match (t : pystr) :
  (forall before, t <> before ++ [10%N]) ->
  re_match [(in_range 65 90, 5%nat); (in_range 48 57, 4%nat); (in_range 65 90, 1%nat)] t
  = pan_shape t.
Proof.
  intros Hend. unfold re_match, match_seq, pan_shape.
  by_length t ltac:(by_length t ltac:(by_length t ltac:(by_length t ltac:(
  by_length t ltac:(by_length t ltac:(by_length t ltac:(by_length t ltac:(
  by_length t ltac:(by_length t ltac:(ten_or_more t Hend)))))))))).
Qed.

Lemma voter_match (t : pystr) :
  (forall before, t <> before ++ [10%N]) ->
  re_match [(in_range 65 90, 3%nat); (isdecimal, 7%nat)] t = voter_shape t.
Proof.
  intros Hend. unfold re_match, match_seq, voter_shape.
  by_length t ltac:(by_length t ltac:(by_length t ltac:(by_length t ltac:(
  by_length t ltac:(by_length t ltac:(by_length t ltac:(by_length t ltac:(
  by_length t ltac:(by_length t ltac:(ten_or_more t Hend)))))))))).
Qed.

Lemma lstrip_head (s : pystr) (c : N) (r : pystr) :
  lstrip s = c :: r -> isspace c = false.
Proof.
  induction s as [| x s IH]; [discriminate |].
  cbn [lstrip]. destruct (isspace x) eqn:E; [exact IH |].
  intros H. injection H as <- _. exact E.
Qed.

(** A stripped text does not end with white space. *)
Lemma strip_last (s before : pystr) (c : N) :
  strip s = before ++ [c] -> isspace c = false.
Proof.
  unfold strip. intros H.
  apply (f_equal (@rev N)) in H. rewrite rev_involutive, rev_app_distr in H.
  cbn [rev app] in H. now apply lstrip_head in H.
Qed.

Lemma strip_no_newline (s before : pystr) : strip s <> before ++ [10%N].
Proof. intros H. apply strip_last in H. discriminate H. Qed.

End IdentifierProperties.

(** X3.  For a PAN document whose [id_number] value is a string, validation
    upper-cases and strips it and reports the one error "PAN number must be
    in format ABCDE1234F" exactly when what remains is not five capital
    letters, four ASCII digits and a capital letter: lower-case input and
    surrounding white space are accepted, a trailing newline included. *)
Theorem pan_rule {rt : Runtime} (fields : json) (s : pystr) :
  field_value fields (lit "id_number") = Ok (JStr s) ->
  validate_pan fields =
  Ok (if pan_shape (strip (upper s)) then []
      else [lit "PAN number must be in format ABCDE1234F"]).
Proof.
  intros H. unfold validate_pan. rewrite H. cbn [bind upper_of].
  rewrite pan_match by apply strip_no_newline.
  destruct (pan_shape (strip (upper s))); reflexivity.
Qed.

Lemma pan_rule_witness :
  let fields := JDict [(lit "id_number", JDict [(lit "value", JStr (lit "abcde1234f" ++ [10%N]))])] in
  field_value fields (lit "id_number") = Ok (JStr (lit "abcde1234f" ++ [10%N]))
  /\ validate_pan (rt := Reference.runtime) fields = Ok [].
Proof.
  intros fields. split; [reflexivity |].
  exact (@pan_rule Reference.runtime fields (lit "abcde1234f" ++ [10%N]) eq_refl).
Defined.

(** X4.  For a voter-id document whose [id_number] value is a string,
    validation upper-cases and strips it and reports the one error "Voter ID
    format appears invalid" exactly when what remains is not three capital
    letters followed by seven decimal digits. *)
Theorem voter_id_rule {rt : Runtime} (fields : json) (s : pystr) :
  field_value fields (lit "id_number") = Ok (JStr s) ->
  validate_voter_id fields =
  Ok (if voter_shape (strip (upper s)) then []
      else [lit "Voter ID format appears invalid"]).
Proof.
  intros H. unfold validate_voter_id. rewrite H. cbn [bind upper_of].
  rewrite voter_match by apply strip_no_newline.
  destruct (voter_shape (strip (upper s))); reflexivity.
Qed.

Lemma voter_id_rule_witness :
  let fields := JDict [(lit "id_number", record " abc1234567" 0.9)] in
  field_value fields (lit "id_number") = Ok (JStr (lit " abc1234567"))
  /\ validate_voter_id (rt := Reference.runtime) fields = Ok [].
Proof.
  intros fields. split; [reflexivity |].
  exact (@voter_id_rule Reference.runtime fields (lit " abc1234567") eq_refl).
Defined.

(** X5.  When the [name] value is a string, the name rule returns, in this
    order, "Name field is missing or too short" exactly when the stripped
    name has fewer than two characters, and "Name contains suspicious
    characters" exactly when the name holds an ASCII digit or one of
    [@#$%^&*()_+=[]{}|\<>]; the two are independent, so a name such as "7"
    gets both.  A missing name counts as the empty string. *)
Theorem name_rule {rt : Runtime} (fields : json) (s : pystr) :
  field_value fields (lit "name") = Ok (JStr s) ->
  validate_name fields = Ok (name_errors s)
  /\ name_errors [] = [lit "Name field is missing or too short"]
  /\ name_errors (lit "7")
     = [lit "Name field is missing or too short";
        lit "Name contains suspicious characters"].
Proof.
  intros H. split; [| split; reflexivity].
  unfold validate_name, name_errors. rewrite H. cbn [bind].
  destruct s as [| c s]; [reflexivity |].
  cbn [truthy negb strip_of bind re_search_class].
  destruct (List.length (strip (c :: s)) <? 2)%nat;
    destruct (existsb suspicious_char (c :: s)); reflexivity.
Qed.

Lemma name_rule_witness :
  field_value (JDict []) (lit "name") = Ok (JStr [])
  /\ validate_name (rt := Reference.runtime) (JDict [])
     = Ok [lit "Name field is missing or too short"].
Proof.
  split; [reflexivity |].
  exact (proj1 (@name_rule Reference.runtime (JDict []) [] eq_refl)).
Defined.

(** ** Validation as a whole *)

(** Opening the successful run of a sequence of steps. *)
Ltac open_binds H :=
  repeat (let a := fresh "a" in
          let Ha := fresh "Ha" in
          apply bind_Ok in H as (a & Ha & H)).

Section ValidationProperties.

Context {rt : Runtime}.

Lemma validate_name_bound (fields : json) (errors : list pystr) :
  validate_name fields = Ok errors -> (List.length errors <= 2)%nat.
Proof.
  unfold validate_name. intros H. open_binds H. injection H as <-.
  destruct a0, a1; cbn; lia.
Qed.

Lemma validate_dob_bound (now : datetime) (fields : json) (errors : list pystr) :
  validate_dob now fields = Ok errors -> (List.length errors <= 1)%nat.
Proof.
  unfold validate_dob. intros H. apply bind_Ok in H as (dob & _ & H).
  destruct (negb (truthy dob)); [injection H as <-; cbn; lia |].
  apply bind_Ok in H as (parsed & _ & H). injection H as <-.
  destruct parsed as [d |]; [| cbn; lia].
  destruct (datetime_gtb d now); [cbn; lia |].
  destruct (year d <? 1900)%Z; cbn; lia.
Qed.

Lemma id_rules_bound (fields : json) (errors : list pystr) :
  validate_aadhaar fields = Ok errors
  \/ validate_pan fields = Ok errors
  \/ validate_voter_id fields = Ok errors ->
  (List.length errors <= 1)%nat.
Proof.
  unfold validate_aadhaar, validate_pan, validate_voter_id.
  intros [H | [H | H]]; open_binds H; injection H as <-;
    match goal with |- context [if ?b then _ else _] => destruct b end;
    cbn; lia.
Qed.

Lemma field_value_other_key (k k' : pystr) (v : json) (d : list (pystr * json)) :
  str_eqb k k' = false ->
  field_value (JDict ((k', v) :: d)) k = field_value (JDict d) k.
Proof.
  intros H. unfold field_value. cbn [get]. now rewrite lookup_skip.
Qed.

End ValidationProperties.

(** X6.  Validation never returns more than four errors, and for a
    document type without an identifier rule (driving licence, passport,
    birth certificate, unknown) never more than three: two at most from the
    name, one from the date of birth, one from the identifier. *)
Theorem validation_error_bound {rt : Runtime} (now : datetime)
    (document_type : DocumentType) (fields : json) (errors : list pystr) :
  validate_fields now document_type fields = Ok errors ->
  (List.length errors <= 4)%nat
  /\ (has_id_rule document_type = false -> (List.length errors <= 3)%nat).
Proof.
  unfold validate_fields. intros H.
  apply bind_Ok in H as (names & Hnames & H).
  apply bind_Ok in H as (dobs & Hdobs & H).
  apply validate_name_bound in Hnames. apply validate_dob_bound in Hdobs.
  cbn [app] in H.
  destruct document_type; cbn [has_id_rule];
    try (injection H as <-; rewrite length_app; split; [lia | intros _; lia]);
    apply bind_Ok in H as (ids & Hids & H); injection H as <-;
    rewrite !length_app;
    (assert (List.length ids <= 1)%nat by (apply (id_rules_bound fields); tauto));
    (split; [lia | discriminate]).
Qed.

Lemma validation_error_bound_witness :
  let fields := JDict [(lit "name", record "7" 0.9); (lit "dob", record "soon" 0.9)] in
  let errors := [lit "Name field is missing or too short";
                 lit "Name contains suspicious characters";
                 lit "Could not parse date of birth: soon"] in
  validate_fields (rt := Reference.runtime) example_now PASSPORT fields = Ok errors
  /\ (List.length errors <= 3)%nat.
Proof.
  intros fields errors. split; [vm_compute; reflexivity |].
  exact (proj2 (@validation_error_bound Reference.runtime example_now PASSPORT
                  fields errors eq_refl) eq_refl).
Defined.

(** X7.  For a document type without an identifier rule the [id_number]
    entry is never looked at: whatever it is replaced with, a malformed
    value included, validation gives the same result. *)
Theorem id_number_is_ignored {rt : Runtime} (now : datetime)
    (document_type : DocumentType) (id_number : json) (d : list (pystr * json)) :
  has_id_rule document_type = false ->
  validate_fields now document_type (JDict ((lit "id_number", id_number) :: d))
  = validate_fields now document_type (JDict d).
Proof.
  intros Hrule. unfold validate_fields, validate_name, validate_dob.
  rewrite !field_value_other_key by reflexivity.
  destruct document_type; try discriminate Hrule; reflexivity.
Qed.

Lemma id_number_is_ignored_witness :
  has_id_rule PASSPORT = false
  /\ validate_fields (rt := Reference.runtime) example_now PASSPORT
       (JDict [(lit "id_number", JNull); (lit "name", record "Asha Rao" 0.9)])
     = validate_fields (rt := Reference.runtime) example_now PASSPORT
         (JDict [(lit "name", record "Asha Rao" 0.9)]).
Proof.
  split; [reflexivity |].
  exact (@id_number_is_ignored Reference.runtime example_now PASSPORT JNull
           [(lit "name", record "Asha Rao" 0.9)] eq_refl).
Defined.

(** ** The fraud checks one by one *)

Section CheckProperties.

Context {rt : Runtime}.

(** Below 0.4 is below 0.6, on floats. *)
Lemma below_04_below_06 (x : float) :
  (x <? 0.4)%float = true -> (x <? 0.6)%float = true.
Proof.
  rewrite !ltb_spec.
  set (c4 := Prim2SF 0.4). vm_compute in c4.
  set (c6 := Prim2SF 0.6). vm_compute in c6.
  subst c4 c6. unfold SFltb, SFcompare.
  destruct (Prim2SF x) as [sgn | sgn | | sgn m e];
    try (destruct sgn; intros H; exact H || reflexivity || discriminate H).
  - intros H; exact H.
  - destruct sgn; [reflexivity |].
    destruct (Z.compare_spec e (-54)) as [-> | Hlt | Hgt].
    + intros _. reflexivity.
    + intros _. destruct (Z.compare_spec e (-53)); try reflexivity; lia.
    + discriminate.
Qed.

Lemma append_each_app {A : Type} (f : A -> FraudSignal) (l : list A)
    (signals : list FraudSignal) :
  append_each f l signals = signals ++ map f l.
Proof.
  unfold append_each. revert signals.
  induction l as [| x l IH]; intros signals; cbn [fold_left map].
  - now rewrite app_nil_r.
  - rewrite IH, <- app_assoc. reflexivity.
Qed.

Lemma issues_loop_spec (issues : list json) (signals : list FraudSignal) :
  issues_loop issues signals = signals ++ map issue_signal (issue_texts issues).
Proof.
  revert signals. induction issues as [| issue rest IH]; intros signals.
  - cbn. now rewrite app_nil_r.
  - cbn [issues_loop issue_texts flat_map].
    destruct issue; cbn [app]; try apply IH.
    rewrite IH, <- app_assoc. reflexivity.
Qed.

Lemma contains_nil (needle : pystr) (c : N) :
  contains [] (c :: needle) = false.
Proof. reflexivity. Qed.

Lemma str_leb_single (a c : N) : str_leb [a] [c] = (a <=? c)%N.
Proof.
  cbn [str_leb].
  destruct (N.ltb_spec a c), (N.ltb_spec c a), (N.leb_spec a c);
    try reflexivity; lia.
Qed.

Lemma any_devanagari (s : pystr) :
  py_any is_devanagari (map (fun c => JStr [c]) s)
  = Ok (existsb (in_range 2304 2431) s).
Proof.
  induction s as [| c s IH]; [reflexivity |].
  cbn [map py_any is_devanagari bind existsb].
  rewrite !str_leb_single. fold (in_range 2304 2431 c).
  destruct (in_range 2304 2431 c); [reflexivity | exact IH].
Qed.

Lemma any_latin (s : pystr) :
  py_any is_latin (map (fun c => JStr [c]) s) = Ok (existsb latin_letter s).
Proof.
  induction s as [| c s IH]; [reflexivity |].
  cbn [map py_any is_latin lower_of bind existsb].
  fold (latin_letter c).
  destruct (latin_letter c); [reflexivity | exact IH].
Qed.

(** The forensic check, when it returns on a non-empty record. *)
Lemma forensic_check_spec (extraction_result : json)
    (fraud_data : list (pystr * json)) (out : list FraudSignal) :
  get extraction_result (lit "fraud_analysis") (JDict []) = Ok (JDict fraud_data) ->
  fraud_data <> [] ->
  check_llm_fraud_analysis extraction_result = Ok out ->
  exists score suspicious alterations,
    forensic_inputs fraud_data = Ok (score, suspicious, alterations)
    /\ out = forensic_signals fraud_data score suspicious alterations.
Proof.
  intros Hget Hne H. unfold check_llm_fraud_analysis in H.
  rewrite Hget in H. cbn [bind] in H.
  destruct fraud_data as [| entry rest]; [contradiction |].
  cbn [truthy negb] in H. set (fd := entry :: rest) in *.
  cbn [get] in H. cbn [bind] in H.
  apply bind_Ok in H as (score & Hscore & H).
  apply bind_Ok in H as (signals & Hsignals & H).
  apply bind_Ok in H as (suspicious & Hsusp & H).
  apply bind_Ok in H as (alterations & Halt & H).
  injection H as <-.
  exists score, suspicious, alterations. split.
  - unfold forensic_inputs. rewrite Hscore. cbn [bind].
    rewrite Hsusp. cbn [bind]. rewrite Halt. reflexivity.
  - rewrite !append_each_app. unfold forensic_signals.
    destruct (score <? 0.6)%float; cbn [bind app] in Hsignals;
      injection Hsignals as <-.
    + destruct (negb (truthy _)); cbn [app]; rewrite <- ?app_assoc; reflexivity.
    + destruct (negb (truthy _)); cbn [app]; rewrite <- ?app_assoc; reflexivity.
Qed.

(** A signal of severity HIGH anywhere in the list sends to review. *)
Lemma high_signal_review (validation_errors : list pystr)
    (fraud_signals : list FraudSignal) (overall_confidence is_readable : json) :
  no_high fraud_signals = false ->
  exists text,
    determine_recommendation validation_errors fraud_signals
      overall_confidence is_readable = Ok (REVIEW, text).
Proof.
  intros Hhigh. unfold determine_recommendation.
  destruct (negb (truthy is_readable)); [eauto |].
  destruct (filter _ fraud_signals) eqn:Hfilter; [| eauto].
  apply filter_high_nil in Hfilter. congruence.
Qed.

Lemma no_high_app (a b : list FraudSignal) :
  no_high (a ++ b) = no_high a && no_high b.
Proof. unfold no_high. apply forallb_app. Qed.

Lemma red_flag_high (fraud_data : list (pystr * json)) (score : float)
    (suspicious alterations : list json) :
  red_flag score fraud_data alterations = true ->
  no_high (forensic_signals fraud_data score suspicious alterations) = false.
Proof.
  unfold red_flag, forensic_signals. intros H.
  rewrite !no_high_app.
  apply orb_true_iff in H as [H | H]; [apply orb_true_iff in H as [H | H] |].
  - rewrite H.
    assert (H6 : (score <? 0.6)%float = true) by now apply below_04_below_06.
    rewrite H6. reflexivity.
  - rewrite H. cbn. now rewrite andb_false_r.
  - destruct alterations as [| x rest]; [discriminate H |].
    cbn. now rewrite !andb_false_r.
Qed.

End CheckProperties.

(** X8.  When [issues] is a list, the issues check returns one
    [VLM_DETECTED_ISSUE] signal per string entry, in order, with the entry
    as its description, and skips every entry that is not a string.  The
    severity is HIGH as soon as the text mentions "tamper" or "edit" in any
    letter case, even if it also mentions "blur" or "quality", and is
    always one of HIGH, LOW and MEDIUM. *)
Theorem reported_issues {rt : Runtime} (extraction_result : json)
    (issues : list json) :
  get extraction_result (lit "issues") (JList []) = Ok (JList issues) ->
  check_issues_from_vlm extraction_result
  = Ok (map issue_signal (issue_texts issues))
  /\ (forall s,
        contains (lower s) (lit "tamper") || contains (lower s) (lit "edit") = true ->
        issue_severity s = lit "HIGH")
  /\ (forall s,
        issue_severity s = lit "HIGH" \/ issue_severity s = lit "LOW"
        \/ issue_severity s = lit "MEDIUM").
Proof.
  intros H. split; [| split].
  - unfold check_issues_from_vlm. rewrite H. cbn [bind iter].
    now rewrite issues_loop_spec.
  - intros s Hs. unfold issue_severity. now rewrite Hs.
  - intros s. unfold issue_severity.
    destruct (_ || _); [now left |].
    destruct (_ || _); [right; now left | right; now right].
Qed.

Lemma reported_issues_witness :
  let extraction_result :=
    JDict [(lit "issues",
            JList [JStr (lit "Blurry but EDITED photo"); JInt 7; JStr (lit "glare")])] in
  get extraction_result (lit "issues") (JList [])
  = Ok (JList [JStr (lit "Blurry but EDITED photo"); JInt 7; JStr (lit "glare")])
  /\ check_issues_from_vlm (rt := Reference.runtime) extraction_result
     = Ok [mk_FraudSignal (lit "VLM_DETECTED_ISSUE") (lit "Blurry but EDITED photo")
             (lit "HIGH");
           mk_FraudSignal (lit "VLM_DETECTED_ISSUE") (lit "glare") (lit "MEDIUM")].
Proof.
  intros extraction_result. split; [reflexivity |].
  exact (proj1 (@reported_issues Reference.runtime extraction_result
                  [JStr (lit "Blurry but EDITED photo"); JInt 7; JStr (lit "glare")]
                  eq_refl)).
Defined.

(** X9.  The forensic check returns no signal when [fraud_analysis] is
    missing or empty.  On a non-empty record it returns exactly when the
    validity score converts to a float and the two lists can be iterated,
    and then its signals are, in this order: one [LOW_VALIDITY_SCORE] if the
    score is below 0.6 (HIGH below 0.4, MEDIUM otherwise), one HIGH
    [VISUAL_ANOMALY] if the appearance is not genuine, one MEDIUM
    [SUSPICIOUS_ELEMENT] per suspicious element and one HIGH
    [ALTERATION_DETECTED] per alteration. *)
Theorem forensic_check {rt : Runtime} (extraction_result : json) :
  (forall v,
     get extraction_result (lit "fraud_analysis") (JDict []) = Ok v ->
     truthy v = false ->
     check_llm_fraud_analysis extraction_result = Ok [])
  /\ (forall fraud_data out,
        get extraction_result (lit "fraud_analysis") (JDict []) = Ok (JDict fraud_data) ->
        fraud_data <> [] ->
        (check_llm_fraud_analysis extraction_result = Ok out <->
         exists score suspicious alterations,
           forensic_inputs fraud_data = Ok (score, suspicious, alterations)
           /\ out = forensic_signals fraud_data score suspicious alterations)).
Proof.
  split.
  - intros v Hget Hv. unfold check_llm_fraud_analysis.
    rewrite Hget. cbn [bind]. now rewrite Hv.
  - intros fraud_data out Hget Hne. split.
    + now apply forensic_check_spec.
    + intros (score & suspicious & alterations & Hin & ->).
      unfold forensic_inputs in Hin.
      apply bind_Ok in Hin as (score' & Hscore & Hin).
      apply bind_Ok in Hin as (susp' & Hsusp & Hin).
      apply bind_Ok in Hin as (alt' & Halt & Hin).
      injection Hin as -> -> ->.
      unfold check_llm_fraud_analysis. rewrite Hget. cbn [bind].
      destruct fraud_data as [| entry rest]; [contradiction |].
      cbn [truthy negb]. set (fd := entry :: rest) in *.
      cbn [get bind]. rewrite Hscore. cbn [bind].
      unfold forensic_signals.
      destruct (score <? 0.6)%float; cbn [bind];
        rewrite Hsusp; cbn [bind]; rewrite Halt; cbn [bind];
        rewrite !append_each_app;
        destruct (negb (truthy _)); cbn [app]; rewrite <- ?app_assoc; reflexivity.
Qed.

Lemma forensic_check_witness :
  let record :=
    [(lit "validity_score", JFloat 0.5);
     (lit "suspicious_elements", JList [JStr (lit "wrong font")]);
     (lit "alterations_detected", JList [JStr (lit "pixelated text")])] in
  let extraction_result := JDict [(lit "fraud_analysis", JDict record)] in
  get extraction_result (lit "fraud_analysis") (JDict []) = Ok (JDict record)
  /\ record <> []
  /\ forensic_inputs (rt := Reference.runtime) record
     = Ok (0.5%float, [JStr (lit "wrong font")], [JStr (lit "pixelated text")])
  /\ check_llm_fraud_analysis (rt := Reference.runtime) extraction_result
     = Ok [mk_FraudSignal (lit "LOW_VALIDITY_SCORE")
             (lit "AI Validity Check Failed (0.50): Low validity score detected")
             (lit "MEDIUM");
           mk_FraudSignal (lit "SUSPICIOUS_ELEMENT") (lit "Suspicious: wrong font")
             (lit "MEDIUM");
           mk_FraudSignal (lit "ALTERATION_DETECTED")
             (lit "Tampering detected: pixelated text") (lit "HIGH")].
Proof.
  intros record extraction_result.
  assert (Hne : record <> []) by discriminate.
  split; [reflexivity |]. split; [exact Hne |]. split; [reflexivity |].
  apply (proj2 (proj2 (@forensic_check Reference.runtime extraction_result)
                  record _ eq_refl Hne)).
  exists 0.5%float, [JStr (lit "wrong font")], [JStr (lit "pixelated text")].
  split; vm_compute; reflexivity.
Defined.

(** X10.  [security_features_found] never produces a signal: adding the
    key to the [fraud_analysis] record, with any value whatever, leaves the
    result of the forensic check unchanged. *)
Theorem security_features_are_ignored {rt : Runtime} (features : json)
    (fraud_data rest : list (pystr * json)) :
  check_llm_fraud_analysis
    (JDict ((lit "fraud_analysis",
             JDict ((lit "security_features_found", features) :: fraud_data)) :: rest))
  = check_llm_fraud_analysis
      (JDict ((lit "fraud_analysis", JDict fraud_data) :: rest)).
Proof.
  unfold check_llm_fraud_analysis. cbn [get]. rewrite !lookup_here.
  cbn [bind truthy negb].
  destruct fraud_data as [| entry more]; reflexivity.
Qed.

(** X11.  A forensic record with a validity score below 0.4, an appearance
    that is not genuine or at least one detected alteration always ends in
    REVIEW: whenever the aggregate returns, the policy answers REVIEW on its
    signals, whatever the validation errors, the confidence and the
    readability flag are. *)
Theorem red_flags_force_review {rt : Runtime} (extraction_result : json)
    (fraud_data : list (pystr * json)) (score : float)
    (suspicious alterations : list json) (fraud_signals : list FraudSignal)
    (validation_errors : list pystr) (overall_confidence is_readable : json) :
  get extraction_result (lit "fraud_analysis") (JDict []) = Ok (JDict fraud_data) ->
  forensic_inputs fraud_data = Ok (score, suspicious, alterations) ->
  red_flag score fraud_data alterations = true ->
  detect_fraud_signals extraction_result = Ok fraud_signals ->
  exists text,
    determine_recommendation validation_errors fraud_signals
      overall_confidence is_readable = Ok (REVIEW, text).
Proof.
  intros Hget Hin Hflag Hdetect.
  assert (Hne : fraud_data <> []).
  { intros ->. vm_compute in Hin. injection Hin as <- <- <-.
    vm_compute in Hflag. discriminate Hflag. }
  apply high_signal_review.
  rewrite detect_fraud_signals_concat in Hdetect.
  apply bind_Ok in Hdetect as (a & _ & Hdetect).
  apply bind_Ok in Hdetect as (b & _ & Hdetect).
  apply bind_Ok in Hdetect as (c & _ & Hdetect).
  apply bind_Ok in Hdetect as (d & Hd & Hdetect).
  injection Hdetect as <-.
  destruct (forensic_check_spec extraction_result Hget Hne Hd)
    as (score' & susp' & alt' & Hin' & ->).
  rewrite Hin in Hin'. injection Hin' as <- <- <-.
  rewrite !no_high_app, (red_flag_high fraud_data score suspicious alterations Hflag).
  now rewrite !andb_false_r.
Qed.

Lemma red_flags_force_review_witness :
  let record := [(lit "alterations_detected", JList [JStr (lit "pixelated text")])] in
  let extraction_result :=
    JDict [(lit "confidence", JFloat 0.99); (lit "fraud_analysis", JDict record)] in
  let signals :=
    [mk_FraudSignal (lit "ALTERATION_DETECTED")
       (lit "Tampering detected: pixelated text") (lit "HIGH")] in
  get extraction_result (lit "fraud_analysis") (JDict []) = Ok (JDict record)
  /\ forensic_inputs (rt := Reference.runtime) record
     = Ok (1.0%float, [], [JStr (lit "pixelated text")])
  /\ red_flag 1.0 record [JStr (lit "pixelated text")] = true
  /\ detect_fraud_signals (rt := Reference.runtime) extraction_result = Ok signals
  /\ exists text,
       determine_recommendation (rt := Reference.runtime) [] signals
         (JFloat 0.99) (JBool true) = Ok (REVIEW, text).
Proof.
  intros record extraction_result signals.
  assert (Hd : detect_fraud_signals (rt := Reference.runtime) extraction_result
               = Ok signals) by (vm_compute; reflexivity).
  do 3 (split; [reflexivity |]). split; [exact Hd |].
  exact (@red_flags_force_review Reference.runtime extraction_result record 1.0%float
           [] [JStr (lit "pixelated text")] signals [] (JFloat 0.99) (JBool true)
           eq_refl eq_refl eq_refl Hd).
Defined.

(** X12.  When the [name] value is a string, the script check returns, and
    reports the one LOW [MIXED_SCRIPTS] signal exactly when the name holds a
    Devanagari code point (U+0900 to U+097F) and a Latin letter and is
    longer than 20 characters; a name of at most 20 characters is never
    reported. *)
Theorem mixed_scripts_rule {rt : Runtime} (extraction_result : json) (name : pystr) :
  raw_name extraction_result = Ok (JStr name) ->
  check_field_consistency extraction_result
  = Ok (if mixed_scripts name
        then [mk_FraudSignal (lit "MIXED_SCRIPTS")
                (lit "Name field contains mixed scripts - verify authenticity")
                (lit "LOW")]
        else [])
  /\ ((List.length name <= 20)%nat ->
      check_field_consistency extraction_result = Ok []).
Proof.
  intros H. unfold raw_name, field_value in H.
  apply bind_Ok in H as (fields & Hfields & H).
  apply bind_Ok in H as (entry & Hentry & H).
  assert (Hcheck : check_field_consistency extraction_result
                   = Ok (if mixed_scripts name
                         then [mk_FraudSignal (lit "MIXED_SCRIPTS")
                                 (lit "Name field contains mixed scripts - verify authenticity")
                                 (lit "LOW")]
                         else [])).
  { unfold check_field_consistency.
    rewrite Hfields. cbn [bind]. rewrite Hentry. cbn [bind]. rewrite H.
    cbn [bind iter]. rewrite any_devanagari. cbn [bind]. rewrite any_latin.
    cbn [bind]. unfold mixed_scripts.
    destruct (existsb (in_range 2304 2431) name && existsb latin_letter name);
      cbn [len bind andb]; [| reflexivity].
    destruct (20 <? List.length name)%nat; reflexivity. }
  split; [exact Hcheck |].
  intros Hshort. rewrite Hcheck. unfold mixed_scripts.
  destruct (Nat.ltb_spec 20 (List.length name)); [lia |].
  now rewrite andb_false_r.
Qed.

Lemma mixed_scripts_rule_witness :
  let name := [2352; 2366; 2350]%N ++ lit " Ram Kumar Sharma Verma" in
  let extraction_result :=
    JDict [(lit "fields", JDict [(lit "name", JDict [(lit "value", JStr name)])])] in
  raw_name extraction_result = Ok (JStr name)
  /\ check_field_consistency (rt := Reference.runtime) extraction_result
     = Ok [mk_FraudSignal (lit "MIXED_SCRIPTS")
             (lit "Name field contains mixed scripts - verify authenticity")
             (lit "LOW")].
Proof.
  intros name extraction_result. split; [reflexivity |].
  exact (proj1 (@mixed_scripts_rule Reference.runtime extraction_result name eq_refl)).
Defined.

(** ** Document type and normalisation *)

Section OrchestrationProperties.

Context {rt : Runtime}.

Lemma DocumentType_round_trip (d : DocumentType) :
  DocumentType_of (DocumentType_value d) = Ok d.
Proof. destruct d; reflexivity. Qed.

Lemma lower_value (d : DocumentType) :
  lower (DocumentType_value d) = DocumentType_value d.
Proof. destruct d; reflexivity. Qed.

Lemma DocumentType_of_cases (s : pystr) :
  (exists d, DocumentType_of s = Ok d) \/ DocumentType_of s = Raise ValueError.
Proof.
  unfold DocumentType_of. destruct (find _ _); [left; eauto | now right].
Qed.

Lemma dict_set_fresh {V : Type} (k : pystr) (d : list (pystr * V)) (v : V) :
  ~ In k (map fst d) -> dict_set d k v = d ++ [(k, v)].
Proof.
  induction d as [| [k' v'] d IH]; intros Hk; [reflexivity |].
  cbn [dict_set]. destruct (str_eqb k k') eqn:E.
  - apply str_eqb_eq in E. subst k'. exfalso. apply Hk. now left.
  - cbn [app]. rewrite IH; [reflexivity |].
    intros Hin. apply Hk. now right.
Qed.

(** The normalisation loop on entries with fresh, distinct keys. *)
Lemma normalize_loop_spec (entries : list (pystr * json)) :
  forall fields out,
    NoDup (map fst fields ++ map fst entries) ->
    normalize_loop entries fields = Ok out ->
    exists added, out = fields ++ added /\ Forall2 normalizes entries added.
Proof.
  induction entries as [| [field_name field_data] rest IH]; intros fields out Hnd H.
  - cbn in H. injection H as <-. exists []. rewrite app_nil_r. split; constructor.
  - cbn [normalize_loop] in H.
    apply bind_Ok in H as (field & Hfield & H).
    assert (Hfresh : ~ In field_name (map fst fields)).
    { cbn [map fst] in Hnd. apply NoDup_remove_2 in Hnd.
      intros Hin. apply Hnd. apply in_or_app. now left. }
    rewrite (@dict_set_fresh _ field_name fields field Hfresh) in H.
    apply IH in H as (added & -> & Hall).
    2:{ rewrite map_app. cbn [map fst]. rewrite <- app_assoc. exact Hnd. }
    exists ((field_name, field) :: added). split.
    + now rewrite <- app_assoc.
    + constructor; [| exact Hall].
      split; [reflexivity |]. cbn [fst snd].
      destruct field_data as [| | | | | | d]; cbn [isinstance_dict] in Hfield;
        try (injection Hfield as <-; reflexivity).
      cbn [get bind] in Hfield.
      apply bind_Ok in Hfield as (c & Hc & Hfield).
      injection Hfield as <-. split; [reflexivity | exact Hc].
Qed.

Lemma normalize_loop_total (entries : list (pystr * json)) :
  forallb typed_entry entries = true ->
  forall fields, exists out, normalize_loop entries fields = Ok out.
Proof.
  induction entries as [| [field_name field_data] rest IH]; intros Htyped fields.
  - now exists fields.
  - cbn [forallb] in Htyped. apply andb_true_iff in Htyped as [He Hrest].
    cbn [normalize_loop].
    destruct field_data as [| | | | | | d]; cbn [isinstance_dict bind];
      try (now apply IH).
    unfold typed_entry in He. cbn [snd] in He. cbn [get bind].
    destruct (lookup (lit "confidence") d) as [[| | | f | | |] |];
      try discriminate He; cbn [py_float bind]; now apply IH.
Qed.

End OrchestrationProperties.

(** X13.  Document-type resolution round-trips on the closed set: a hint
    equal to the value of a document type gives that type whatever the
    extraction result says, and so does that value as the extracted
    [document_type] when there is no hint.  Without a hint (or with an empty
    one) a string [document_type] never raises, and a missing one gives
    [unknown]. *)
Theorem document_type_resolution {rt : Runtime} :
  (forall d extraction_result,
     resolve_document_type (Some (DocumentType_value d)) extraction_result = Ok d)
  /\ (forall d rest,
        resolve_document_type None
          (JDict ((lit "document_type", JStr (DocumentType_value d)) :: rest))
        = Ok d)
  /\ (forall extraction_result s,
        get extraction_result (lit "document_type") (JStr (lit "unknown"))
        = Ok (JStr s) ->
        exists d, resolve_document_type None extraction_result = Ok d)
  /\ (forall d,
        lookup (lit "document_type") d = None ->
        resolve_document_type None (JDict d) = Ok UNKNOWN)
  /\ (forall extraction_result,
        resolve_document_type (Some []) extraction_result
        = resolve_document_type None extraction_result).
Proof.
  split; [| split; [| split; [| split]]].
  - intros d er. destruct d; reflexivity.
  - intros d rest. unfold resolve_document_type. cbn [get].
    rewrite lookup_here. cbn [bind lower_of].
    now rewrite lower_value, DocumentType_round_trip.
  - intros er s H. unfold resolve_document_type. rewrite H. cbn [bind lower_of].
    destruct (DocumentType_of_cases (lower s)) as [[d ->] | ->]; eauto.
  - intros d H. unfold resolve_document_type. cbn [get]. now rewrite H.
  - reflexivity.
Qed.

Lemma document_type_resolution_witness :
  let extraction_result := JDict [(lit "document_type", JStr (lit "Ration Card"))] in
  get extraction_result (lit "document_type") (JStr (lit "unknown"))
  = Ok (JStr (lit "Ration Card"))
  /\ exists d,
       resolve_document_type (rt := Reference.runtime) None extraction_result = Ok d.
Proof.
  intros extraction_result. split; [reflexivity |].
  exact (proj1 (proj2 (proj2 (@document_type_resolution Reference.runtime)))
           extraction_result (lit "Ration Card") eq_refl).
Defined.

(** X14.  Normalisation keeps the keys of the raw [fields] mapping and
    their order: when it returns, the result pairs each raw entry, in order,
    with a field of the same key, which for a bare scalar is the text of the
    scalar with confidence exactly 0.5 and for a record is the text of its
    value and its confidence as a float (0.5 when missing).  It returns
    whenever every record carries a float confidence or none. *)
Theorem normalisation_keeps_fields {rt : Runtime} (entries : list (pystr * json)) :
  NoDup (map fst entries) ->
  (forall out,
     normalize_fields (JDict entries) = Ok out -> Forall2 normalizes entries out)
  /\ (forallb typed_entry entries = true ->
      exists out, normalize_fields (JDict entries) = Ok out).
Proof.
  intros Hnd. unfold normalize_fields. cbn [items bind]. split.
  - intros out H.
    apply normalize_loop_spec in H as (added & -> & Hall); [exact Hall | exact Hnd].
  - intros Htyped. now apply normalize_loop_total.
Qed.

Lemma normalisation_keeps_fields_witness :
  let entries := [(lit "name", JStr (lit "Asha Rao")); (lit "dob", record "15-08-1990" 0.9)] in
  NoDup (map fst entries)
  /\ forallb typed_entry entries = true
  /\ exists out, normalize_fields (rt := Reference.runtime) (JDict entries) = Ok out.
Proof.
  intros entries.
  assert (Hnd : NoDup (map fst entries)).
  { repeat constructor; cbn; intuition discriminate. }
  split; [exact Hnd |]. split; [reflexivity |].
  exact (proj2 (@normalisation_keeps_fields Reference.runtime entries Hnd) eq_refl).
Defined.

(** ** The pipeline as a whole *)

Section PipelineProperties.

Context {rt : Runtime}.

Lemma lookup_In (k : pystr) (d : list (pystr * json)) (v : json) :
  lookup k d = Some v -> In (k, v) d.
Proof.
  induction d as [| [k' v'] d IH]; [discriminate |].
  cbn [lookup]. destruct (str_eqb k k') eqn:E.
  - apply str_eqb_eq in E. subst k'. intros H. injection H as ->. now left.
  - intros H. right. now apply IH.
Qed.

Lemma record_entry_typed (entries : list (pystr * json)) :
  forallb record_entry entries = true -> forallb typed_entry entries = true.
Proof.
  rewrite !forallb_forall. intros H e He. specialize (H e He).
  unfold record_entry in H. unfold typed_entry.
  destruct (snd e); try discriminate H.
  now apply andb_true_iff in H as [_ H].
Qed.

(** In a mapping of records every field value reads as a string. *)
Lemma field_value_record (entries : list (pystr * json)) (k : pystr) :
  forallb record_entry entries = true ->
  exists s, field_value (JDict entries) k = Ok (JStr s).
Proof.
  intros H. unfold field_value. cbn [get bind].
  destruct (lookup k entries) as [v |] eqn:Hk; [| now exists []].
  apply lookup_In in Hk. rewrite forallb_forall in H. specialize (H _ Hk).
  unfold record_entry in H. cbn [snd] in H.
  destruct v as [| | | | | | d]; try discriminate H.
  apply andb_true_iff in H as [H _]. cbn [get].
  destruct (lookup (lit "value") d) as [[| | | | s | |] |];
    try discriminate H; eauto.
Qed.

Lemma validate_fields_total (now : datetime) (document_type : DocumentType)
    (entries : list (pystr * json)) :
  forallb record_entry entries = true ->
  exists errors, validate_fields now document_type (JDict entries) = Ok errors.
Proof.
  intros H.
  destruct (@field_value_record entries (lit "name") H) as [name Hname].
  destruct (@field_value_record entries (lit "dob") H) as [dob Hdob].
  destruct (@field_value_record entries (lit "id_number") H) as [id Hid].
  assert (Hn : exists e, validate_name (JDict entries) = Ok e).
  { unfold validate_name. rewrite Hname. cbn [bind].
    destruct name; cbn [truthy negb strip_of re_search_class bind]; eauto. }
  assert (Hd : exists e, validate_dob now (JDict entries) = Ok e).
  { unfold validate_dob. rewrite Hdob. cbn [bind].
    destruct dob as [| c dob]; cbn [truthy negb]; [eauto |].
    unfold date_formats. rewrite parse_date_first. cbn [bind]. eauto. }
  assert (Hi : (exists e, validate_aadhaar (JDict entries) = Ok e)
               /\ (exists e, validate_pan (JDict entries) = Ok e)
               /\ (exists e, validate_voter_id (JDict entries) = Ok e)).
  { unfold validate_aadhaar, validate_pan, validate_voter_id.
    rewrite !Hid. cbn [bind re_sub_spaces upper_of]. repeat split; eauto. }
  destruct Hn as [en Hn], Hd as [ed Hd], Hi as ([ea Ha] & [ep Hp] & [ev Hv]).
  unfold validate_fields. rewrite Hn. cbn [bind]. rewrite Hd. cbn [bind].
  destruct document_type;
    rewrite ?Ha, ?Hp, ?Hv; cbn [bind]; eauto.
Qed.

Lemma check_low_confidence_total (d : list (pystr * json))
    (entries : list (pystr * json)) :
  float_or_missing (lookup (lit "confidence") d) = true ->
  get (JDict d) (lit "fields") (JDict []) = Ok (JDict entries) ->
  forallb typed_entry entries = true ->
  exists out, check_low_confidence (JDict d) = Ok out.
Proof.
  intros Hc Hfields Htyped. unfold check_low_confidence.
  rewrite Hfields. cbn [get].
  destruct (lookup (lit "confidence") d) as [[| | | f | | |] |];
    try discriminate Hc; cbn [bind lt_float fmt_2f items].
  - destruct (f <? 0.5)%float; cbn [bind];
      rewrite low_field_loop_total by exact Htyped; eauto.
  - rewrite float_of_int_zero.
    destruct (int_ltb_float 0 0.5); cbn [bind];
      rewrite low_field_loop_total by exact Htyped; eauto.
Qed.

Lemma check_field_consistency_total (extraction_result : json) (name : pystr) :
  raw_name extraction_result = Ok (JStr name) ->
  exists out, check_field_consistency extraction_result = Ok out.
Proof.
  intros H. unfold raw_name, field_value in H.
  apply bind_Ok in H as (fields & Hfields & H).
  apply bind_Ok in H as (entry & Hentry & H).
  unfold check_field_consistency.
  rewrite Hfields. cbn [bind]. rewrite Hentry. cbn [bind]. rewrite H.
  cbn [bind iter]. rewrite any_devanagari. cbn [bind]. rewrite any_latin.
  cbn [bind].
  destruct (existsb (in_range 2304 2431) name && existsb latin_letter name);
    cbn [len bind]; [| eauto].
  destruct (20 <? List.length name)%nat; eauto.
Qed.

Lemma check_llm_total (d fraud_data : list (pystr * json)) :
  get (JDict d) (lit "fraud_analysis") (JDict []) = Ok (JDict fraud_data) ->
  float_or_missing (lookup (lit "validity_score") fraud_data) = true ->
  list_or_missing (lookup (lit "suspicious_elements") fraud_data) = true ->
  list_or_missing (lookup (lit "alterations_detected") fraud_data) = true ->
  exists out, check_llm_fraud_analysis (JDict d) = Ok out.
Proof.
  intros Hget Hscore Hsusp Halt. unfold check_llm_fraud_analysis.
  rewrite Hget. cbn [bind].
  destruct fraud_data as [| entry rest]; [cbn; eauto |].
  cbn [truthy negb]. set (fd := entry :: rest) in *. cbn [get bind].
  destruct (lookup (lit "validity_score") fd) as [[| | | f | | |] |];
    try discriminate Hscore; cbn [py_float bind];
    destruct (lookup (lit "suspicious_elements") fd) as [[| | | | | l |] |];
    try discriminate Hsusp;
    destruct (lookup (lit "alterations_detected") fd) as [[| | | | | l' |] |];
    try discriminate Halt;
    match goal with |- context [(?x <? 0.6)%float] => destruct (x <? 0.6)%float end;
    cbn [bind iter]; eauto.
Qed.

Lemma policy_returns_on_float (validation_errors : list pystr)
    (fraud_signals : list FraudSignal) (c : float) (is_readable : json) :
  exists out,
    determine_recommendation validation_errors fraud_signals (JFloat c) is_readable
    = Ok out.
Proof.
  unfold determine_recommendation.
  destruct (negb (truthy is_readable)); [eauto |].
  destruct (filter _ fraud_signals); [| eauto].
  destruct (3 <=? List.length validation_errors)%nat; [eauto |].
  rewrite lt_float_JFloat. cbn [bind].
  destruct (c <? 0.6)%float.
  { rewrite fmt_2f_JFloat. cbn [bind]. eauto. }
  destruct (nonempty validation_errors || nonempty fraud_signals);
    rewrite ge_float_JFloat; cbn [bind];
    match goal with |- context [(?k <=? c)%float] => destruct (k <=? c)%float end;
    eauto.
Qed.

Lemma validate_fields_bound (now : datetime) (document_type : DocumentType)
    (fields : json) (errors : list pystr) :
  validate_fields now document_type fields = Ok errors ->
  (List.length errors <= 4)%nat.
Proof.
  unfold validate_fields. intros H.
  apply bind_Ok in H as (names & Hnames & H).
  apply bind_Ok in H as (dobs & Hdobs & H).
  apply validate_name_bound in Hnames. apply validate_dob_bound in Hdobs.
  cbn [app] in H.
  destruct document_type;
    try (injection H as <-; rewrite length_app; lia);
    apply bind_Ok in H as (ids & Hids & H); injection H as <-;
    rewrite !length_app;
    (assert (List.length ids <= 1)%nat by (apply (id_rules_bound fields); tauto));
    lia.
Qed.

End PipelineProperties.

Section VerdictProperties.

Context {rt : Runtime}.

Lemma resolve_total (document_type_hint : option pystr) (d : list (pystr * json)) :
  usable_hint document_type_hint = true ->
  string_or_missing (lookup (lit "document_type") d) = true ->
  exists document_type,
    resolve_document_type document_type_hint (JDict d) = Ok document_type.
Proof.
  intros Hhint Hd.
  assert (Hextracted : exists document_type,
            resolve_document_type None (JDict d) = Ok document_type).
  { unfold resolve_document_type. cbn [get].
    destruct (lookup (lit "document_type") d) as [[| | | | s | |] |];
      try discriminate Hd; cbn [bind lower_of].
    - destruct (DocumentType_of_cases (lower s)) as [[t ->] | ->]; eauto.
    - destruct (DocumentType_of_cases (lower (lit "unknown"))) as [[t ->] | ->];
        eauto. }
  destruct document_type_hint as [[| c hint] |]; try exact Hextracted.
  unfold usable_hint in Hhint. unfold resolve_document_type.
  destruct (DocumentType_of (lower (c :: hint))); [eauto | discriminate Hhint].
Qed.

Lemma detect_total (d : list (pystr * json)) :
  documented_shape d = true ->
  exists fraud_signals, detect_fraud_signals (JDict d) = Ok fraud_signals.
Proof.
  unfold documented_shape. intros H.
  apply andb_true_iff in H as [H Hforensic].
  apply andb_true_iff in H as [H Hissues].
  apply andb_true_iff in H as [H Hfields].
  apply andb_true_iff in H as [_ Hconfidence].
  assert (exists entries,
            get (JDict d) (lit "fields") (JDict []) = Ok (JDict entries)
            /\ forallb record_entry entries = true) as (entries & Hget & Hrecords).
  { cbn [get]. destruct (lookup (lit "fields") d) as [[| | | | | | entries] |];
      try discriminate Hfields; [exists entries | exists []]; now split. }
  destruct (@check_low_confidence_total _ d entries Hconfidence Hget
              (record_entry_typed entries Hrecords)) as [a Ha].
  destruct (@field_value_record entries (lit "name") Hrecords) as [name Hname].
  destruct (@check_field_consistency_total _ (JDict d) name) as [b Hb].
  { unfold raw_name. rewrite Hget. exact Hname. }
  assert (exists c, check_issues_from_vlm (JDict d) = Ok c) as [c Hc].
  { unfold check_issues_from_vlm. cbn [get].
    destruct (lookup (lit "issues") d) as [[| | | | | l |] |];
      try discriminate Hissues; cbn [bind iter]; eauto. }
  assert (exists f, check_llm_fraud_analysis (JDict d) = Ok f) as [f Hf].
  { destruct (lookup (lit "fraud_analysis") d) as [[| | | | | | fraud_data] |] eqn:E;
      try discriminate Hforensic.
    - apply andb_true_iff in Hforensic as [Hforensic Halt].
      apply andb_true_iff in Hforensic as [Hscore Hsusp].
      apply (@check_llm_total _ d fraud_data); try assumption.
      cbn [get]. now rewrite E.
    - apply (@check_llm_total _ d []); try reflexivity.
      cbn [get]. now rewrite E. }
  rewrite detect_fraud_signals_concat, Ha, Hb, Hc, Hf. cbn [bind]. eauto.
Qed.

End VerdictProperties.

(** X15.  On an extraction result of the documented shape (a string
    document type, a float confidence, fields that are records of a string
    value and a float confidence, a list of issues, a forensic record with a
    float score and two lists; any of them missing) and with a hint that is
    absent or lower-cases to a known type, the pipeline does not raise: it
    returns a verification result. *)
Theorem documented_shape_gets_a_verdict {rt : Runtime} (now : datetime)
    (request_id : pystr) (document_type_hint : option pystr)
    (d : list (pystr * json)) :
  documented_shape d = true ->
  usable_hint document_type_hint = true ->
  exists result,
    run_verification_pipeline now request_id document_type_hint (JDict d) = Ok result.
Proof.
  intros Hshape Hhint.
  destruct (detect_total d Hshape) as [signals Hsignals].
  unfold documented_shape in Hshape.
  apply andb_true_iff in Hshape as [H _].
  apply andb_true_iff in H as [H _].
  apply andb_true_iff in H as [H Hfields].
  apply andb_true_iff in H as [Htype Hconfidence].
  destruct (resolve_total document_type_hint d Hhint Htype) as [doc_type Hdoc].
  assert (exists c, pipeline_confidence (JDict d) = Ok (JFloat c)) as [c Hc].
  { unfold pipeline_confidence. cbn [get].
    destruct (lookup (lit "confidence") d) as [[| | | f | | |] |];
      try discriminate Hconfidence; eauto. }
  assert (exists entries,
            get (JDict d) (lit "fields") (JDict []) = Ok (JDict entries)
            /\ forallb record_entry entries = true) as (entries & Hget & Hrecords).
  { cbn [get]. destruct (lookup (lit "fields") d) as [[| | | | | | entries] |];
      try discriminate Hfields; [exists entries | exists []]; now split. }
  destruct (normalize_loop_total entries (record_entry_typed entries Hrecords) [])
    as [fields Hnormal].
  destruct (validate_fields_total now doc_type entries Hrecords) as [errors Herrors].
  unfold run_verification_pipeline.
  rewrite Hdoc. cbn [bind]. rewrite Hc. cbn [bind].
  change (get (JDict d) (lit "is_readable") (JBool true))
    with (Ok (match lookup (lit "is_readable") d with
              | Some x => x
              | None => JBool true
              end)).
  cbn [bind]. rewrite Hget. cbn [bind].
  unfold normalize_fields. cbn [items bind]. rewrite Hnormal. cbn [bind].
  rewrite Herrors. cbn [bind]. rewrite Hsignals. cbn [bind].
  destruct (policy_returns_on_float errors signals c
              (match lookup (lit "is_readable") d with
               | Some x => x
               | None => JBool true
               end)) as [decision Hdecision].
  rewrite Hdecision. cbn [bind as_confidence_score py_float]. eauto.
Qed.

Lemma documented_shape_gets_a_verdict_witness :
  let d :=
    [(lit "document_type", JStr (lit "passport"));
     (lit "confidence", JFloat 0.7);
     (lit "fields", JDict [(lit "name", record "Asha Rao" 0.9)]);
     (lit "issues", JList [JStr (lit "glare")]);
     (lit "fraud_analysis", JDict [(lit "validity_score", JFloat 0.9)])] in
  documented_shape d = true
  /\ usable_hint (rt := Reference.runtime) (Some (lit "Passport")) = true
  /\ exists result,
       run_verification_pipeline (rt := Reference.runtime) example_now (lit "r1")
         (Some (lit "Passport")) (JDict d) = Ok result.
Proof.
  intros d. split; [reflexivity |]. split; [vm_compute; reflexivity |].
  apply (@documented_shape_gets_a_verdict Reference.runtime example_now (lit "r1")
           (Some (lit "Passport")) d); vm_compute; reflexivity.
Defined.

(** X16.  A verification result the pipeline returns carries the request
    id it was given and the resolved document type; its errors and signals
    are those of validation and of the fraud aggregate on the same input,
    with at most four errors; its recommendation is APPROVE or REVIEW, never
    REJECT, with a non-empty explanation; and it is REVIEW whenever the
    readability flag of the input is falsy or one of the signals is HIGH. *)
Theorem verdict_shape {rt : Runtime} (now : datetime) (rid : pystr)
    (document_type_hint : option pystr) (extraction_result : json)
    (result : VerificationResult) :
  run_verification_pipeline now rid document_type_hint extraction_result
  = Ok result ->
  request_id result = rid
  /\ resolve_document_type document_type_hint extraction_result
     = Ok (document_type result)
  /\ (exists raw_fields,
        get extraction_result (lit "fields") (JDict []) = Ok raw_fields
        /\ normalize_fields raw_fields = Ok (fields result)
        /\ validate_fields now (document_type result) raw_fields
           = Ok (validation_errors result))
  /\ detect_fraud_signals extraction_result = Ok (fraud_signals result)
  /\ (List.length (validation_errors result) <= 4)%nat
  /\ (recommendation result = APPROVE \/ recommendation result = REVIEW)
  /\ explanation result <> []
  /\ (no_high (fraud_signals result) = false -> recommendation result = REVIEW)
  /\ (forall is_readable,
        get extraction_result (lit "is_readable") (JBool true) = Ok is_readable ->
        truthy is_readable = false ->
        recommendation result = REVIEW).
Proof.
  unfold run_verification_pipeline. intros H.
  apply bind_Ok in H as (doc_type & Hdoc & H).
  apply bind_Ok in H as (overall & Hoverall & H).
  apply bind_Ok in H as (flag & Hflag & H).
  apply bind_Ok in H as (raw & Hraw & H).
  apply bind_Ok in H as (normal & Hnormal & H).
  apply bind_Ok in H as (errors & Herrors & H).
  apply bind_Ok in H as (signals & Hsignals & H).
  apply bind_Ok in H as ([r text] & Hdecision & H).
  apply bind_Ok in H as (score & Hscore & H).
  injection H as <-. cbn [request_id document_type fields validation_errors
                          fraud_signals recommendation explanation fst snd].
  destruct (policy_result_shape _ _ _ _ Hdecision) as [Hr Htext].
  split; [reflexivity |]. split; [exact Hdoc |].
  split; [exists raw; now repeat split |].
  split; [exact Hsignals |].
  split; [exact (validate_fields_bound _ _ _ Herrors) |].
  split; [exact Hr |]. split; [exact Htext |]. split.
  - intros Hhigh.
    destruct (high_signal_review errors signals overall flag Hhigh) as [t Ht].
    rewrite Ht in Hdecision. now injection Hdecision as <- _.
  - intros is_readable Hget Hfalsy.
    rewrite Hflag in Hget. injection Hget as <-.
    unfold determine_recommendation in Hdecision.
    rewrite Hfalsy in Hdecision. now injection Hdecision as <- _.
Qed.

Lemma verdict_shape_witness :
  let er :=
    JDict [(lit "document_type", JStr (lit "pan"));
           (lit "confidence", JFloat 0.9);
           (lit "is_readable", JBool false);
           (lit "fields", JDict [(lit "name", record "Asha Rao" 0.9);
                                 (lit "id_number", record "ABCDE1234F" 0.9)])] in
  exists result,
    run_verification_pipeline (rt := Reference.runtime) example_now (lit "r7")
      None er = Ok result
    /\ request_id result = lit "r7"
    /\ document_type result = PAN
    /\ validation_errors result = []
    /\ recommendation result = REVIEW.
Proof.
  intros er.
  destruct (run_verification_pipeline (rt := Reference.runtime) example_now
              (lit "r7") None er) as [result | e] eqn:Hrun;
    [| vm_compute in Hrun; discriminate Hrun].
  exists result. split; [reflexivity |].
  destruct (@verdict_shape Reference.runtime example_now (lit "r7") None er
              result Hrun)
    as (Hid & Htype & _ & _ & _ & _ & _ & _ & Hflag).
  split; [exact Hid |].
  split; [vm_compute in Htype; injection Htype as Htype; symmetry; exact Htype |].
  split; [vm_compute in Hrun; injection Hrun as Hrun; rewrite <- Hrun; reflexivity |].
  apply (Hflag (JBool false)); reflexivity.
Defined.

Section ExtractorProperties.

Context {rt : Runtime}.

Lemma prefixb_app (p s : pystr) : prefixb p (p ++ s) = true.
Proof.
  induction p as [| c p IH]; [reflexivity |].
  cbn [prefixb app]. now rewrite N.eqb_refl, IH.
Qed.

Lemma skipn_app_exact {A : Type} (p s : list A) : skipn (List.length p) (p ++ s) = s.
Proof. induction p as [| c p IH]; [reflexivity | exact IH]. Qed.

Lemma first_occurrence_eq (sep s : pystr) :
  first_occurrence sep s
  = if prefixb sep s then Some ([], skipn (List.length sep) s)
    else match s with
         | [] => None
         | c :: s' =>
             match first_occurrence sep s' with
             | Some (before, after) => Some (c :: before, after)
             | None => None
             end
         end.
Proof. destruct s; reflexivity. Qed.

(** The first occurrence is where no earlier position matches. *)
Lemma first_occurrence_at (sep before after : pystr) :
  (forall skipped rest, before = skipped ++ rest -> rest <> [] ->
     prefixb sep (rest ++ sep ++ after) = false) ->
  first_occurrence sep (before ++ sep ++ after) = Some (before, after).
Proof.
  induction before as [| c before IH]; intros Hearlier.
  - rewrite first_occurrence_eq. cbn [app].
    now rewrite prefixb_app, skipn_app_exact.
  - rewrite first_occurrence_eq.
    rewrite (Hearlier [] (c :: before) eq_refl) by discriminate.
    cbn [app]. rewrite IH; [reflexivity |].
    intros skipped rest -> Hrest.
    now apply (Hearlier (c :: skipped) rest).
Qed.

(** What an occurrence found is. *)
Lemma first_occurrence_spec (sep s before after : pystr) :
  first_occurrence sep s = Some (before, after) ->
  s = before ++ sep ++ after.
Proof.
  revert before. induction s as [| c s IH]; intros before.
  - rewrite first_occurrence_eq.
    destruct sep as [| x sep]; cbn [prefixb]; [| discriminate].
    now intros [= <- <-].
  - rewrite first_occurrence_eq.
    destruct (prefixb sep (c :: s)) eqn:Hp.
    + intros [= <- <-]. cbn [app].
      clear IH. revert Hp. generalize (c :: s) as l. clear.
      induction sep as [| x sep IH]; intros l Hp; [reflexivity |].
      destruct l as [| y l]; [discriminate Hp |].
      cbn [prefixb] in Hp. apply andb_true_iff in Hp as [Hxy Hp].
      apply N.eqb_eq in Hxy as ->. cbn [List.length skipn app].
      now rewrite <- IH.
    + destruct (first_occurrence sep s) as [[b a] |]; [| discriminate].
      intros [= <- <-]. cbn [app]. now rewrite <- (IH b eq_refl).
Qed.

Lemma contains_eq (s needle : pystr) :
  contains s needle
  = prefixb needle s || match s with [] => false | _ :: s' => contains s' needle end.
Proof. destruct s; reflexivity. Qed.

Lemma contains_first_occurrence (sep s : pystr) :
  contains s sep = true <-> exists before after, first_occurrence sep s = Some (before, after).
Proof.
  induction s as [| c s IH]; rewrite contains_eq, first_occurrence_eq.
  - destruct (prefixb sep []); cbn [orb]; split; eauto; try discriminate.
    now intros (b & a & H).
  - destruct (prefixb sep (c :: s)); cbn [orb]; [split; eauto |].
    rewrite IH. split.
    + intros (b & a & ->). eauto.
    + intros (b & a & H).
      destruct (first_occurrence sep s) as [[b' a'] |]; [eauto | discriminate H].
Qed.

Lemma contains_none (sep s : pystr) :
  contains s sep = false -> first_occurrence sep s = None.
Proof.
  intros H. destruct (first_occurrence sep s) as [[b a] |] eqn:E; [| reflexivity].
  assert (contains s sep = true) by (apply contains_first_occurrence; eauto).
  congruence.
Qed.

Lemma contains_suffix (skipped rest needle : pystr) :
  contains (skipped ++ rest) needle = false -> contains rest needle = false.
Proof.
  induction skipped as [| c skipped IH]; [trivial |].
  cbn [app]. rewrite contains_eq. intros H.
  apply orb_false_iff in H as [_ H]. exact (IH H).
Qed.

Lemma contains_prefixb (s needle : pystr) :
  contains s needle = false -> prefixb needle s = false.
Proof. rewrite contains_eq. intros H. now apply orb_false_iff in H as [H _]. Qed.


Lemma split_from_head (cuts : nat) (sep s : pystr) :
  (List.length s <= cuts)%nat -> sep <> [] ->
  exists pieces, split_from cuts sep s = first_piece sep s :: pieces.
Proof.
  intros Hcuts Hsep. unfold first_piece.
  destruct cuts as [| cuts]; cbn [split_from].
  - destruct s; [| cbn in Hcuts; lia].
    destruct sep; [congruence |]. cbn. eauto.
  - destruct (first_occurrence sep s) as [[b a] |]; eauto.
Qed.

Lemma split_second (sep s before after : pystr) :
  sep <> [] ->
  first_occurrence sep s = Some (before, after) ->
  nth_error (py_split sep s) 1 = Some (first_piece sep after).
Proof.
  intros Hsep H. pose proof (first_occurrence_spec _ _ H) as Hs.
  unfold py_split.
  assert (Hlen : List.length s = S (List.length before + (List.length sep - 1)
                                     + List.length after)).
  { rewrite Hs, !length_app. destruct sep; [congruence | cbn; lia]. }
  rewrite Hlen. cbn [split_from]. rewrite H.
  destruct (@split_from_head (List.length before + (List.length sep - 1)
                              + List.length after) sep after) as [pieces ->];
    [lia | exact Hsep |].
  reflexivity.
Qed.

Lemma split_first (sep s : pystr) :
  sep <> [] -> nth_error (py_split sep s) 0 = Some (first_piece sep s).
Proof.
  intros Hsep. unfold py_split.
  destruct (@split_from_head (List.length s) sep s) as [pieces ->];
    [lia | exact Hsep |]. reflexivity.
Qed.


(** [split] undoes [join]: the pieces, joined by [sep], give [s] back, and
    no piece holds an occurrence of [sep]. *)
Lemma split_join (sep s : pystr) : join sep (py_split sep s) = s.
Proof.
  unfold py_split. generalize (List.length s) as cuts. intros cuts.
  revert s. induction cuts as [| cuts IH]; intros s; cbn [split_from].
  - destruct (first_occurrence sep s) as [[b a] |]; reflexivity.
  - destruct (first_occurrence sep s) as [[b a] |] eqn:E; [| reflexivity].
    cbn [join]. specialize (IH a).
    destruct (split_from cuts sep a) as [| p ps] eqn:Es.
    + destruct cuts; cbn [split_from] in Es;
        destruct (first_occurrence sep a) as [[? ?] |]; discriminate Es.
    + rewrite IH. symmetry. exact (first_occurrence_spec _ _ E).
Qed.

Lemma prefixb_weaken (p s tail : pystr) :
  prefixb p s = true -> prefixb p (s ++ tail) = true.
Proof.
  revert s. induction p as [| x p IH]; intros s H; [reflexivity |].
  destruct s as [| y s]; [discriminate H |].
  cbn [prefixb app] in *. apply andb_true_iff in H as [-> H].
  now rewrite IH.
Qed.

Lemma before_is_clean (sep s before after : pystr) :
  sep <> [] ->
  first_occurrence sep s = Some (before, after) ->
  contains before sep = false.
Proof.
  intros Hsep. revert before. induction s as [| c s IH]; intros before.
  - rewrite first_occurrence_eq. destruct sep; [congruence | discriminate].
  - rewrite first_occurrence_eq.
    destruct (prefixb sep (c :: s)) eqn:Hp.
    + intros [= <- _]. destruct sep; [congruence | reflexivity].
    + destruct (first_occurrence sep s) as [[b a] |] eqn:E; [| discriminate].
      intros [= <- <-]. rewrite contains_eq, (IH b eq_refl), orb_false_r.
      destruct (prefixb sep (c :: b)) eqn:Hb; [| reflexivity].
      apply (prefixb_weaken _ _ (sep ++ a)) in Hb.
      rewrite (first_occurrence_spec _ _ E) in Hp. cbn [app] in Hb. congruence.
Qed.

Lemma split_pieces_clean (sep s : pystr) :
  sep <> [] ->
  Forall (fun piece => contains piece sep = false) (py_split sep s).
Proof.
  intros Hsep. unfold py_split.
  assert (H : (List.length s <= List.length s)%nat) by lia.
  revert H. generalize (List.length s) at 2 3 as cuts. intros cuts.
  revert s. induction cuts as [| cuts IH]; intros s Hlen.
  - destruct s; [| cbn in Hlen; lia].
    destruct sep; [congruence |]. repeat constructor.
  - cbn [split_from].
    destruct (first_occurrence sep s) as [[b a] |] eqn:E.
    + constructor; [exact (@before_is_clean _ _ _ _ Hsep E) |].
      apply IH. pose proof (first_occurrence_spec _ _ E) as ->.
      rewrite !length_app in Hlen. destruct sep; [congruence |].
      cbn [List.length] in Hlen. lia.
    + repeat constructor.
      destruct (contains s sep) eqn:C; [| reflexivity].
      apply contains_first_occurrence in C as (b & a & C). congruence.
Qed.

Lemma tag_literal : lit "```json" = [96; 96; 96; 106; 115; 111; 110]%N.
Proof. reflexivity. Qed.

Lemma fence_literal : lit "```" = [96; 96; 96]%N.
Proof. reflexivity. Qed.

Lemma tag_nonempty : lit "```json" <> [].
Proof. discriminate. Qed.

Lemma fence_nonempty : lit "```" <> [].
Proof. discriminate. Qed.

Lemma tag_has_fence (s : pystr) :
  prefixb (lit "```json") s = true -> prefixb (lit "```") s = true.
Proof.
  rewrite tag_literal, fence_literal.
  destruct s as [| a [| b [| c s]]]; cbn [prefixb]; try discriminate;
    rewrite ?andb_false_r; try discriminate.
  intros H. apply andb_true_iff in H as [-> H].
  apply andb_true_iff in H as [-> H].
  apply andb_true_iff in H as [-> _]. reflexivity.
Qed.

Lemma no_fence_no_tag (s : pystr) :
  contains s (lit "```") = false -> contains s (lit "```json") = false.
Proof.
  induction s as [| c s IH]; [reflexivity |].
  - rewrite !(contains_eq (c :: s)). intros H. apply orb_false_iff in H as [Hp H].
    rewrite (IH H), orb_false_r.
    destruct (prefixb (lit "```json") (c :: s)) eqn:E; [| reflexivity].
    apply tag_has_fence in E. congruence.
Qed.

(** The tag does not overlap itself: an occurrence that starts before
    another one lies wholly before it. *)
Lemma tag_no_overlap (rest after : pystr) :
  rest <> [] ->
  prefixb (lit "```json") rest = false ->
  prefixb (lit "```json") (rest ++ lit "```json" ++ after) = false.
Proof.
  rewrite tag_literal. intros Hrest H.
  destruct rest as [| c1 [| c2 [| c3 [| c4 [| c5 [| c6 [| c7 rest]]]]]]];
    [congruence | | | | | | |]; cbn [app prefixb] in *;
    repeat match goal with
           | |- context [(?a =? ?b)%N] =>
               lazymatch b with
               | N0 => fail
               | Npos _ => fail
               | _ => destruct (a =? b)%N; cbn [andb] in *
               end
           end; try reflexivity; try discriminate H.
Qed.

Lemma fence_needs_backtick (sep rest tail : pystr) :
  prefixb (lit "```") sep = true ->
  existsb backtick rest = false -> rest <> [] ->
  prefixb sep (rest ++ tail) = false.
Proof.
  rewrite fence_literal. intros Hsep Hrest Hne.
  destruct rest as [| c rest]; [congruence |].
  destruct sep as [| x sep]; [discriminate Hsep |].
  cbn [prefixb] in Hsep. apply andb_true_iff in Hsep as [Hx _].
  apply N.eqb_eq in Hx as <-.
  cbn [existsb] in Hrest. apply orb_false_iff in Hrest as [Hc _].
  unfold backtick in Hc. cbn [app prefixb].
  rewrite N.eqb_sym, Hc. reflexivity.
Qed.

Lemma existsb_suffix {A : Type} (p : A -> bool) (skipped rest : list A) :
  existsb p (skipped ++ rest) = false -> existsb p rest = false.
Proof.
  rewrite existsb_app. intros H. now apply orb_false_iff in H as [_ H].
Qed.

(** A text without a backtick neither holds a fence nor starts one. *)
Lemma plain_text_then (sep body tail : pystr) :
  prefixb (lit "```") sep = true ->
  existsb backtick body = false ->
  contains tail sep = false ->
  contains (body ++ tail) sep = false.
Proof.
  intros Hsep Hbody Htail. induction body as [| c body IH]; [exact Htail |].
  rewrite contains_eq.
  rewrite (@fence_needs_backtick sep (c :: body) tail Hsep Hbody) by discriminate.
  cbn [app orb]. apply IH. cbn [existsb] in Hbody. now apply orb_false_iff in Hbody as [_ H].
Qed.

Lemma plain_text_until (sep body tail : pystr) :
  prefixb (lit "```") sep = true ->
  existsb backtick body = false ->
  first_occurrence sep (body ++ sep ++ tail) = Some (body, tail).
Proof.
  intros Hsep Hbody. apply first_occurrence_at.
  intros skipped rest -> Hrest.
  apply fence_needs_backtick; [exact Hsep | | exact Hrest].
  exact (existsb_suffix _ _ _ Hbody).
Qed.

Lemma first_piece_plain (sep body : pystr) :
  prefixb (lit "```") sep = true ->
  existsb backtick body = false ->
  first_piece sep body = body.
Proof.
  intros Hsep Hbody. unfold first_piece.
  rewrite contains_none; [reflexivity |].
  rewrite <- (app_nil_r body). apply plain_text_then; trivial.
  destruct sep; [discriminate Hsep | reflexivity].
Qed.

Lemma tag_found (pre after : pystr) :
  contains pre (lit "```json") = false ->
  first_occurrence (lit "```json") (pre ++ lit "```json" ++ after)
  = Some (pre, after).
Proof.
  intros Hpre. apply first_occurrence_at. intros skipped rest -> Hrest.
  apply tag_no_overlap; [exact Hrest |].
  apply contains_prefixb. exact (contains_suffix _ _ _ Hpre).
Qed.

End ExtractorProperties.

(** X17.  The fence handling of the extractor never fails: whatever the
    model answered, an index into the pieces of the split is in range and a
    text is handed to the JSON parser. *)
Theorem json_str_total {rt : Runtime} (text_response : pystr) :
  exists text, json_str text_response = Some text.
Proof.
  unfold json_str.
  destruct (contains text_response (lit "```json")) eqn:Htag.
  - apply contains_first_occurrence in Htag as (before & after & H).
    rewrite (@split_second _ _ _ _ tag_nonempty H).
    rewrite split_first by discriminate. eauto.
  - destruct (contains text_response (lit "```")) eqn:Hfence; [| eauto].
    apply contains_first_occurrence in Hfence as (before & after & H).
    rewrite (@split_second _ _ _ _ fence_nonempty H).
    rewrite split_first by discriminate. eauto.
Qed.

(** X18.  When the answer holds a block tagged [json] whose body has no
    backtick, no such tag before it and none after its closing fence, the
    text handed to the parser is the stripped body of that block, whatever
    surrounds it, untagged blocks before it included; the same holds when
    the block is never closed. *)
Theorem tagged_block_is_read {rt : Runtime} (pre body post : pystr) :
  contains pre (lit "```json") = false ->
  existsb backtick body = false ->
  contains (lit "```" ++ post) (lit "```json") = false ->
  json_str (pre ++ lit "```json" ++ body ++ lit "```" ++ post)
  = Some (strip body)
  /\ json_str (pre ++ lit "```json" ++ body) = Some (strip body).
Proof.
  intros Hpre Hbody Hpost. unfold json_str. split.
  - pose proof (@tag_found pre (body ++ lit "```" ++ post) Hpre) as Hfound.
    replace (contains _ (lit "```json")) with true
      by (symmetry; apply contains_first_occurrence; eauto).
    rewrite (@split_second _ _ _ _ tag_nonempty Hfound).
    rewrite split_first by discriminate.
    unfold first_piece at 2.
    rewrite (contains_none _ _
               (@plain_text_then (lit "```json") body _ eq_refl Hbody Hpost)).
    unfold first_piece.
    now rewrite (@plain_text_until (lit "```") body post eq_refl Hbody).
  - pose proof (@tag_found pre body Hpre) as Hfound.
    replace (contains _ (lit "```json")) with true
      by (symmetry; apply contains_first_occurrence; eauto).
    rewrite (@split_second _ _ _ _ tag_nonempty Hfound).
    rewrite split_first by discriminate.
    rewrite (@first_piece_plain (lit "```json") body eq_refl Hbody).
    now rewrite (@first_piece_plain (lit "```") body eq_refl Hbody).
Qed.

Lemma tagged_block_is_read_witness :
  let pre := lit "Here is the result: " in
  let body := [10; 123; 34; 105; 115; 95; 114; 101; 97; 100; 97; 98; 108; 101;
               34; 58; 32; 116; 114; 117; 101; 125; 10]%N in
  let post := lit " Let me know." in
  contains pre (lit "```json") = false
  /\ existsb backtick body = false
  /\ contains (lit "```" ++ post) (lit "```json") = false
  /\ json_str (rt := Reference.runtime)
       (pre ++ lit "```json" ++ body ++ lit "```" ++ post)
     = Some [123; 34; 105; 115; 95; 114; 101; 97; 100; 97; 98; 108; 101;
             34; 58; 32; 116; 114; 117; 101; 125]%N.
Proof.
  intros pre body post.
  split; [reflexivity |]. split; [reflexivity |]. split; [reflexivity |].
  apply (proj1 (@tagged_block_is_read Reference.runtime pre body post
                  eq_refl eq_refl eq_refl)).
Defined.

(** X19.  Without a [json] tag anywhere in the answer, the text handed to
    the parser is the stripped body of the first fenced block, when the text
    before it and the body have no backtick; and an answer without any fence
    is handed over whole, stripped. *)
Theorem untagged_block_is_read {rt : Runtime} (pre body post plain : pystr) :
  existsb backtick pre = false ->
  existsb backtick body = false ->
  contains (pre ++ lit "```" ++ body ++ lit "```" ++ post) (lit "```json") = false ->
  contains plain (lit "```") = false ->
  json_str (pre ++ lit "```" ++ body ++ lit "```" ++ post) = Some (strip body)
  /\ json_str plain = Some (strip plain).
Proof.
  intros Hpre Hbody Htag Hnone. unfold json_str. split.
  - rewrite Htag.
    pose proof (@plain_text_until (lit "```") pre (body ++ lit "```" ++ post)
                  eq_refl Hpre) as Hfound.
    replace (contains _ (lit "```")) with true
      by (symmetry; apply contains_first_occurrence; eauto).
    rewrite (@split_second _ _ _ _ fence_nonempty Hfound).
    rewrite split_first by discriminate.
    unfold first_piece at 2.
    rewrite (@plain_text_until (lit "```") body post eq_refl Hbody).
    now rewrite (@first_piece_plain (lit "```") body eq_refl Hbody).
  - now rewrite (no_fence_no_tag _ Hnone), Hnone.
Qed.

Lemma untagged_block_is_read_witness :
  let pre := lit "Result: " in
  let body := lit " {} " in
  let post := lit " done" in
  let plain := lit "  {}  " in
  existsb backtick pre = false
  /\ existsb backtick body = false
  /\ contains (pre ++ lit "```" ++ body ++ lit "```" ++ post) (lit "```json") = false
  /\ contains plain (lit "```") = false
  /\ json_str (rt := Reference.runtime)
       (pre ++ lit "```" ++ body ++ lit "```" ++ post) = Some (lit "{}")
  /\ json_str (rt := Reference.runtime) plain = Some (lit "{}").
Proof.
  intros pre body post plain.
  do 4 (split; [reflexivity |]).
  apply (@untagged_block_is_read Reference.runtime pre body post plain
           eq_refl eq_refl eq_refl eq_refl).
Defined.

(** A block with another language tag goes through the untagged branch, tag
    included; and a [json] tag that follows the closing fence after one more
    backtick leaves that backtick in the text. *)
Example other_tags_are_kept :
  json_str (rt := Reference.runtime) (lit "```python {} ```") = Some (lit "python {}")
  /\ json_str (rt := Reference.runtime) (lit "```json{}````json")
     = Some (lit "{}`").
Proof. split; reflexivity. Qed.

Section McpProperties.

Context {rt : Runtime}.

Lemma id_fields_name (id_number : json) :
  validate_name (id_fields id_number)
  = Ok [lit "Name field is missing or too short"].
Proof. reflexivity. Qed.

Lemma id_fields_dob (now : datetime) (id_number : json) :
  validate_dob now (id_fields id_number) = Ok [].
Proof. reflexivity. Qed.

Lemma mapping_get_cases (id_type : pystr) (document_type : DocumentType) :
  mapping_get id_type type_mapping = Some document_type ->
  document_type = AADHAAR \/ document_type = PAN \/ document_type = VOTER_ID.
Proof.
  unfold type_mapping. cbn [mapping_get].
  repeat match goal with
         | |- context [if ?b then _ else _] => destruct b
         end; intros [= <-]; auto.
Qed.

Lemma id_fields_errors (now : datetime) (document_type : DocumentType)
    (id_number : json) :
  document_type = AADHAAR \/ document_type = PAN \/ document_type = VOTER_ID ->
  validate_fields now document_type (id_fields id_number)
  = (id_errors <- id_rule document_type (id_fields id_number) ;;
     Ok (lit "Name field is missing or too short" :: id_errors)).
Proof.
  intros [-> | [-> | ->]]; unfold validate_fields;
    rewrite id_fields_name; cbn [bind]; rewrite id_fields_dob; reflexivity.
Qed.

End McpProperties.

(** X20.  The identifier tool of the MCP server never answers that a number
    is valid: every payload it builds has [valid] false, because the fields
    it validates hold no name and the name rule always reports that. *)
Theorem id_tool_never_valid {rt : Runtime} (now : datetime) (arguments : json) :
  reply_valid (handle_validate_id_number now arguments) = false.
Proof.
  unfold handle_validate_id_number.
  destruct (get arguments (lit "id_type") (JStr [])) as [id_type_arg | e];
    [| reflexivity]. cbn [bind].
  destruct (lower_of id_type_arg) as [id_type | e]; [| reflexivity]. cbn [bind].
  destruct (get arguments (lit "id_number") (JStr [])) as [id_number | e];
    [| reflexivity]. cbn [bind].
  destruct (mapping_get id_type type_mapping) as [document_type |] eqn:Hmap;
    [| reflexivity].
  change (JDict _) with (id_fields id_number).
  rewrite (id_fields_errors now id_number (mapping_get_cases _ Hmap)).
  destruct (id_rule document_type (id_fields id_number)); reflexivity.
Qed.

(** X21.  For a supported type and a string identifier the tool answers
    with [valid] false, the lower-cased type, the identifier as given, and
    the errors "Name field is missing or too short" followed by those of the
    identifier rule of the type; a well-formed identifier is so reported
    invalid with the name error alone, at any time of the clock. *)
Theorem id_tool_reports_name_error {rt : Runtime} (now : datetime)
    (arguments : list (pystr * json)) (id_type id_number : pystr)
    (document_type : DocumentType) :
  lookup (lit "id_type") arguments = Some (JStr id_type) ->
  lookup (lit "id_number") arguments = Some (JStr id_number) ->
  mapping_get (lower id_type) type_mapping = Some document_type ->
  exists id_errors,
    id_rule document_type (id_fields (JStr id_number)) = Ok id_errors
    /\ handle_validate_id_number now (JDict arguments)
       = Validated false (lower id_type) (JStr id_number)
           (lit "Name field is missing or too short" :: id_errors).
Proof.
  intros Htype Hnumber Hmap.
  assert (Hrule : exists id_errors,
            id_rule document_type (id_fields (JStr id_number)) = Ok id_errors).
  { destruct (mapping_get_cases _ Hmap) as [-> | [-> | ->]];
      cbn [id_rule]; eexists; reflexivity. }
  destruct Hrule as [id_errors Hrule]. exists id_errors. split; [exact Hrule |].
  unfold handle_validate_id_number. cbn [get]. rewrite Htype, Hnumber.
  cbn [bind lower_of]. rewrite Hmap.
  change (JDict [(lit "id_number", _)]) with (id_fields (JStr id_number)).
  rewrite (id_fields_errors now (JStr id_number) (mapping_get_cases _ Hmap)).
  rewrite Hrule. reflexivity.
Qed.

Lemma id_tool_reports_name_error_witness :
  let arguments :=
    [(lit "id_type", JStr (lit "Aadhaar"));
     (lit "id_number", JStr (lit "1234 5678 9012"))] in
  lookup (lit "id_type") arguments = Some (JStr (lit "Aadhaar"))
  /\ lookup (lit "id_number") arguments = Some (JStr (lit "1234 5678 9012"))
  /\ mapping_get (lower (rt := Reference.runtime) (lit "Aadhaar")) type_mapping
     = Some AADHAAR
  /\ exists id_errors,
       id_rule (rt := Reference.runtime) AADHAAR
         (id_fields (JStr (lit "1234 5678 9012"))) = Ok id_errors
       /\ handle_validate_id_number (rt := Reference.runtime) example_now
            (JDict arguments)
          = Validated false (lower (rt := Reference.runtime) (lit "Aadhaar"))
              (JStr (lit "1234 5678 9012"))
              (lit "Name field is missing or too short" :: id_errors).
Proof.
  intros arguments.
  do 3 (split; [reflexivity |]).
  apply (@id_tool_reports_name_error Reference.runtime example_now arguments
           (lit "Aadhaar") (lit "1234 5678 9012") AADHAAR);
    reflexivity.
Defined.

(** A twelve-digit Aadhaar number, spaced or not, is answered with the name
    error alone. *)
Example well_formed_aadhaar_is_invalid :
  handle_validate_id_number (rt := Reference.runtime) example_now
    (JDict [(lit "id_type", JStr (lit "aadhaar"));
            (lit "id_number", JStr (lit "1234 5678 9012"))])
  = Validated false (lit "aadhaar") (JStr (lit "1234 5678 9012"))
      [lit "Name field is missing or too short"].
Proof. reflexivity. Qed.

Lemma pipeline_never_rejects {rt : Runtime} (now : datetime) (rid : pystr)
    (document_type_hint : option pystr) (extraction_result : json)
    (result : VerificationResult) :
  run_verification_pipeline now rid document_type_hint extraction_result
  = Ok result ->
  recommendation result = APPROVE \/ recommendation result = REVIEW.
Proof.
  unfold run_verification_pipeline. intros H.
  do 7 (apply bind_Ok in H as (? & _ & H)).
  apply bind_Ok in H as ([r text] & Hdecision & H).
  apply bind_Ok in H as (score & _ & H).
  injection H as <-. cbn [recommendation fst].
  exact (proj1 (policy_result_shape _ _ _ _ Hdecision)).
Qed.

(** X22.  A REJECT decision is always logged as an override, with the
    officer's reason: the row of a completed request stores the
    recommendation of the pipeline, which is never REJECT. *)
Theorem rejection_is_an_override {rt : Runtime} (now : datetime) (rid : pystr)
    (document_type_hint : option pystr) (extraction_result : json)
    (result : VerificationResult) (data raw_response : list (pystr * json))
    (decision : DecisionRequest.t) (officer_id : json) :
  run_verification_pipeline now rid document_type_hint extraction_result
  = Ok result ->
  lookup (lit "raw_response") data = Some (JDict raw_response) ->
  lookup (lit "recommendation") raw_response
  = Some (JStr (Recommendation_value (recommendation result))) ->
  DecisionRequest.final_decision decision = Decision_REJECT ->
  let outcome := submit_decision (JDict data) decision officer_id in
  logged "officer_decision" outcome = Some (JStr (lit "REJECT"))
  /\ logged "was_overridden" outcome = Some (JBool true)
  /\ logged "override_reason" outcome
     = Some (optional_str (DecisionRequest.override_reason decision)).
Proof.
  intros Hrun Hrow Hstored Hfinal outcome. subst outcome.
  unfold submit_decision.
  destruct data as [| entry data]; [discriminate Hrow |].
  cbn [truthy negb get]. rewrite Hrow. cbn [bind get]. rewrite Hstored, Hfinal.
  cbn [bind Decision_value].
  destruct (pipeline_never_rejects _ _ _ _ Hrun) as [-> | ->];
    repeat split; reflexivity.
Qed.

Lemma rejection_is_an_override_witness :
  let er :=
    JDict [(lit "document_type", JStr (lit "pan"));
           (lit "confidence", JFloat 0.9)] in
  let stored := [(lit "recommendation", JStr (lit "APPROVE"))] in
  let data := [(lit "id", JStr (lit "r9")); (lit "raw_response", JDict stored)] in
  let decision :=
    DecisionRequest.mk (lit "r9") Decision_REJECT (Some (lit "forged seal")) None in
  exists result,
    run_verification_pipeline (rt := Reference.runtime) example_now (lit "r9")
      None er = Ok result
    /\ lookup (lit "recommendation") stored
       = Some (JStr (Recommendation_value (recommendation result)))
    /\ logged "was_overridden" (submit_decision (JDict data) decision (JStr (lit "o1")))
       = Some (JBool true)
    /\ logged "override_reason" (submit_decision (JDict data) decision (JStr (lit "o1")))
       = Some (JStr (lit "forged seal")).
Proof.
  intros er stored data decision.
  destruct (run_verification_pipeline (rt := Reference.runtime) example_now
              (lit "r9") None er) as [result | e] eqn:Hrun;
    [| vm_compute in Hrun; discriminate Hrun].
  exists result. split; [reflexivity |].
  assert (Hstored : lookup (lit "recommendation") stored
                    = Some (JStr (Recommendation_value (recommendation result)))).
  { vm_compute in Hrun. injection Hrun as Hrun. rewrite <- Hrun. reflexivity. }
  split; [exact Hstored |].
  destruct (@rejection_is_an_override Reference.runtime example_now (lit "r9")
              None er result data stored decision (JStr (lit "o1"))
              Hrun eq_refl Hstored eq_refl) as (_ & Hflag & Hreason).
  split; [exact Hflag | exact Hreason].
Defined.

(** X23.  A row whose stored response has no recommendation, as the one a
    failed run leaves, counts as REVIEW: a REVIEW decision is logged as not
    overridden and its reason is dropped, an APPROVE or REJECT decision is
    logged as an override with its reason. *)
Theorem missing_recommendation_is_review (data raw_response : list (pystr * json))
    (decision : DecisionRequest.t) (officer_id : json) :
  lookup (lit "raw_response") data = Some (JDict raw_response) ->
  lookup (lit "recommendation") raw_response = None ->
  let outcome := submit_decision (JDict data) decision officer_id in
  match DecisionRequest.final_decision decision with
  | Decision_REVIEW =>
      logged "was_overridden" outcome = Some (JBool false)
      /\ logged "override_reason" outcome = Some JNull
  | _ =>
      logged "was_overridden" outcome = Some (JBool true)
      /\ logged "override_reason" outcome
         = Some (optional_str (DecisionRequest.override_reason decision))
  end.
Proof.
  intros Hrow Hnone outcome. subst outcome. unfold submit_decision.
  destruct data as [| entry data]; [discriminate Hrow |].
  cbn [truthy negb get]. rewrite Hrow. cbn [bind get]. rewrite Hnone.
  cbn [bind].
  destruct (DecisionRequest.final_decision decision); split; reflexivity.
Qed.

Lemma missing_recommendation_is_review_witness :
  let failed := [(lit "error", JStr (lit "OpenRouter API error (500): down"))] in
  let data := [(lit "id", JStr (lit "r3")); (lit "status", JStr (lit "FAILED"));
               (lit "raw_response", JDict failed)] in
  let decision :=
    DecisionRequest.mk (lit "r3") Decision_REVIEW (Some (lit "retake photo")) None in
  lookup (lit "raw_response") data = Some (JDict failed)
  /\ lookup (lit "recommendation") failed = None
  /\ logged "was_overridden" (submit_decision (JDict data) decision (JStr (lit "o1")))
     = Some (JBool false)
  /\ logged "override_reason" (submit_decision (JDict data) decision (JStr (lit "o1")))
     = Some JNull.
Proof.
  intros failed data decision.
  do 2 (split; [reflexivity |]).
  exact (@missing_recommendation_is_review data failed decision (JStr (lit "o1"))
           eq_refl eq_refl).
Defined.

(** X24.  When the row has a [raw_response] that is not a dict, a null
    column for instance, the handler raises [AttributeError] before anything
    is logged; a row without the key is read as an empty response. *)
Theorem response_must_be_a_dict (data : list (pystr * json)) (stored : json)
    (decision : DecisionRequest.t) (officer_id : json) :
  lookup (lit "raw_response") data = Some stored ->
  isinstance_dict stored = false ->
  submit_decision (JDict data) decision officer_id = Unhandled AttributeError.
Proof.
  intros Hrow Hkind. unfold submit_decision.
  destruct data as [| entry data]; [discriminate Hrow |].
  cbn [truthy negb get]. rewrite Hrow. cbn [bind].
  destruct stored; try reflexivity. discriminate Hkind.
Qed.

Lemma response_must_be_a_dict_witness :
  let data := [(lit "id", JStr (lit "r5")); (lit "status", JStr (lit "PROCESSING"));
               (lit "raw_response", JNull)] in
  let decision := DecisionRequest.mk (lit "r5") Decision_APPROVE None None in
  lookup (lit "raw_response") data = Some JNull
  /\ isinstance_dict JNull = false
  /\ submit_decision (JDict data) decision (JStr (lit "o1"))
     = Unhandled AttributeError.
Proof.
  intros data decision.
  do 2 (split; [reflexivity |]).
  exact (@response_must_be_a_dict data JNull decision (JStr (lit "o1"))
           eq_refl eq_refl).
Defined.
